(** * Dopamine Hero: the session-reward and currency-ledger engine

    A shallow embedding of the reward calculator
    ([FocusSessionService.calculateEnergyEarned],
    [calculateDopamineEarned], the coding standards' [calculateEnergy]),
    of the focus-session service ([createSession], [startSession],
    [completeSession]) with the route validators in front of it, and of
    [CurrencyService.processSessionRewards] together with the
    [user_currency_balances] / [currency_transactions] schema it writes
    to.

    JavaScript numbers are IEEE 754 binary64 values; they are modelled
    bit-exactly with the Standard Library's [spec_float] at precision 53
    and maximal exponent 1024.  PostgreSQL [DECIMAL(p,s)] columns are
    modelled as scaled integers (plus PostgreSQL's numeric NaN).

    Asynchronous methods become functions from the state of the database
    and of the cache to an outcome, a value or a thrown error, and the new
    state.  The clock reading ([new Date()], [CURRENT_TIMESTAMP]) and the
    identifier the database generates for a new row are arguments of the
    operations that use them; log lines are not modelled. *)

From Stdlib Require Import ZArith Bool List Lia.
From Stdlib Require Import Floats.SpecFloat.
From stdpp Require Import base option strings gmap.

Local Open Scope Z_scope.

(** ** JavaScript numbers *)

Module Js.

Definition number : Type := spec_float.

Definition prec : Z := 53.
Definition emax : Z := 1024.

Definition NaN : number := S754_nan.

(** An integer literal, or an integer converted to a number. *)
Definition of_Z (z : Z) : number := binary_normalize prec emax z 0 false.

Definition add (x y : number) : number := SFadd prec emax x y.
Definition sub (x y : number) : number := SFsub prec emax x y.
Definition mul (x y : number) : number := SFmul prec emax x y.
Definition div (x y : number) : number := SFdiv prec emax x y.

(** [x < y], [x <= y], [x > y], [x >= y]: all false on NaN. *)
Definition ltb (x y : number) : bool := SFltb x y.
Definition leb (x y : number) : bool := SFleb x y.
Definition gtb (x y : number) : bool := SFltb y x.
Definition geb (x y : number) : bool := SFleb y x.

(** A decimal literal [n / 10^k], such as [1.15]: the double nearest
    to the decimal, which is what the correctly rounded quotient of
    the two (exactly representable) integers is. *)
Definition dec (n : Z) (k : Z) : number := div (of_Z n) (of_Z (10 ^ k)).

(** [ToBoolean] on a number: [0], [-0] and [NaN] are falsy. *)
Definition truthy (x : number) : bool :=
  match x with
  | S754_zero _ | S754_nan => false
  | _ => true
  end.

(** [Math.max] of two arguments: NaN if either is, [+0] above [-0]. *)
Definition Math_max (a b : number) : number :=
  match SFcompare a b with
  | None => NaN
  | Some Lt => b
  | Some Gt => a
  | Some Eq => match a with S754_zero true => b | _ => a end
  end.

(** [Math.round]: the integer nearest to [x], ties towards +infinity,
    that is [floor (x + 1/2)] computed exactly; a result of zero keeps
    the sign of [x].  With [x = (+/-) m * 2^e] and [e < 0],
    [x + 1/2 = ((+/-) 2m + 2^(-e)) / 2^(1-e)]. *)
Definition Math_round (x : number) : number :=
  match x with
  | S754_finite s m e =>
      if 0 <=? e then x
      else
        let n := (2 * cond_Zopp s (Zpos m) + 2 ^ (- e)) / 2 ^ (1 - e) in
        if n =? 0 then S754_zero s else of_Z n
  | _ => x
  end.

(** [Math.floor]. *)
Definition Math_floor (x : number) : number :=
  match x with
  | S754_finite s m e =>
      if 0 <=? e then x
      else
        let n := cond_Zopp s (Zpos m) / 2 ^ (- e) in
        if n =? 0 then S754_zero s else of_Z n
  | _ => x
  end.

(** The exact value of a finite number as a fraction [num / den]. *)
Definition exact (x : number) : option (Z * Z) :=
  match x with
  | S754_zero _ => Some (0, 1)
  | S754_finite s m e =>
      Some (if 0 <=? e then (cond_Zopp s (Zpos m) * 2 ^ e, 1)
            else (cond_Zopp s (Zpos m), 2 ^ (- e)))
  | _ => None
  end.

(** The same number, bit for bit. *)
Definition same (x y : number) : bool :=
  match x, y with
  | S754_zero a, S754_zero b => Bool.eqb a b
  | S754_infinity a, S754_infinity b => Bool.eqb a b
  | S754_nan, S754_nan => true
  | S754_finite a m e, S754_finite b n f => Bool.eqb a b && (m =? n)%positive && (e =? f)
  | _, _ => false
  end.

(** The double nearest to the decimal [n * 10^k], for a positive [n]:
    the integer [n * 10^k] rounded, or the correctly rounded quotient of
    the integers [n] and [10^(-k)]. *)
Definition of_decimal (n k : Z) : number :=
  match n with
  | Zpos p =>
      if 0 <=? k then binary_normalize prec emax (n * 10 ^ k) 0 false
      else SFdiv prec emax (S754_finite false p 0)
             (S754_finite false (Z.to_pos (10 ^ (- k))) 0)
  | _ => S754_zero false
  end.

(** The value of a number that is a whole number ([-0] is 0). *)
Definition to_integer (x : number) : option Z :=
  match x with
  | S754_zero _ => Some 0
  | S754_finite s m e =>
      if 0 <=? e then Some (cond_Zopp s (Zpos m * 2 ^ e))
      else if Zpos m mod 2 ^ (- e) =? 0 then Some (cond_Zopp s (Zpos m / 2 ^ (- e)))
      else None
  | _ => None
  end.

End Js.

Declare Scope js_scope.
Delimit Scope js_scope with js.
Infix "+" := Js.add : js_scope.
Infix "-" := Js.sub : js_scope.
Infix "*" := Js.mul : js_scope.
Infix "/" := Js.div : js_scope.
Infix "<?" := Js.ltb : js_scope.
Infix "<=?" := Js.leb : js_scope.
Infix ">?" := Js.gtb : js_scope.
Infix ">=?" := Js.geb : js_scope.


(** ** Data model (shared TypeScript interfaces) *)

Module Types.

(** [type TaskCategory = 'creative' | 'analytical' | 'physical' | 'learning'] *)
Inductive TaskCategory := creative | analytical | physical | learning.

(** [type TaskStatus = 'pending' | 'in_progress' | 'completed' | 'cancelled'] *)
Inductive TaskStatus := task_pending | task_in_progress | task_completed | task_cancelled.

(** [type SessionStatus = 'planned' | 'active' | 'completed' | 'abandoned' | 'paused'] *)
Inductive SessionStatus := planned | active | completed | abandoned | paused.

#[global] Instance TaskCategory_eq_dec : EqDecision TaskCategory.
Proof. solve_decision. Defined.
#[global] Instance TaskStatus_eq_dec : EqDecision TaskStatus.
Proof. solve_decision. Defined.
#[global] Instance SessionStatus_eq_dec : EqDecision SessionStatus.
Proof. solve_decision. Defined.

(** Dates are milliseconds since the epoch ([Date.prototype.getTime]). *)
Definition Date : Type := Z.

(** The fields of [Task] the services read or write. *)
Record Task := {
  task_id : string;
  task_userId : string;
  category : TaskCategory;
  task_status : TaskStatus;
  completedAt : option Date
}.

(** [interface FocusSession], with the joined [task] that
    [calculateEnergyEarned] dereferences. *)
Record FocusSession := {
  id : string;
  userId : string;
  taskId : option string;
  task : option Task;
  startTime : Date;
  endTime : option Date;
  plannedDuration : Z;
  actualDuration : option Js.number;
  status : SessionStatus;
  energyGenerated : option Js.number;
  dopamineGenerated : option Js.number;
  moduleConfigurationId : option string;
  interruptionCount : Js.number
}.

End Types.
Export Types.

(** ** Decimal.js, as far as the coding standards' reference uses it *)

Module DecimalJs.

(** An arbitrary-precision decimal [coeff * 10^exponent]. *)
Record t := { coeff : Z; exponent : Z }.

(** Decimal.js defaults: 20 significant digits, ROUND_HALF_UP. *)
Definition precision : Z := 20.

(** Division rounding to nearest, ties away from zero (ROUND_HALF_UP). *)
Definition div_half_up (n d : Z) : Z :=
  Z.sgn n * ((2 * Z.abs n + d) / (2 * d)).

Fixpoint digits_fuel (fuel : nat) (n : Z) : Z :=
  match fuel with
  | O => 0
  | S f => if n =? 0 then 0 else 1 + digits_fuel f (n / 10)
  end.

(** Number of decimal digits of [n]. *)
Definition digits10 (n : Z) : Z :=
  digits_fuel (Z.to_nat (Z.log2 (Z.abs n) + 1)) (Z.abs n).

(** Rounding of a result to [precision] significant digits. *)
Definition finalise (x : t) : t :=
  let extra := digits10 (coeff x) - precision in
  if 0 <? extra
  then {| coeff := div_half_up (coeff x) (10 ^ extra);
          exponent := exponent x + extra |}
  else x.

(** [new Decimal(n)] for a whole number [n]. *)
Definition of_Z (n : Z) : t := {| coeff := n; exponent := 0 |}.

(** [x.mul(y)]: a new Decimal; [x] is not modified. *)
Definition mul (x y : t) : t :=
  finalise {| coeff := coeff x * coeff y; exponent := exponent x + exponent y |}.

(** [x.toDecimalPlaces(dp)]. *)
Definition toDecimalPlaces (dp : Z) (x : t) : t :=
  let extra := - exponent x - dp in
  if 0 <? extra
  then {| coeff := div_half_up (coeff x) (10 ^ extra); exponent := - dp |}
  else x.

(** [x.toNumber()]: the double nearest to [x] (coefficients and powers
    of ten below 2^53 convert exactly, so the quotient is correctly
    rounded). *)
Definition toNumber (x : t) : Js.number :=
  if 0 <=? exponent x
  then Js.of_Z (coeff x * 10 ^ exponent x)
  else Js.div (Js.of_Z (coeff x)) (Js.of_Z (10 ^ (- exponent x))).

End DecimalJs.

Module Standards.

(** Modelled from the spec: the constant [CATEGORY_BONUSES] that
    [calculateEnergy] reads is not in the sources.  Its entries are the
    category multipliers (analytical 1.20, learning 1.15, creative 1.10,
    physical 0.90), as Decimal.js reads the number literals. *)
Definition CATEGORY_BONUSES (c : TaskCategory) : option DecimalJs.t :=
  match c with
  | analytical => Some {| DecimalJs.coeff := 12; DecimalJs.exponent := -1 |}
  | learning => Some {| DecimalJs.coeff := 115; DecimalJs.exponent := -2 |}
  | creative => Some {| DecimalJs.coeff := 11; DecimalJs.exponent := -1 |}
  | physical => Some {| DecimalJs.coeff := 9; DecimalJs.exponent := -1 |}
  end.

(** [CATEGORY_BONUSES[session.task?.category] || 1] *)
Definition categoryBonus (session : FocusSession) : DecimalJs.t :=
  match task session with
  | Some t =>
      match CATEGORY_BONUSES (category t) with
      | Some b => if negb (DecimalJs.coeff b =? 0) then b else DecimalJs.of_Z 1
      | None => DecimalJs.of_Z 1
      end
  | None => DecimalJs.of_Z 1
  end.

(** The coding standards' [calculateEnergy], on a duration in whole
    minutes.  The product [withBonus.mul(1.1)] is computed and dropped,
    as in the source: Decimal values are immutable. *)
Definition calculateEnergy (session : FocusSession) (duration : Z) : DecimalJs.t :=
  let baseEnergy := DecimalJs.of_Z duration in
  (* Apply category bonuses *)
  let withBonus := DecimalJs.mul baseEnergy (categoryBonus session) in
  (* Apply duration bonuses *)
  let _ :=
    if 25 <=? duration
    then Some (DecimalJs.mul withBonus {| DecimalJs.coeff := 11; DecimalJs.exponent := -1 |})
    else None in
  DecimalJs.toDecimalPlaces 2 withBonus.

End Standards.

(** ** Numbers as the database driver sends them *)

(** A number bound to a query parameter travels as text, the result of
    [Number.prototype.toString]: the decimal with the fewest significant
    digits that converts back to the same number and, among those, the
    one nearest to it. *)
Module ToString.

(** The search for the digits of a positive [x = num / den], from the
    power of ten [10^E] downwards: the first [E] at which a multiple of
    [10^E] next to [x] converts back to [x].  Seventeen significant
    digits always do; should the fuel run out, which it does only on
    values of the type that are not doubles, the answer is none. *)
Fixpoint shortest_fuel (fuel : nat) (x : Js.number) (num den : Z) (E : Z)
  : option (Z * Z) :=
  match fuel with
  | O => None
  | S f =>
      let sn := if 0 <=? E then num else num * 10 ^ (- E) in
      let sd := if 0 <=? E then den * 10 ^ E else den in
      let lo := sn / sd in
      let hi := lo + 1 in
      let ok_lo := Js.same (Js.of_decimal lo E) x in
      let ok_hi := Js.same (Js.of_decimal hi E) x in
      if ok_lo && ok_hi then
        if 2 * sn <? (lo + hi) * sd then Some (lo, E)
        else if (lo + hi) * sd <? 2 * sn then Some (hi, E)
        else if Z.even lo then Some (lo, E) else Some (hi, E)
      else if ok_lo then Some (lo, E)
      else if ok_hi then Some (hi, E)
      else shortest_fuel f x num den (E - 1)
  end.

(** The [n] with [10^(n-1) <= num / den < 10^n]. *)
Definition magnitude (num den : Z) : Z :=
  if den <=? num then DecimalJs.digits10 (num / den)
  else 1 - DecimalJs.digits10 (den / num).

(** The digits [s] and the exponent [E] of the text of the positive
    number [m * 2^e]: its value is [s * 10^E].  The fallback is the
    exact value. *)
Definition shortest (m : positive) (e : Z) : Z * Z :=
  let num := if 0 <=? e then Zpos m * 2 ^ e else Zpos m in
  let den := if 0 <=? e then 1 else 2 ^ (- e) in
  match shortest_fuel 20 (S754_finite false m e) num den (magnitude num den) with
  | Some r => r
  | None => if 0 <=? e then (Zpos m * 2 ^ e, 0) else (Zpos m * 5 ^ (- e), e)
  end.

(** Whether the text is written without an exponent, as it is below
    [10^21]; the text of a whole number is then its digits. *)
Definition plain_integer (x : Js.number) : option Z :=
  match Js.to_integer x with
  | Some z => if Z.abs z <? 10 ^ 21 then Some z else None
  | None => None
  end.

End ToString.

(** ** PostgreSQL numeric columns *)

Module Pg.

(** A [DECIMAL(p,s)] value: PostgreSQL's numeric NaN, or a whole number
    of [10^-s] units. *)
Inductive numeric := NaN | Val (units : Z).

#[global] Instance numeric_eq_dec : EqDecision numeric.
Proof. solve_decision. Defined.

Definition add (a b : numeric) : numeric :=
  match a, b with Val x, Val y => Val (x + y) | _, _ => NaN end.

Definition sub (a b : numeric) : numeric :=
  match a, b with Val x, Val y => Val (x - y) | _, _ => NaN end.

(** [a >= 0], as a CHECK constraint evaluates it: NaN sorts above every
    number. *)
Definition nonneg (a : numeric) : bool :=
  match a with Val x => 0 <=? x | NaN => true end.

(** PostgreSQL's order on numeric values: NaN is the greatest. *)
Definition le (a b : numeric) : Prop :=
  match a, b with
  | Val x, Val y => x <= y
  | _, NaN => True
  | NaN, Val _ => False
  end.

(** [a IS DISTINCT FROM b]; NaN equals NaN. *)
Definition is_distinct (a b : numeric) : bool :=
  match a, b with
  | Val x, Val y => negb (x =? y)
  | NaN, NaN => false
  | _, _ => true
  end.

(** Whether a value fits precision [p] (at most [p] digits). *)
Definition fits (p : Z) (a : numeric) : bool :=
  match a with Val x => Z.abs x <? 10 ^ p | NaN => true end.

(** The decimal [digits * 10^E] at scale [s]: the nearest multiple of
    [10^-s], ties away from zero. *)
Definition round_scale (s : Z) (digits E : Z) : Z :=
  if 0 <=? E + s then digits * 10 ^ (E + s)
  else DecimalJs.div_half_up digits (10 ^ (- (E + s))).

(** A number bound to a query parameter and assigned to a column of
    scale [s]: the decimal of its text, rounded to the scale.  A column
    with a precision holds no infinity. *)
Definition of_number (s : Z) (x : Js.number) : option numeric :=
  match x with
  | S754_nan => Some NaN
  | S754_zero _ => Some (Val 0)
  | S754_finite sg m e =>
      let '(digits, E) := ToString.shortest m e in
      Some (Val (cond_Zopp sg (round_scale s digits E)))
  | S754_infinity _ => None
  end.

(** [a + $n] assigned to a column of scale [s], where [a] is a value of
    the column and the parameter is bound to [x]: the parameter is the
    decimal of the number's text, the sum is exact, and the assignment
    rounds it to the scale, ties away from zero.  NaN plus anything is
    NaN (PostgreSQL 15); an infinite sum does not fit the column. *)
Definition plus (s : Z) (a : numeric) (x : Js.number) : option numeric :=
  match a, x with
  | NaN, _ => Some NaN
  | Val _, S754_nan => Some NaN
  | Val u, S754_zero _ => Some (Val u)
  | Val u, S754_finite sg m e =>
      let '(digits, E) := ToString.shortest m e in
      Some (Val (if 0 <=? E + s then u + cond_Zopp sg (digits * 10 ^ (E + s))
                 else DecimalJs.div_half_up
                        (u * 10 ^ (- (E + s)) + cond_Zopp sg digits)
                        (10 ^ (- (E + s)))))
  | Val _, S754_infinity _ => None
  end.

(** An [INTEGER] column holds the whole numbers of 32 bits. *)
Definition int4 (z : Z) : bool := (- 2 ^ 31 <=? z) && (z <? 2 ^ 31).

(** A number bound to a parameter of an [INTEGER] column: its text must
    be an integer literal within the range. *)
Definition int4_of_number (x : Js.number) : option Z :=
  match ToString.plain_integer x with
  | Some z => if int4 z then Some z else None
  | None => None
  end.

(** A column of scale [s] parsed to a number by the service. *)
Definition to_number (s : Z) (a : numeric) : Js.number :=
  match a with Val x => Js.dec x s | NaN => Js.NaN end.

(** The decimal digits of a whole number that is not negative. *)
Fixpoint digits_text (fuel : nat) (n : Z) (acc : string) : string :=
  match fuel with
  | O => acc
  | S f =>
      let acc' := String (Ascii.ascii_of_nat (48 + Z.to_nat (n mod 10))) acc in
      if n / 10 =? 0 then acc' else digits_text f (n / 10) acc'
  end.

Definition whole_text (n : Z) : string :=
  digits_text (Z.to_nat (Z.log2 n + 1)) n "".

(** The text of a column of scale [s], as the server writes it and the
    driver hands it over: all [s] decimals are written. *)
Definition to_text (s : Z) (a : numeric) : string :=
  match a with
  | NaN => "NaN"
  | Val x =>
      (if x <? 0 then "-" else "") +:+
      whole_text (Z.abs x / 10 ^ s) +:+
      (if 0 <? s
       then "." +:+ match whole_text (10 ^ s + Z.abs x mod 10 ^ s) with
                    | String _ fraction => fraction
                    | EmptyString => ""
                    end
       else "")
  end.

End Pg.

(** ** Persistent state *)

(** A row of [user_currency_balances]; energy columns are
    [DECIMAL(10,2)], dopamine columns [DECIMAL(10,4)]. *)
Record BalanceRow := {
  energy_balance : Pg.numeric;
  dopamine_balance : Pg.numeric;
  total_energy_earned : Pg.numeric;
  total_dopamine_earned : Pg.numeric;
  last_updated : Date
}.

(** A row of [currency_transactions] (its generated [id] and the
    [metadata] document are left out). *)
Record CurrencyTransaction := {
  user_id : string;
  transaction_type : string;
  energy_amount : Pg.numeric;
  dopamine_amount : Pg.numeric;
  balance_after_energy : Pg.numeric;
  balance_after_dopamine : Pg.numeric;
  reference_id : option string;
  reference_type : option string;
  created_at : Date
}.

(** [interface ModulePreset], the fields [validateModuleConfiguration]
    reads; [configuration] holds the [userModuleId] of each entry. *)
Record ModulePreset := {
  preset_userId : string;
  isActive : bool;
  configuration : list string;
  dopamineGenerationRate : Js.number
}.

(** [interface UserModule]. *)
Record UserModule := {
  um_userId : string;
  moduleId : string
}.

Record Database := {
  tasks : gmap string Task;
  focus_sessions : gmap string FocusSession;
  module_presets : gmap string ModulePreset;
  user_modules : list UserModule;
  user_currency_balances : gmap string BalanceRow;
  currency_transactions : list CurrencyTransaction
}.

(** The JSON document cached under [session:<id>]: the session's fields
    and, when the writer put it there, [dopamineGenerationRate]. *)
Record CachedSession := {
  cached_session : FocusSession;
  cached_dopamineGenerationRate : option Js.number
}.

Record RedisEntry := {
  expiresAt : Date;
  payload : CachedSession
}.

Record World := {
  db : Database;
  redis : gmap string RedisEntry
}.

(** ** Errors and outcomes *)

Inductive Error :=
  | PlainError (message : string)          (* new Error(message) *)
  | ValidationError (message : string)
  | DatabaseError (message : string)
  | PgError (message : string)             (* raised by the database *)
  | RequestRejected (fields : list string) (* validateRequest *).

Inductive Outcome (A : Type) :=
  | Ok (a : A)
  | Throw (e : Error).
Arguments Ok {A} a.
Arguments Throw {A} e.

(** ** Database layer *)

Module DatabaseService.

(** [DatabaseService.transaction]: BEGIN, the callback, then COMMIT; a
    throwing callback is rolled back and its error rethrown. *)
Definition transaction {A} (callback : Database -> Outcome (A * Database))
    (d : Database) : Outcome A * Database :=
  match callback d with
  | Ok (a, d') => (Ok a, d')
  | Throw e => (Throw e, d)
  end.

Definition set_balances (rows : gmap string BalanceRow)
    (log : list CurrencyTransaction) (d : Database) : Database :=
  {| tasks := tasks d; focus_sessions := focus_sessions d;
     module_presets := module_presets d; user_modules := user_modules d;
     user_currency_balances := rows; currency_transactions := log |}.

Definition set_focus_sessions (rows : gmap string FocusSession) (d : Database)
  : Database :=
  {| tasks := tasks d; focus_sessions := rows;
     module_presets := module_presets d; user_modules := user_modules d;
     user_currency_balances := user_currency_balances d;
     currency_transactions := currency_transactions d |}.

Definition set_tasks (rows : gmap string Task) (d : Database) : Database :=
  {| tasks := rows; focus_sessions := focus_sessions d;
     module_presets := module_presets d; user_modules := user_modules d;
     user_currency_balances := user_currency_balances d;
     currency_transactions := currency_transactions d |}.

(** The trigger function [log_currency_transaction], fired AFTER UPDATE
    for each row of [user_currency_balances].  The trigger is created
    without arguments, so [TG_ARGV[0]] and [TG_ARGV[1]] are NULL. *)
Definition log_currency_transaction (now : Date) (userId : string)
    (OLD NEW : BalanceRow) : list CurrencyTransaction :=
  (* Log energy transaction *)
  (if Pg.is_distinct (energy_balance NEW) (energy_balance OLD)
   then [ {| user_id := userId; transaction_type := "balance_update";
             energy_amount := Pg.sub (energy_balance NEW) (energy_balance OLD);
             dopamine_amount := Pg.Val 0;
             balance_after_energy := energy_balance NEW;
             balance_after_dopamine := dopamine_balance NEW;
             reference_id := None; reference_type := None;
             created_at := now |} ]
   else []) ++
  (* Log dopamine transaction *)
  (if Pg.is_distinct (dopamine_balance NEW) (dopamine_balance OLD)
   then [ {| user_id := userId; transaction_type := "balance_update";
             energy_amount := Pg.Val 0;
             dopamine_amount := Pg.sub (dopamine_balance NEW) (dopamine_balance OLD);
             balance_after_energy := energy_balance NEW;
             balance_after_dopamine := dopamine_balance NEW;
             reference_id := None; reference_type := None;
             created_at := now |} ]
   else []).

(** The column types and CHECK constraints of [user_currency_balances]. *)
Definition balance_row_ok (r : BalanceRow) : bool :=
  Pg.fits 10 (energy_balance r) && Pg.fits 10 (dopamine_balance r) &&
  Pg.fits 10 (total_energy_earned r) && Pg.fits 10 (total_dopamine_earned r) &&
  Pg.nonneg (energy_balance r) && Pg.nonneg (dopamine_balance r) &&
  Pg.nonneg (total_energy_earned r) && Pg.nonneg (total_dopamine_earned r).

(** The statement of [processSessionRewards]:
<<
    UPDATE user_currency_balances
       SET energy_balance = energy_balance + $1,
           dopamine_balance = dopamine_balance + $2,
           total_energy_earned = total_energy_earned + $1,
           total_dopamine_earned = total_dopamine_earned + $2,
           last_updated = CURRENT_TIMESTAMP
     WHERE user_id = $3
>>
    followed by the row trigger.  [credit_row] is the SET clause: each
    sum is assigned to its column, which rounds it to the column's
    scale. *)
Definition credit_row (now : Date) (OLD : BalanceRow) (p1 p2 : Js.number)
  : option BalanceRow :=
  match Pg.plus 2 (energy_balance OLD) p1, Pg.plus 4 (dopamine_balance OLD) p2,
        Pg.plus 2 (total_energy_earned OLD) p1,
        Pg.plus 4 (total_dopamine_earned OLD) p2 with
  | Some e, Some dp, Some te, Some td =>
      Some {| energy_balance := e;
              dopamine_balance := dp;
              total_energy_earned := te;
              total_dopamine_earned := td;
              last_updated := now |}
  | _, _, _, _ => None
  end.

Definition update_balances (now : Date) (p1 p2 : Js.number) (p3 : string)
    (d : Database) : Outcome (unit * Database) :=
  match user_currency_balances d !! p3 with
  | None => Ok (tt, d)
  | Some OLD =>
      match credit_row now OLD p1 p2 with
      | Some NEW =>
          if balance_row_ok NEW
          then Ok (tt, set_balances (<[p3 := NEW]> (user_currency_balances d))
                         (currency_transactions d ++
                            log_currency_transaction now p3 OLD NEW) d)
          else Throw (PgError "new row violates a column type or check constraint")
      | None => Throw (PgError "numeric field overflow")
      end
  end.

End DatabaseService.

(** ** Shared constants *)

(** [CURRENCY_CONSTANTS] of [packages/shared/src/constants/currency.ts]:
    the entries the services and the claims refer to. *)
Module CURRENCY_CONSTANTS.
Definition ENERGY_MAX_BALANCE : Js.number := Js.of_Z 10000.
Definition DOPAMINE_MAX_BALANCE : Js.number := Js.of_Z 1000000.
Definition MIN_SESSION_DURATION : Z := 1.
Definition MAX_SESSION_DURATION : Z := 480.
End CURRENCY_CONSTANTS.

(** ** The ledger: CurrencyService *)

Module CurrencyService.

Record Balances := { energy : Js.number; dopamine : Js.number }.

(** Modelled from the spec: [getBalancesWithLock] is not in the sources.
    It reads the user's current balances under a lock on the row; a
    missing row is a hard failure (it is never created here). *)
Definition getBalancesWithLock (client : Database) (userId : string)
  : Outcome Balances :=
  match user_currency_balances client !! userId with
  | Some row =>
      Ok {| energy := Pg.to_number 2 (energy_balance row);
            dopamine := Pg.to_number 4 (dopamine_balance row) |}
  | None => Throw (PlainError "UserNotFound")
  end.

(** The callback that [processSessionRewards] runs in a transaction. *)
Definition rewards_transaction (now : Date) (userId : string)
    (energyAmount dopamineAmount : Js.number) (client : Database)
  : Outcome (unit * Database) :=
  (* Get current balances *)
  match getBalancesWithLock client userId with
  | Throw e => Throw e
  | Ok currentBalances =>
      (* Validate energy amount *)
      if (energyAmount <? Js.of_Z 0)%js
      then Throw (ValidationError "Energy reward cannot be negative")
      else
        (* Check for overflow *)
        let newEnergyBalance := (energy currentBalances + energyAmount)%js in
        let newDopamineBalance := (dopamine currentBalances + dopamineAmount)%js in
        if (newEnergyBalance >? CURRENCY_CONSTANTS.ENERGY_MAX_BALANCE)%js
        then Throw (ValidationError "Energy balance would exceed maximum limit")
        else
          (* Update balances *)
          DatabaseService.update_balances now energyAmount dopamineAmount userId client
  end.

(** [CurrencyService.processSessionRewards]; [sessionId] only reaches
    the log lines.  Errors other than [ValidationError] are rethrown as
    [DatabaseError]. *)
Definition processSessionRewards (now : Date) (userId : string)
    (energyAmount dopamineAmount : Js.number) (sessionId : string)
    (d : Database) : Outcome unit * Database :=
  match DatabaseService.transaction
          (rewards_transaction now userId energyAmount dopamineAmount) d with
  | (Ok r, d') => (Ok r, d')
  | (Throw (ValidationError m), d') => (Throw (ValidationError m), d')
  | (Throw _, d') => (Throw (DatabaseError "Failed to process session rewards"), d')
  end.

End CurrencyService.

(** ** Session rows and the session cache *)

(** [if (v)] on an optional string: [undefined] and [''] are falsy. *)
Definition truthy_str (v : option string) : bool :=
  match v with
  | Some s => negb (String.eqb s "")
  | None => false
  end.

Module FocusSessionModel.

(** The column types of [focus_sessions]: [planned_duration],
    [actual_duration] and [interruption_count] are [INTEGER],
    [energy_generated] is [DECIMAL(10,2)] and [dopamine_generated] is
    [DECIMAL(10,4)]; the two durations and the rewards may be NULL. *)
Definition integer_column (v : option Js.number) : bool :=
  match v with
  | Some x => match Pg.int4_of_number x with Some _ => true | None => false end
  | None => true
  end.

Definition decimal_column (s : Z) (v : option Js.number) : bool :=
  match v with
  | Some x =>
      match Pg.of_number s x with
      | Some p => Pg.fits 10 p
      | None => false
      end
  | None => true
  end.

Definition types_ok (r : FocusSession) : bool :=
  Pg.int4 (plannedDuration r) && integer_column (actualDuration r) &&
  decimal_column 2 (energyGenerated r) && decimal_column 4 (dopamineGenerated r) &&
  integer_column (Some (interruptionCount r)).

(** The CHECK constraints of [focus_sessions]: [planned_duration >= 1],
    [energy_generated >= 0], [dopamine_generated >= 0],
    [interruption_count >= 0], each on the value as the column stores it
    (NULL and NaN pass). *)
Definition not_negative (s : Z) (v : option Js.number) : bool :=
  match v with
  | Some x =>
      match Pg.of_number s x with
      | Some p => Pg.nonneg p
      | None => true
      end
  | None => true
  end.

Definition count_not_negative (x : Js.number) : bool :=
  match Pg.int4_of_number x with
  | Some k => 0 <=? k
  | None => true
  end.

Definition checks_ok (r : FocusSession) : bool :=
  (1 <=? plannedDuration r) && not_negative 2 (energyGenerated r) &&
  not_negative 4 (dopamineGenerated r) && count_not_negative (interruptionCount r).

(** A row the table accepts. *)
Definition row_ok (r : FocusSession) : bool := types_ok r && checks_ok r.

(** The error of a row the table refuses: the conversion to the column
    types comes first. *)
Definition row_error (r : FocusSession) : Error :=
  if types_ok r then PgError "new row violates check constraint"
  else PgError "value out of range for the column type".

(** The row as the service sees it, with the task joined. *)
Definition join (d : Database) (r : FocusSession) : FocusSession :=
  {| id := id r; userId := userId r; taskId := taskId r;
     task := taskId r ≫= (fun t => tasks d !! t);
     startTime := startTime r; endTime := endTime r;
     plannedDuration := plannedDuration r; actualDuration := actualDuration r;
     status := status r; energyGenerated := energyGenerated r;
     dopamineGenerated := dopamineGenerated r;
     moduleConfigurationId := moduleConfigurationId r;
     interruptionCount := interruptionCount r |}.

(** Modelled from the spec: [FocusSessionModel] is not in the sources.
    [findById] returns the stored row (or nothing). *)
Definition findById (d : Database) (sessionId : string) : option FocusSession :=
  join d <$> (focus_sessions d !! sessionId).

(** Modelled from the spec: [create] inserts one row under the
    generated [newId], subject to the table's constraints, and returns
    it. *)
Definition create (newId : string) (row : FocusSession) (d : Database)
  : Outcome FocusSession * Database :=
  match focus_sessions d !! newId with
  | Some _ => (Throw (PgError "duplicate key value"), d)
  | None =>
      if row_ok row
      then (Ok (join d row),
            DatabaseService.set_focus_sessions (<[newId := row]> (focus_sessions d)) d)
      else (Throw (row_error row), d)
  end.

(** Modelled from the spec: [update] overwrites the given fields of one
    row, subject to the table's constraints, and returns the row. *)
Definition update (sessionId : string) (fields : FocusSession -> FocusSession)
    (d : Database) : Outcome FocusSession * Database :=
  match focus_sessions d !! sessionId with
  | None => (Throw (PgError "no such row"), d)
  | Some old =>
      let row := fields old in
      if row_ok row
      then (Ok (join d row),
            DatabaseService.set_focus_sessions (<[sessionId := row]> (focus_sessions d)) d)
      else (Throw (row_error row), d)
  end.

End FocusSessionModel.

Module TaskModel.

(** The trigger function [update_user_statistics], fired AFTER INSERT OR
    UPDATE for each row of [tasks], on an UPDATE.  Where it counts a
    completion it runs
<<
    UPDATE user_statistics
       SET total_tasks_completed = total_tasks_completed + 1,
           productivity_by_category = jsonb_set(
               productivity_by_category,
               ARRAY[NEW.category::text],
               COALESCE((productivity_by_category->NEW.category::text)::int, 0) + 1),
           last_calculated = CURRENT_TIMESTAMP
     WHERE user_id = NEW.user_id
>>
    whose third argument of [jsonb_set] is an integer: PostgreSQL has no
    such function, the statement is refused when the trigger reaches it,
    and the error aborts the statement that fired the trigger.  The
    other paths of the trigger write nothing. *)
Definition update_user_statistics (OLD NEW : Task) : Outcome unit :=
  if negb (bool_decide (task_status NEW = task_status OLD))
  then
    if bool_decide (task_status NEW = task_completed)
       && negb (bool_decide (task_status OLD = task_completed))
    then Throw (PgError "function jsonb_set(jsonb, text[], integer) does not exist")
    else Ok tt
  else Ok tt.

(** Modelled from the spec: [TaskModel] is not in the sources.
    [update] overwrites the given fields of one row and returns it; the
    row trigger runs within the statement. *)
Definition update (taskId : string) (fields : Task -> Task) (d : Database)
  : Outcome Task * Database :=
  match tasks d !! taskId with
  | None => (Throw (PgError "no such row"), d)
  | Some old =>
      let row := fields old in
      match update_user_statistics old row with
      | Throw e => (Throw e, d)
      | Ok _ => (Ok row, DatabaseService.set_tasks (<[taskId := row]> (tasks d)) d)
      end
  end.

End TaskModel.

Module RedisService.

(** Modelled from the spec: the Redis client is not in the sources.
    [SETEX key seconds value], [GET key] (nothing once the entry has
    expired) and [DEL key]. *)
Definition setex (now : Date) (key : string) (seconds : Z) (value : CachedSession)
    (r : gmap string RedisEntry) : gmap string RedisEntry :=
  <[key := {| expiresAt := now + seconds * 1000; payload := value |}]> r.

Definition get (now : Date) (key : string) (r : gmap string RedisEntry)
  : option CachedSession :=
  match r !! key with
  | Some e => if now <? expiresAt e then Some (payload e) else None
  | None => None
  end.

Definition del (key : string) (r : gmap string RedisEntry) : gmap string RedisEntry :=
  delete key r.

End RedisService.

(** The cache key [`session:${id}`]. *)
Definition session_key (sessionId : string) : string := "session:" +:+ sessionId.

(** ** FocusSessionService *)

Module FocusSessionService.

Record CreateSessionData := {
  data_userId : string;
  data_taskId : option string;
  data_plannedDuration : Z;
  data_moduleConfigurationId : option string
}.

Record SessionCompletionResult := {
  session : FocusSession;
  energyEarned : Js.number;
  dopamineEarned : Js.number;
  taskCompleted : bool
}.

(** *** Reward calculation *)

(** The object literal [categoryBonuses] of [calculateEnergyEarned]. *)
Definition categoryBonuses (c : TaskCategory) : option Js.number :=
  match c with
  | analytical => Some (Js.dec 12 1)
  | creative => Some (Js.dec 11 1)
  | learning => Some (Js.dec 115 2)
  | physical => Some (Js.dec 9 1)
  end.

(** [v || d] where [v] is a number or [undefined]. *)
Definition or_default (v : option Js.number) (d : Js.number) : Js.number :=
  match v with
  | Some x => if Js.truthy x then x else d
  | None => d
  end.

(** [calculateEnergyEarned(session, duration)]. *)
Definition calculateEnergyEarned (session : FocusSession) (duration : Js.number)
  : Js.number :=
  (* Base energy calculation: 1 energy per minute *)
  let baseEnergy := duration in
  (* Task category bonuses *)
  let baseEnergy :=
    match task session with
    | Some t => (baseEnergy * or_default (categoryBonuses (category t)) (Js.of_Z 1))%js
    | None => baseEnergy
    end in
  (* Duration bonuses (reward longer sessions) *)
  let baseEnergy :=
    if (duration >=? Js.of_Z 25)%js then (baseEnergy * Js.dec 11 1)%js else baseEnergy in
  let baseEnergy :=
    if (duration >=? Js.of_Z 50)%js then (baseEnergy * Js.dec 12 1)%js else baseEnergy in
  (* Interruption penalties *)
  let baseEnergy :=
    if (interruptionCount session >? Js.of_Z 0)%js
    then (baseEnergy *
            Js.Math_max (Js.dec 5 1)
              (Js.of_Z 1 - interruptionCount session * Js.dec 1 1))%js
    else baseEnergy in
  (* Round to 2 decimal places *)
  (Js.Math_round (baseEnergy * Js.of_Z 100) / Js.of_Z 100)%js.

(** A property that may be absent from the parsed JSON: [undefined] is
    NaN in arithmetic. *)
Definition to_number (v : option Js.number) : Js.number :=
  match v with Some x => x | None => Js.NaN end.

(** [calculateDopamineEarned(session, duration)], reading the cache at
    time [now]. *)
Definition calculateDopamineEarned (now : Date) (redis : gmap string RedisEntry)
    (session : FocusSession) (duration : Js.number) : Js.number :=
  if negb (truthy_str (moduleConfigurationId session)) then Js.of_Z 0
  else
    match RedisService.get now (session_key (id session)) redis with
    | None =>
        (* Session cache not found for dopamine calculation *)
        Js.of_Z 0
    | Some cachedSession =>
        let dopamineGenerationRate :=
          to_number (cached_dopamineGenerationRate cachedSession) in
        (* Round to 4 decimal places *)
        (Js.Math_round (dopamineGenerationRate * duration * Js.of_Z 10000)
           / Js.of_Z 10000)%js
    end.

(** *** Access checks *)

Definition includes (x : string) (l : list string) : bool :=
  existsb (String.eqb x) l.

(** [validateModuleConfiguration(configId, userId)]. *)
Definition validateModuleConfiguration (d : Database) (configId userId : string)
  : Outcome ModulePreset :=
  match module_presets d !! configId with
  | None => Throw (PlainError "Module configuration not found or access denied")
  | Some preset =>
      if negb (String.eqb (preset_userId preset) userId)
      then Throw (PlainError "Module configuration not found or access denied")
      else if negb (isActive preset)
      then Throw (PlainError "Module configuration is not active")
      else
        (* Validate user owns all required modules *)
        let userModuleIds :=
          map moduleId
            (filter (fun um => String.eqb (um_userId um) userId = true)
               (user_modules d)) in
        let requiredModuleIds := configuration preset in
        match List.find (fun m => negb (includes m userModuleIds)) requiredModuleIds with
        | Some m => Throw (PlainError ("User does not own required module: " +:+ m))
        | None => Ok preset
        end
  end.

(** [validateSessionAccess(sessionId, userId)]. *)
Definition validateSessionAccess (d : Database) (sessionId userId : string)
  : Outcome FocusSession :=
  match FocusSessionModel.findById d sessionId with
  | None => Throw (PlainError "Focus session not found")
  | Some session =>
      if negb (String.eqb (Types.userId session) userId)
      then Throw (PlainError "Access denied to focus session")
      else Ok session
  end.

(** [updateTaskCompletion(taskId)]. *)
Definition updateTaskCompletion (now : Date) (taskId : string) (d : Database)
  : Outcome bool * Database :=
  match tasks d !! taskId with
  | None => (Ok false, d)
  | Some t =>
      if negb (bool_decide (task_status t = task_completed))
      then
        match TaskModel.update taskId
                (fun t => {| task_id := task_id t; task_userId := task_userId t;
                             category := category t; task_status := task_completed;
                             completedAt := Some now |}) d with
        | (Throw e, _) => (Throw e, d)
        | (Ok _, d') => (Ok true, d')
        end
      else (Ok false, d)
  end.

(** *** Session lifecycle *)

(** [createSession(data)]; [now] is the clock reading and [newId] the
    identifier the database generates for the row. *)
Definition createSession (now : Date) (newId : string) (data : CreateSessionData)
    (w : World) : Outcome FocusSession * World :=
  (* Validate user has access to task if specified *)
  let task_denied :=
    if truthy_str (data_taskId data)
    then match data_taskId data ≫= (fun t => tasks (db w) !! t) with
         | Some t => negb (String.eqb (task_userId t) (data_userId data))
         | None => true
         end
    else false in
  if task_denied then (Throw (PlainError "Task not found or access denied"), w)
  else
    (* Validate module configuration if specified *)
    let rate :=
      match data_moduleConfigurationId data with
      | Some configId =>
          if truthy_str (Some configId)
          then match validateModuleConfiguration (db w) configId (data_userId data) with
               | Ok preset => Ok (dopamineGenerationRate preset)
               | Throw e => Throw e
               end
          else Ok (Js.of_Z 0)
      | None => Ok (Js.of_Z 0)
      end in
    match rate with
    | Throw e => (Throw e, w)
    | Ok dopamineGenerationRate =>
        match FocusSessionModel.create newId
                {| id := newId; userId := data_userId data;
                   taskId := data_taskId data; task := None;
                   startTime := now; endTime := None;
                   plannedDuration := data_plannedDuration data;
                   actualDuration := None; status := planned;
                   energyGenerated := None; dopamineGenerated := None;
                   moduleConfigurationId := data_moduleConfigurationId data;
                   interruptionCount := Js.of_Z 0 |} (db w) with
        | (Throw e, _) => (Throw e, w)
        | (Ok session, d) =>
            (* Cache session in Redis for real-time updates *)
            (Ok session,
             {| db := d;
                redis :=
                  RedisService.setex now (session_key (id session))
                    (data_plannedDuration data * 60)
                    {| cached_session := session;
                       cached_dopamineGenerationRate := Some dopamineGenerationRate |}
                    (redis w) |})
        end
    end.

(** The fields [startSession] writes. *)
Definition started (now : Date) (r : FocusSession) : FocusSession :=
  {| id := id r; userId := Types.userId r; taskId := Types.taskId r; task := task r;
     startTime := now; endTime := endTime r;
     plannedDuration := plannedDuration r; actualDuration := actualDuration r;
     status := active; energyGenerated := energyGenerated r;
     dopamineGenerated := dopamineGenerated r;
     moduleConfigurationId := moduleConfigurationId r;
     interruptionCount := interruptionCount r |}.

(** [startSession(sessionId, userId)].  The cache entry is rewritten from
    the updated row, which has no [dopamineGenerationRate] property. *)
Definition startSession (now : Date) (sessionId userId : string) (w : World)
  : Outcome FocusSession * World :=
  match validateSessionAccess (db w) sessionId userId with
  | Throw e => (Throw e, w)
  | Ok session =>
      if negb (bool_decide (status session = planned))
      then (Throw (PlainError "Session can only be started from planned status"), w)
      else
        match FocusSessionModel.update sessionId (started now) (db w) with
        | (Throw e, _) => (Throw e, w)
        | (Ok updatedSession, d) =>
            (* Update Redis cache *)
            (Ok updatedSession,
             {| db := d;
                redis :=
                  RedisService.setex now (session_key sessionId)
                    (plannedDuration updatedSession * 60)
                    {| cached_session := updatedSession;
                       cached_dopamineGenerationRate := None |}
                    (redis w) |})
        end
  end.

(** The fields [completeSession] writes. *)
Definition finished (endTime : Date) (duration energyEarned dopamineEarned : Js.number)
    (r : FocusSession) : FocusSession :=
  {| id := id r; userId := Types.userId r; taskId := Types.taskId r; task := task r;
     startTime := startTime r; endTime := Some endTime;
     plannedDuration := plannedDuration r; actualDuration := Some duration;
     status := completed; energyGenerated := Some energyEarned;
     dopamineGenerated := Some dopamineEarned;
     moduleConfigurationId := moduleConfigurationId r;
     interruptionCount := interruptionCount r |}.

(** [actualDuration || Math.floor((endTime - startTime) / 1000 / 60)] *)
Definition session_duration (actualDuration : option Js.number)
    (endTime startTime : Date) : Js.number :=
  let elapsed :=
    Js.Math_floor ((Js.of_Z endTime - Js.of_Z startTime) / Js.of_Z 1000 / Js.of_Z 60)%js in
  match actualDuration with
  | Some a => if Js.truthy a then a else elapsed
  | None => elapsed
  end.

(** [completeSession(sessionId, userId, actualDuration?)]. *)
Definition completeSession (now : Date) (sessionId userId : string)
    (actualDuration : option Js.number) (w : World)
  : Outcome SessionCompletionResult * World :=
  match validateSessionAccess (db w) sessionId userId with
  | Throw e => (Throw e, w)
  | Ok session =>
      if negb (bool_decide (status session = active))
      then (Throw (PlainError "Only active sessions can be completed"), w)
      else
        let endTime := now in
        let duration := session_duration actualDuration endTime (startTime session) in
        (* Calculate energy earned *)
        let energyEarned := calculateEnergyEarned session duration in
        (* Calculate dopamine earned from module configuration *)
        let dopamineEarned := calculateDopamineEarned now (redis w) session duration in
        (* Update session *)
        match FocusSessionModel.update sessionId
                (finished endTime duration energyEarned dopamineEarned) (db w) with
        | (Throw e, _) => (Throw e, w)
        | (Ok updatedSession, d1) =>
            (* Process currency rewards *)
            match CurrencyService.processSessionRewards now userId energyEarned
                    dopamineEarned sessionId d1 with
            | (Throw e, d2) => (Throw e, {| db := d2; redis := redis w |})
            | (Ok _, d2) =>
                (* Update task completion if applicable *)
                match
                  match Types.taskId session with
                  | Some t =>
                      if truthy_str (Some t) then updateTaskCompletion now t d2
                      else (Ok false, d2)
                  | None => (Ok false, d2)
                  end
                with
                | (Throw e, d3) => (Throw e, {| db := d3; redis := redis w |})
                | (Ok taskCompleted, d3) =>
                    (* Clean up Redis cache *)
                    (Ok {| session := updatedSession; energyEarned := energyEarned;
                           dopamineEarned := dopamineEarned;
                           taskCompleted := taskCompleted |},
                     {| db := d3;
                        redis := RedisService.del (session_key sessionId) (redis w) |})
                end
            end
        end
  end.

End FocusSessionService.


(** ** The focus-sessions router *)

Module Router.
Section Validators.

(** express-validator's [isUUID] on a string. *)
Variable isUUID : string -> bool.

(** The body of [POST /]. *)
Record CreateBody := {
  body_taskId : option string;
  body_plannedDuration : Z;
  body_moduleConfigurationId : option string
}.

(** [.optional()]: an absent field passes. *)
Definition optional (check : string -> bool) (v : option string) : bool :=
  match v with
  | Some s => check s
  | None => true
  end.

(** [isInt({ min, max })] on an integer. *)
Definition isInt (min max : Z) (v : Z) : bool := (min <=? v) && (v <=? max).

(** The fields of [POST /] whose validation chain fails:
<<
    body('taskId').optional().isUUID(),
    body('plannedDuration').isInt({ min: 1, max: 120 }),
    body('moduleConfigurationId').optional().isUUID()
>> *)
Definition create_errors (b : CreateBody) : list string :=
  (if optional isUUID (body_taskId b) then [] else ["taskId"]) ++
  (if isInt 1 120 (body_plannedDuration b) then [] else ["plannedDuration"]) ++
  (if optional isUUID (body_moduleConfigurationId b) then [] else ["moduleConfigurationId"]).

(** [router.post('/')] for the authenticated user [user].
    Modelled from the spec: the [validateRequest] middleware is not in
    the sources; it rejects the request when a validation chain failed,
    before the handler runs. *)
Definition post_create (now : Date) (newId : string) (user : string) (b : CreateBody)
    (w : World) : Outcome FocusSession * World :=
  match create_errors b with
  | [] =>
      FocusSessionService.createSession now newId
        {| FocusSessionService.data_userId := user;
           FocusSessionService.data_taskId := body_taskId b;
           FocusSessionService.data_plannedDuration := body_plannedDuration b;
           FocusSessionService.data_moduleConfigurationId := body_moduleConfigurationId b |}
        w
  | errors => (Throw (RequestRejected errors), w)
  end.

End Validators.
End Router.

(** ** The formulas in the specification's words *)

Module Claimed.

(** Category multiplier in percent: analytical 1.20, learning 1.15,
    creative 1.10, physical 0.90, otherwise 1.00. *)
Definition category_percent (c : option TaskCategory) : Z :=
  match c with
  | Some analytical => 120
  | Some learning => 115
  | Some creative => 110
  | Some physical => 90
  | None => 100
  end.

(** The energy reward in hundredths, in exact arithmetic: [d] times the
    category multiplier, times 1.10 if [d >= 25] and a further 1.20 if
    [d >= 50], times [max(0.5, 1 - 0.1 k)], rounded half-up to two
    decimal places.  The product of the percentages is the reward times
    [10^8]. *)
Definition energy_hundredths (d k : Z) (c : option TaskCategory) : Z :=
  let product :=
    d * category_percent c * (if 25 <=? d then 110 else 100)
      * (if 50 <=? d then 120 else 100) * Z.max 50 (100 - 10 * k) in
  (2 * product + 10 ^ 6) / (2 * 10 ^ 6).

End Claimed.

(** ** Tools for the proofs *)

(** Structural equality of numbers, decided. *)
Definition number_eqb (x y : Js.number) : bool :=
  match x, y with
  | S754_zero a, S754_zero b => Bool.eqb a b
  | S754_infinity a, S754_infinity b => Bool.eqb a b
  | S754_nan, S754_nan => true
  | S754_finite a m e, S754_finite b n f => Bool.eqb a b && (m =? n)%positive && (e =? f)
  | _, _ => false
  end.

(** [forall_below n P]: [P] holds of [0], ..., [n - 1]. *)
Fixpoint forall_below (n : nat) (P : Z -> bool) : bool :=
  match n with
  | O => true
  | S m => P (Z.of_nat m) && forall_below m P
  end.

(** A session with a task of the given category (or none) and [k]
    interruptions, for the worked examples. *)
Definition example_session (c : option TaskCategory) (k : Z) (mc : option string)
  : FocusSession :=
  {| id := "s1"; userId := "u1"; taskId := None;
     task := (fun c => {| task_id := "t1"; task_userId := "u1"; category := c;
                          task_status := task_pending; completedAt := None |}) <$> c;
     startTime := 0; endTime := None; plannedDuration := 25;
     actualDuration := None; status := active;
     energyGenerated := None; dopamineGenerated := None;
     moduleConfigurationId := mc;
     interruptionCount := Js.of_Z k |}.

(** The service's energy reward is the claimed amount, for a task
    category or none, [k] interruptions and [d] minutes. *)
Definition energy_as_claimed (c : option TaskCategory) (k d : Z) : bool :=
  number_eqb
    (FocusSessionService.calculateEnergyEarned (example_session c k None) (Js.of_Z d))
    (Js.dec (Claimed.energy_hundredths d k c) 2).

(** A database with one user, ["u1"], holding the given balances (in
    hundredths of energy and ten-thousandths of dopamine), all of them
    earned. *)
Definition example_ledger (energy_units dopamine_units : Z) : Database :=
  {| tasks := ∅; focus_sessions := ∅; module_presets := ∅; user_modules := [];
     user_currency_balances :=
       {[ "u1" := {| energy_balance := Pg.Val energy_units;
                     dopamine_balance := Pg.Val dopamine_units;
                     total_energy_earned := Pg.Val energy_units;
                     total_dopamine_earned := Pg.Val dopamine_units;
                     last_updated := 0 |} ]};
     currency_transactions := [] |}.

(** The two calculations agree on a duration, for a task category or
    none, when the session has no interruption. *)
Definition agree_on (c : option TaskCategory) (d : Z) : bool :=
  number_eqb
    (DecimalJs.toNumber (Standards.calculateEnergy (example_session c 0 None) d))
    (FocusSessionService.calculateEnergyEarned (example_session c 0 None) (Js.of_Z d)).

(** A sequence of credit operations, each with its clock reading. *)
Record Credit := {
  credit_now : Date;
  credit_userId : string;
  credit_energyAmount : Js.number;
  credit_dopamineAmount : Js.number;
  credit_sessionId : string
}.

(** The database after a sequence of [processSessionRewards] calls (a
    failed call leaves it as it was). *)
Fixpoint run_credits (cs : list Credit) (d : Database) : Database :=
  match cs with
  | [] => d
  | c :: cs' =>
      run_credits cs'
        (snd (CurrencyService.processSessionRewards (credit_now c) (credit_userId c)
                (credit_energyAmount c) (credit_dopamineAmount c) (credit_sessionId c) d))
  end.

(** A world for the worked examples: user ["u1"] with an empty balance
    and an active preset ["p1"] generating 0.05 dopamine per minute, and
    one session ["s1"] of 25 planned minutes in the given status, started
    at time 0. *)
Definition example_world (st : SessionStatus) (mc : option string) : World :=
  {| db :=
       {| tasks := ∅;
          focus_sessions :=
            {[ "s1" := {| id := "s1"; userId := "u1"; taskId := None; task := None;
                          startTime := 0; endTime := None; plannedDuration := 25;
                          actualDuration := None; status := st;
                          energyGenerated := None; dopamineGenerated := None;
                          moduleConfigurationId := mc;
                          interruptionCount := Js.of_Z 0 |} ]};
          module_presets :=
            {[ "p1" := {| preset_userId := "u1"; isActive := true;
                          configuration := [];
                          dopamineGenerationRate := Js.dec 5 2 |} ]};
          user_modules := [];
          user_currency_balances := user_currency_balances (example_ledger 0 0);
          currency_transactions := [] |};
     redis := ∅ |}.

(** Session ["s1"] as [createSession] returns it in the examples. *)
Definition example_planned_session : FocusSession :=
  {| id := "s1"; userId := "u1"; taskId := None; task := None;
     startTime := 0; endTime := None; plannedDuration := 25;
     actualDuration := None; status := planned;
     energyGenerated := None; dopamineGenerated := None;
     moduleConfigurationId := Some "p1";
     interruptionCount := Js.of_Z 0 |}.

(** The same user and preset before any session exists. *)
Definition example_world_empty : World :=
  {| db := DatabaseService.set_focus_sessions ∅ (db (example_world planned None));
     redis := ∅ |}.

(** A session created at time 0 with preset ["p1"] for 25 minutes, then
    started at time 0. *)
Definition example_created : World :=
  snd (FocusSessionService.createSession 0 "s1"
         {| FocusSessionService.data_userId := "u1";
            FocusSessionService.data_taskId := None;
            FocusSessionService.data_plannedDuration := 25;
            FocusSessionService.data_moduleConfigurationId := Some "p1" |}
         example_world_empty).

Definition example_started : World :=
  snd (FocusSessionService.startSession 0 "s1" "u1" example_created).

(** ** The remaining session routes *)

Module SessionRoutes.
Section Validators.

(** express-validator's [isUUID] on a string. *)
Variable isUUID : string -> bool.

(** The fields of [POST /:sessionId/start] whose validation chain fails:
    [param('sessionId').isUUID()]. *)
Definition start_errors (sessionId : string) : list string :=
  if isUUID sessionId then [] else ["sessionId"].

(** [router.post('/:sessionId/start')] for the authenticated user. *)
Definition post_start (now : Date) (user sessionId : string) (w : World)
  : Outcome FocusSession * World :=
  match start_errors sessionId with
  | [] => FocusSessionService.startSession now sessionId user w
  | errors => (Throw (RequestRejected errors), w)
  end.

(** express-validator's [isInt({ min })] on a number: the validator
    reads the number's text, which must be an integer literal (so the
    number is whole and written without an exponent) of at least
    [min]. *)
Definition isInt_min (min : Z) (x : Js.number) : bool :=
  match ToString.plain_integer x with
  | Some z => min <=? z
  | None => false
  end.

(** The fields of [POST /:sessionId/complete] whose validation chain
    fails:
<<
    param('sessionId').isUUID(),
    body('actualDuration').optional().isInt({ min: 1 })
>>
    The body's [actualDuration] is a JSON number, as the request schema
    types it. *)
Definition complete_errors (sessionId : string) (actualDuration : option Js.number)
  : list string :=
  (if isUUID sessionId then [] else ["sessionId"]) ++
  (match actualDuration with
   | Some a => if isInt_min 1 a then [] else ["actualDuration"]
   | None => []
   end).

(** [router.post('/:sessionId/complete')] for the authenticated user; the
    response carries the service's result. *)
Definition post_complete (now : Date) (user sessionId : string)
    (actualDuration : option Js.number) (w : World)
  : Outcome FocusSessionService.SessionCompletionResult * World :=
  match complete_errors sessionId actualDuration with
  | [] => FocusSessionService.completeSession now sessionId user actualDuration w
  | errors => (Throw (RequestRejected errors), w)
  end.

End Validators.
End SessionRoutes.

(** ** Purchases (coding standards, database operations) *)

Module Purchases.
Section Driver.

(** [a < b] in JavaScript on two [DECIMAL] columns as the driver hands
    them over.  The driver is not part of the sources, so the comparison
    is left open: nothing proved below depends on it. *)
Variable less : Pg.numeric -> Pg.numeric -> bool.

(** The table [modules]: [base_energy_cost] by module id. *)
Variable modules : gmap string Pg.numeric.

(** The SET clause of
<<
    UPDATE user_currency_balances SET energy_balance = energy_balance - $1
     WHERE user_id = $2
>> *)
Definition spend_row (OLD : BalanceRow) (p1 : Pg.numeric) : BalanceRow :=
  {| energy_balance := Pg.sub (energy_balance OLD) p1;
     dopamine_balance := dopamine_balance OLD;
     total_energy_earned := total_energy_earned OLD;
     total_dopamine_earned := total_dopamine_earned OLD;
     last_updated := last_updated OLD |}.

(** Whether [user_modules] holds a row for the pair, which
    [UNIQUE(user_id, module_id)] allows once. *)
Definition owns (userId module : string) (rows : list UserModule) : bool :=
  existsb (fun um => String.eqb (um_userId um) userId && String.eqb (moduleId um) module)
    rows.

(** The callback that [purchaseModule] runs in a transaction.  Reading
    [rows[0]] of an empty result throws a [TypeError]; the cost read is
    the parameter of the UPDATE, which fires the logging trigger and is
    subject to the table's constraints, as is the INSERT. *)
Definition purchase_transaction (now : Date) (userId module : string)
    (client : Database) : Outcome (UserModule * Database) :=
  (* Get current balance *)
  match user_currency_balances client !! userId with
  | None => Throw (PlainError "Cannot read properties of undefined (reading 'energy_balance')")
  | Some OLD =>
      match modules !! module with
      | None =>
          Throw (PlainError "Cannot read properties of undefined (reading 'base_energy_cost')")
      | Some cost =>
          if less (energy_balance OLD) cost
          then Throw (PlainError "Insufficient energy")
          else
            (* Update balance *)
            let NEW := spend_row OLD cost in
            if negb (DatabaseService.balance_row_ok NEW)
            then Throw (PgError "new row violates a column type or check constraint")
            else
              (* Create user module *)
              if owns userId module (user_modules client)
              then Throw (PgError "duplicate key value violates unique constraint")
              else
                let newModule := {| um_userId := userId; moduleId := module |} in
                Ok (newModule,
                    {| tasks := tasks client; focus_sessions := focus_sessions client;
                       module_presets := module_presets client;
                       user_modules := user_modules client ++ [newModule];
                       user_currency_balances :=
                         <[userId := NEW]> (user_currency_balances client);
                       currency_transactions :=
                         currency_transactions client ++
                           DatabaseService.log_currency_transaction now userId OLD NEW |})
      end
  end.

(** [purchaseModule(userId, moduleId)]. *)
Definition purchaseModule (now : Date) (userId module : string) (d : Database)
  : Outcome UserModule * Database :=
  DatabaseService.transaction (purchase_transaction now userId module) d.

End Driver.
End Purchases.

(** ** The client's currency store (coding standards, state management) *)

Module CurrencyStore.

(** The state of [useCurrencyStore]; [lastUpdated] is absent until
    [addEnergy] sets it. *)
Record State := {
  energy : Js.number;
  dopamine : Js.number;
  lastUpdated : option Date
}.

Definition initial : State :=
  {| energy := Js.of_Z 0; dopamine := Js.of_Z 0; lastUpdated := None |}.

(** [addEnergy(amount)]: the partial state is merged into the store. *)
Definition addEnergy (now : Date) (amount : Js.number) (state : State) : State :=
  {| energy := (energy state + amount)%js;
     dopamine := dopamine state;
     lastUpdated := Some now |}.

(** [spendEnergy(amount)]. *)
Definition spendEnergy (amount : Js.number) (state : State) : State :=
  {| energy := Js.Math_max (Js.of_Z 0) (energy state - amount)%js;
     dopamine := dopamine state;
     lastUpdated := lastUpdated state |}.

(** The calls a component can make on the store. *)
Inductive Action :=
  | AddEnergy (now : Date) (amount : Js.number)
  | SpendEnergy (amount : Js.number).

Definition dispatch (a : Action) (state : State) : State :=
  match a with
  | AddEnergy now amount => addEnergy now amount state
  | SpendEnergy amount => spendEnergy amount state
  end.

End CurrencyStore.

(** A number that is not below zero: NaN, a zero of either sign, or a
    positive number.  It is what [x < 0] being false means. *)
Definition number_not_negative (x : Js.number) : bool :=
  match x with
  | S754_finite true _ _ | S754_infinity true => false
  | _ => true
  end.

(** A number with sign bit [s] that is not NaN. *)
Inductive signed (s : bool) : Js.number -> Prop :=
  | signed_zero : signed s (S754_zero s)
  | signed_finite m e : signed s (S754_finite s m e)
  | signed_infinity : signed s (S754_infinity s).

(** The most recent row of the transaction log written for a user. *)
Definition last_logged (user : string) (log : list CurrencyTransaction)
  : option CurrencyTransaction :=
  List.find (fun t => String.eqb (user_id t) user) (rev log).

(** The log agrees with the balances: for every user, the most recent
    row written for them carries their current balances. *)
Definition log_reconciled (d : Database) : Prop :=
  forall user row t,
    user_currency_balances d !! user = Some row ->
    last_logged user (currency_transactions d) = Some t ->
    balance_after_energy t = energy_balance row
    /\ balance_after_dopamine t = dopamine_balance row.

(** Every balance row satisfies the table's column types and CHECK
    constraints: balances and totals within ten digits and not negative. *)
Definition balances_ok (d : Database) : Prop :=
  forall user row, user_currency_balances d !! user = Some row -> DatabaseService.balance_row_ok row = true.

(** A cache holding session ["s1"] with the rate 0.05, as [createSession]
    writes it at time 0 for 25 planned minutes. *)
Definition example_cache : gmap string RedisEntry :=
  {[ session_key "s1" :=
       {| expiresAt := 1500000;
          payload := {| cached_session := example_planned_session;
                        cached_dopamineGenerationRate := Some (Js.dec 5 2) |} |} ]}.

(** The store after a sequence of calls, first to last. *)
Definition run_actions (actions : list CurrencyStore.Action) (state : CurrencyStore.State)
  : CurrencyStore.State :=
  fold_left (fun st a => CurrencyStore.dispatch a st) actions state.

(** An [addEnergy] call with an amount below zero. *)
Definition adds_negative (a : CurrencyStore.Action) : bool :=
  match a with
  | CurrencyStore.AddEnergy _ amount => (amount <? Js.of_Z 0)%js
  | CurrencyStore.SpendEnergy _ => false
  end.

(** User ["u1"] with 99.90 energy short of the maximum balance, and the
    active session ["s1"]. *)
Definition example_world_full : World :=
  {| db := DatabaseService.set_balances
             (user_currency_balances (example_ledger 999000 0)) []
             (db (example_world active None));
     redis := ∅ |}.

(** The row of session ["s1"] in [example_world]. *)
Definition example_row (st : SessionStatus) (mc : option string)
  : FocusSession :=
  {| id := "s1"; userId := "u1"; taskId := None; task := None;
     startTime := 0; endTime := None; plannedDuration := 25;
     actualDuration := None; status := st;
     energyGenerated := None; dopamineGenerated := None;
     moduleConfigurationId := mc;
     interruptionCount := Js.of_Z 0 |}.

(** The active session ["s1"] of user ["u1"], attached to preset ["p1"],
    with the cache entry written at its creation. *)
Definition example_world_cached : World :=
  {| db := db (example_world active (Some "p1")); redis := example_cache |}.

(** A catalogue with one module, ["m1"], costing 25.00 energy. *)
Definition example_modules : gmap string Pg.numeric := {[ "m1" := Pg.Val 2500 ]}.

(** The comparison the program makes when the driver hands [DECIMAL]
    columns over as text, as node-postgres does unless a parser is
    installed: [<] on two strings compares them character by character,
    so ['100.00' < '25.00'] holds. *)
Definition example_less (a b : Pg.numeric) : bool :=
  String.ltb (Pg.to_text 2 a) (Pg.to_text 2 b).

(** The pending learning task ["t1"] of user ["u1"], and the world of
    the examples with the active session ["s1"] attached to it. *)
Definition example_task : Task :=
  {| task_id := "t1"; task_userId := "u1"; category := learning;
     task_status := task_pending; completedAt := None |}.

Definition example_world_task : World :=
  {| db :=
       DatabaseService.set_tasks {[ "t1" := example_task ]}
         (DatabaseService.set_focus_sessions
            {[ "s1" := {| id := "s1"; userId := "u1"; taskId := Some "t1"; task := None;
                          startTime := 0; endTime := None; plannedDuration := 25;
                          actualDuration := None; status := active;
                          energyGenerated := None; dopamineGenerated := None;
                          moduleConfigurationId := None;
                          interruptionCount := Js.of_Z 0 |} ]}
            (db (example_world active None)));
     redis := ∅ |}.



(** * Properties *)

Lemma number_eqb_eq (x y : Js.number) : number_eqb x y = true -> x = y.
Proof.
  destruct x as [a|a| |a m e], y as [b|b| |b n f]; simpl; try discriminate;
    try reflexivity.
  - intros H. apply Bool.eqb_prop in H. now subst.
  - intros H. apply Bool.eqb_prop in H. now subst.
  - intros H. apply andb_prop in H as [H He]. apply andb_prop in H as [Hs Hm].
    apply Bool.eqb_prop in Hs. apply Pos.eqb_eq in Hm. apply Z.eqb_eq in He.
    now subst.
Qed.

Lemma forall_below_spec (n : nat) (P : Z -> bool) :
  forall_below n P = true -> forall z, 0 <= z < Z.of_nat n -> P z = true.
Proof.
  induction n as [|m IH]; simpl; intros H z Hz; [lia|].
  apply andb_prop in H as [Hm Hrest].
  destruct (Z.eq_dec z (Z.of_nat m)) as [->|Hne]; [exact Hm|].
  apply IH; [exact Hrest|lia].
Qed.

(** ** Numbers sent to the database *)

Section Conversions.

Lemma shortest_fuel_nonneg fuel x num den : forall E digits E',
  0 <= num -> 0 < den ->
  ToString.shortest_fuel fuel x num den E = Some (digits, E') -> 0 <= digits.
Proof.
  induction fuel as [|f IH]; intros E digits E' Hn Hd; cbn [ToString.shortest_fuel];
    [discriminate|].
  cbv zeta.
  set (sn := if 0 <=? E then num else num * 10 ^ (- E)).
  set (sd := if 0 <=? E then den * 10 ^ E else den).
  assert (Hsn : 0 <= sn).
  { unfold sn. destruct (0 <=? E); [lia|].
    apply Z.mul_nonneg_nonneg; [lia|apply Z.pow_nonneg; lia]. }
  assert (Hsd : 0 < sd).
  { unfold sd. destruct (0 <=? E) eqn:HE; [|lia]. apply Z.leb_le in HE.
    apply Z.mul_pos_pos; [lia|apply Z.pow_pos_nonneg; lia]. }
  assert (Hlo : 0 <= sn / sd) by (apply Z.div_pos; lia).
  destruct (Js.same (Js.of_decimal (sn / sd) E) x) eqn:Hok_lo;
    destruct (Js.same (Js.of_decimal (sn / sd + 1) E) x) eqn:Hok_hi; cbn [andb].
  - destruct (_ <? _); [intros H; injection H as <- _; exact Hlo|].
    destruct (_ <? _); [intros H; injection H as <- _; lia|].
    destruct (Z.even _); intros H; injection H as <- _; lia.
  - intros H. injection H as <- _. exact Hlo.
  - intros H. injection H as <- _. lia.
  - apply IH; assumption.
Qed.

Lemma shortest_nonneg m e : 0 <= fst (ToString.shortest m e).
Proof.
  unfold ToString.shortest.
  set (num := if 0 <=? e then Zpos m * 2 ^ e else Zpos m).
  set (den := if 0 <=? e then 1 else 2 ^ (- e)).
  assert (Hnum : 0 <= num).
  { unfold num. destruct (0 <=? e); [|lia].
    apply Z.mul_nonneg_nonneg; [lia|apply Z.pow_nonneg; lia]. }
  assert (Hden : 0 < den).
  { unfold den. destruct (0 <=? e) eqn:He; [lia|]. apply Z.leb_gt in He.
    apply Z.pow_pos_nonneg; lia. }
  destruct (ToString.shortest_fuel 20 _ num den _) as [[digits E]|] eqn:Hs.
  - cbn [fst]. exact (shortest_fuel_nonneg _ _ _ _ _ _ _ Hnum Hden Hs).
  - destruct (0 <=? e); cbn [fst];
      (apply Z.mul_nonneg_nonneg; [lia|apply Z.pow_nonneg; lia]).
Qed.

Lemma round_scale_nonneg s digits E : 0 <= digits -> 0 <= Pg.round_scale s digits E.
Proof.
  intros Hd. unfold Pg.round_scale, DecimalJs.div_half_up.
  destruct (0 <=? E + s) eqn:Hs.
  - apply Z.mul_nonneg_nonneg; [exact Hd|apply Z.pow_nonneg; lia].
  - apply Z.leb_gt in Hs.
    apply Z.mul_nonneg_nonneg; [apply Z.sgn_nonneg; exact Hd|].
    assert (0 < 10 ^ (- (E + s))) by (apply Z.pow_pos_nonneg; lia).
    apply Z.div_pos; lia.
Qed.

(** The sign survives the conversion: a number that is not below zero
    is stored, at any scale, as a number of units that is not negative,
    and a number below zero as one that is not positive. *)
Lemma of_number_sign s x p :
  Pg.of_number s x = Some (Pg.Val p) ->
  ((x <? Js.of_Z 0)%js = false -> 0 <= p)
  /\ ((x <? Js.of_Z 0)%js = true -> p <= 0).
Proof.
  destruct x as [sg|sg| |sg m e]; cbn [Pg.of_number]; try discriminate.
  - intros H. injection H as <-. split; intros _; reflexivity.
  - pose proof (shortest_nonneg m e) as Hs.
    destruct (ToString.shortest m e) as [digits E]. cbn [fst] in Hs.
    pose proof (round_scale_nonneg s digits E Hs) as Hr.
    intros H. injection H as <-.
    destruct sg; cbn [cond_Zopp]; split; intros Hlt; try lia; discriminate Hlt.
Qed.

Lemma div_half_up_opp n d : DecimalJs.div_half_up (- n) d = - DecimalJs.div_half_up n d.
Proof. unfold DecimalJs.div_half_up. rewrite Z.sgn_opp, Z.abs_opp. ring. Qed.

(** Rounding a sum whose first term is a whole number of units: a second
    term that is not negative never takes the result below the first. *)
Lemma div_half_up_above u n D :
  0 < D -> 0 <= n -> u <= DecimalJs.div_half_up (u * D + n) D.
Proof.
  intros HD Hn. unfold DecimalJs.div_half_up.
  destruct (Z.lt_trichotomy (u * D + n) 0) as [Hm|[Hm|Hm]].
  - rewrite (Z.sgn_neg _ Hm), (Z.abs_neq _ (Z.lt_le_incl _ _ Hm)).
    assert ((2 * - (u * D + n) + D) / (2 * D) < - u + 1); [|lia].
    apply Z.div_lt_upper_bound; nia.
  - rewrite Hm. cbn [Z.sgn]. nia.
  - rewrite (Z.sgn_pos _ Hm), (Z.abs_eq _ (Z.lt_le_incl _ _ Hm)).
    assert (u <= (2 * (u * D + n) + D) / (2 * D)); [|lia].
    apply Z.div_le_lower_bound; nia.
Qed.

Lemma div_half_up_below u n D :
  0 < D -> n <= 0 -> DecimalJs.div_half_up (u * D + n) D <= u.
Proof.
  intros HD Hn.
  replace (u * D + n) with (- ((- u) * D + (- n))) by ring.
  rewrite div_half_up_opp.
  pose proof (div_half_up_above (- u) (- n) D HD ltac:(lia)). lia.
Qed.

(** When neither term is negative, rounding the sum is adding the
    rounded second term. *)
Lemma div_half_up_add u n D :
  0 < D -> 0 <= u -> 0 <= n ->
  DecimalJs.div_half_up (u * D + n) D = u + DecimalJs.div_half_up n D.
Proof.
  intros HD Hu Hn. unfold DecimalJs.div_half_up.
  destruct (Z.eq_dec n 0) as [->|Hn0].
  - rewrite Z.add_0_r. cbn [Z.sgn Z.abs]. rewrite Z.mul_0_l, Z.add_0_r.
    destruct (Z.eq_dec u 0) as [->|Hu0]; [reflexivity|].
    rewrite Z.sgn_pos, Z.abs_eq by nia.
    replace (2 * (u * D) + D) with (u * (2 * D) + D) by ring.
    rewrite Z.div_add_l by lia. rewrite (Z.div_small D) by lia. lia.
  - rewrite !Z.sgn_pos, !Z.abs_eq by nia.
    replace (2 * (u * D + n) + D) with (u * (2 * D) + (2 * n + D)) by ring.
    rewrite Z.div_add_l by lia. lia.
Qed.

(** The sign of the parameter decides the direction of the update:
    adding a number that is not below zero lowers no value of a column,
    adding one below zero raises none. *)
Lemma plus_sign s u x v :
  Pg.plus s (Pg.Val u) x = Some (Pg.Val v) ->
  ((x <? Js.of_Z 0)%js = false -> u <= v)
  /\ ((x <? Js.of_Z 0)%js = true -> v <= u).
Proof.
  destruct x as [sg|sg| |sg m e]; cbn [Pg.plus]; try discriminate.
  - intros H. injection H as <-. split; intros _; reflexivity.
  - pose proof (shortest_nonneg m e) as Hs.
    destruct (ToString.shortest m e) as [digits E]. cbn [fst] in Hs.
    intros H. injection H as <-.
    destruct (0 <=? E + s) eqn:HE.
    + apply Z.leb_le in HE.
      assert (0 <= digits * 10 ^ (E + s))
        by (apply Z.mul_nonneg_nonneg; [exact Hs|apply Z.pow_nonneg; lia]).
      destruct sg; cbn [cond_Zopp]; split; intros Hlt; try lia; discriminate Hlt.
    + apply Z.leb_gt in HE.
      assert (HD : 0 < 10 ^ (- (E + s))) by (apply Z.pow_pos_nonneg; lia).
      destruct sg; cbn [cond_Zopp]; split; intros Hlt; try discriminate Hlt.
      * apply div_half_up_below; [exact HD|lia].
      * apply div_half_up_above; [exact HD|exact Hs].
Qed.

(** The update keeps PostgreSQL's order: a parameter that is not below
    zero lowers no value of a column, NaN included. *)
Lemma plus_le s a x b :
  Pg.plus s a x = Some b -> (x <? Js.of_Z 0)%js = false -> Pg.le a b.
Proof.
  intros H Hx. destruct a as [|u].
  - cbn [Pg.plus] in H. injection H as <-. exact I.
  - destruct b as [|v]; [exact I|]. cbn [Pg.le].
    exact (proj1 (plus_sign _ _ _ _ H) Hx).
Qed.



(** NaN is absorbing on either side of the update. *)
Lemma plus_NaN s a : Pg.plus s a Js.NaN = Some Pg.NaN.
Proof. now destruct a. Qed.


(** For a value and a parameter that are not negative, the update adds
    the parameter as the column would store it. *)
Lemma plus_not_negative s u x :
  0 <= u -> (x <? Js.of_Z 0)%js = false ->
  Pg.plus s (Pg.Val u) x = Pg.add (Pg.Val u) <$> Pg.of_number s x.
Proof.
  intros Hu Hx.
  destruct x as [sg|sg| |sg m e]; cbn [Pg.plus Pg.of_number fmap option_fmap option_map Pg.add].
  - now rewrite Z.add_0_r.
  - reflexivity.
  - reflexivity.
  - pose proof (shortest_nonneg m e) as Hs.
    destruct (ToString.shortest m e) as [digits E]. cbn [fst] in Hs.
    cbn [fmap option_fmap option_map Pg.add].
    destruct sg; [discriminate Hx|]. cbn [cond_Zopp].
    unfold Pg.round_scale. destruct (0 <=? E + s) eqn:HE; [reflexivity|].
    apply Z.leb_gt in HE.
    rewrite div_half_up_add; [reflexivity| |exact Hu|exact Hs].
    apply Z.pow_pos_nonneg; lia.
Qed.

(** The same for a value of a column that passes [>= 0], NaN
    included. *)
Lemma plus_added s a x p :
  Pg.nonneg a = true -> (x <? Js.of_Z 0)%js = false ->
  Pg.of_number s x = Some p ->
  Pg.plus s a x = Some (Pg.add a p).
Proof.
  intros Ha Hx Hp. destruct a as [|u]; [reflexivity|].
  apply Z.leb_le in Ha. now rewrite (plus_not_negative _ _ _ Ha Hx), Hp.
Qed.

End Conversions.

(** ** The reward calculator *)

Section RewardCalculator.

Import FocusSessionService.

(** Scenario A: 25 minutes, no interruption, analytical task: exactly 33. *)
Lemma scenario_A :
  calculateEnergyEarned (example_session (Some analytical) 0 None) (Js.of_Z 25)
  = Js.of_Z 33.
Proof. vm_compute. reflexivity. Qed.

(** Scenario B: 50 minutes, two interruptions, no task: 52.80. *)
Lemma scenario_B :
  calculateEnergyEarned (example_session None 2 None) (Js.of_Z 50) = Js.dec 5280 2.
Proof. vm_compute. reflexivity. Qed.

(** Apart from the rounding of ties, the service computes the claimed
    formula: without a task and for analytical, creative and physical
    tasks the two agree for every duration up to an hour and up to six
    interruptions, which covers both duration tiers and the floor of the
    interruption penalty. *)
Lemma calculateEnergyEarned_as_claimed (c : option TaskCategory) (k d : Z) :
  c <> Some learning ->
  0 <= k < 7 ->
  0 <= d < 61 ->
  calculateEnergyEarned (example_session c k None) (Js.of_Z d)
  = Js.dec (Claimed.energy_hundredths d k c) 2.
Proof.
  intros Hc Hk Hd. apply number_eqb_eq.
  assert (Hall : forall_below 7 (fun k => forall_below 61 (energy_as_claimed c k)) = true).
  { destruct c as [[]|]; try contradiction; vm_compute; reflexivity. }
  exact (forall_below_spec 61 _ (forall_below_spec 7 _ Hall k Hk) d Hd).
Qed.

(** C4.  The energy reward is computed in binary floating point, and so
    does not always equal the claimed exact product rounded half-up to two
    decimal places: for 29 minutes on a learning task without
    interruption the exact product is 29 * 1.15 * 1.10 = 36.685, which
    rounds half-up to 36.69, while [calculateEnergyEarned] returns 36.68. *)
Theorem calculateEnergyEarned_29_learning :
  calculateEnergyEarned (example_session (Some learning) 0 None) (Js.of_Z 29)
  = Js.dec 3668 2
  /\ Claimed.energy_hundredths 29 0 (Some learning) = 3669
  /\ Js.dec 3668 2 <> Js.dec 3669 2.
Proof.
  split; [vm_compute; reflexivity|].
  split; [vm_compute; reflexivity|].
  vm_compute. discriminate.
Qed.

(** No module configuration attached: no dopamine, whatever the cache
    holds. *)
Lemma calculateDopamineEarned_no_configuration now redis session duration :
  truthy_str (moduleConfigurationId session) = false ->
  calculateDopamineEarned now redis session duration = Js.of_Z 0.
Proof. intros H. unfold calculateDopamineEarned. now rewrite H. Qed.

(** Cache entry absent (never written, deleted or expired): no dopamine. *)
Lemma calculateDopamineEarned_cache_miss now redis session duration :
  RedisService.get now (session_key (id session)) redis = None ->
  calculateDopamineEarned now redis session duration = Js.of_Z 0.
Proof.
  intros H. unfold calculateDopamineEarned. rewrite H.
  now destruct (truthy_str (moduleConfigurationId session)).
Qed.

(** C5, as stated, fails: a session with a module configuration whose
    cache entry (written with rate 0.05 and a 25-minute time-to-live) has
    expired earns 0 for 30 minutes, not 0.05 * 30 = 1.5. *)
Lemma calculateDopamineEarned_expired_entry :
  let session := example_session None 0 (Some "p1") in
  let redis :=
    RedisService.setex 0 (session_key (id session)) (25 * 60)
      {| cached_session := session;
         cached_dopamineGenerationRate := Some (Js.dec 5 2) |} ∅ in
  calculateDopamineEarned (30 * 60 * 1000) redis session (Js.of_Z 30) = Js.of_Z 0
  /\ Js.of_Z 0 <> Js.dec 15000 4.
Proof. split; [vm_compute; reflexivity | vm_compute; discriminate]. Qed.

(** C5, amended.  The dopamine reward is 0 when no module configuration
    is attached and when the session's cache entry is absent; when the
    entry is present and carries a rate, it is
    [Math.round(rate * duration * 10000) / 10000] in double precision.  A
    rate of 0.05 over 30 minutes yields 1.5. *)
Theorem calculateDopamineEarned_cases now redis session duration :
  (truthy_str (moduleConfigurationId session) = false ->
   calculateDopamineEarned now redis session duration = Js.of_Z 0)
  /\ (RedisService.get now (session_key (id session)) redis = None ->
      calculateDopamineEarned now redis session duration = Js.of_Z 0)
  /\ (forall cached rate,
        truthy_str (moduleConfigurationId session) = true ->
        RedisService.get now (session_key (id session)) redis = Some cached ->
        cached_dopamineGenerationRate cached = Some rate ->
        calculateDopamineEarned now redis session duration
        = (Js.Math_round (rate * duration * Js.of_Z 10000) / Js.of_Z 10000)%js)
  /\ (Js.Math_round (Js.dec 5 2 * Js.of_Z 30 * Js.of_Z 10000) / Js.of_Z 10000)%js
     = Js.dec 15 1.
Proof.
  split; [apply calculateDopamineEarned_no_configuration|].
  split; [apply calculateDopamineEarned_cache_miss|].
  split; [|vm_compute; reflexivity].
  intros cached rate Hcfg Hget Hrate. unfold calculateDopamineEarned.
  now rewrite Hcfg, Hget, Hrate.
Qed.

(** The calculator on a session whose cache entry is live: scenario C. *)
Lemma calculateDopamineEarned_cases_witness :
  let session := example_session None 0 (Some "p1") in
  let redis :=
    RedisService.setex 0 (session_key (id session)) (25 * 60)
      {| cached_session := session;
         cached_dopamineGenerationRate := Some (Js.dec 5 2) |} ∅ in
  calculateDopamineEarned 1000 redis session (Js.of_Z 30) = Js.dec 15 1.
Proof.
  intros session redis.
  destruct (calculateDopamineEarned_cases 1000 redis session (Js.of_Z 30))
    as (_ & _ & Hhit & Hval).
  rewrite (Hhit {| cached_session := session;
                   cached_dopamineGenerationRate := Some (Js.dec 5 2) |}
             (Js.dec 5 2)); [exact Hval|reflexivity|reflexivity|reflexivity].
Defined.

End RewardCalculator.

(** ** The coding standards' reference against the service *)

Section Reference.

Import FocusSessionService.

Lemma agree_below_25 (c : option TaskCategory) :
  forall_below 25 (agree_on c) = true.
Proof. destruct c as [[]|]; vm_compute; reflexivity. Qed.

(** Both calculations read only the task's category and, in the service,
    the interruption count. *)
Lemma calculateEnergy_task session session' d :
  (category <$> task session) = (category <$> task session') ->
  Standards.calculateEnergy session d = Standards.calculateEnergy session' d.
Proof.
  intros H. unfold Standards.calculateEnergy, Standards.categoryBonus.
  destruct (task session) as [t|], (task session') as [t'|]; simpl in H;
    try discriminate; [|reflexivity].
  injection H as ->. reflexivity.
Qed.

Lemma calculateEnergyEarned_uninterrupted session session' duration :
  (category <$> task session) = (category <$> task session') ->
  (interruptionCount session >? Js.of_Z 0)%js = false ->
  (interruptionCount session' >? Js.of_Z 0)%js = false ->
  calculateEnergyEarned session duration = calculateEnergyEarned session' duration.
Proof.
  intros H Hk Hk'. unfold calculateEnergyEarned. rewrite Hk, Hk'.
  destruct (task session) as [t|], (task session') as [t'|]; simpl in H;
    try discriminate; [|reflexivity].
  injection H as ->. reflexivity.
Qed.

(** C10.  The reference drops its duration bonus: under the comment
    'Apply duration bonuses' it calls [withBonus.mul(1.1)] on an
    immutable Decimal and discards the product.  At 25 minutes without a
    task (so whatever [CATEGORY_BONUSES] holds) it returns 25.00 where
    [calculateEnergyEarned] returns 27.5, the amount with the bonus; the
    bonus it computes and drops is that same 27.5. *)
Theorem calculateEnergy_differs_at_25 :
  DecimalJs.toNumber (Standards.calculateEnergy (example_session None 0 None) 25)
  = Js.of_Z 25
  /\ calculateEnergyEarned (example_session None 0 None) (Js.of_Z 25) = Js.dec 275 1
  /\ Js.of_Z 25 <> Js.dec 275 1
  /\ DecimalJs.toNumber
       (DecimalJs.toDecimalPlaces 2
          (DecimalJs.mul
             (DecimalJs.mul (DecimalJs.of_Z 25)
                (Standards.categoryBonus (example_session None 0 None)))
             {| DecimalJs.coeff := 11; DecimalJs.exponent := -1 |}))
     = Js.dec 275 1.
Proof.
  split; [vm_compute; reflexivity|].
  split; [vm_compute; reflexivity|].
  split; [vm_compute; discriminate|].
  vm_compute. reflexivity.
Qed.

(** Below the first duration tier the two calculations agree: for a
    session without interruption and a duration of 0 to 24 whole minutes,
    the reference [calculateEnergy] and [calculateEnergyEarned] return the
    same amount (for a session with a task, with the multipliers of
    [CATEGORY_BONUSES] as the specification gives them). *)
Lemma calculateEnergy_agrees_below_25 session d :
  0 <= d < 25 ->
  (interruptionCount session >? Js.of_Z 0)%js = false ->
  DecimalJs.toNumber (Standards.calculateEnergy session d)
  = calculateEnergyEarned session (Js.of_Z d).
Proof.
  intros Hd Hk.
  set (c := category <$> task session).
  assert (Hc : (category <$> task session)
               = (category <$> task (example_session c 0 None))).
  { unfold c. cbn [example_session task]. now destruct (task session). }
  rewrite (calculateEnergy_task _ _ d Hc).
  rewrite (calculateEnergyEarned_uninterrupted _ _ (Js.of_Z d) Hc Hk eq_refl).
  apply number_eqb_eq.
  exact (forall_below_spec 25 (agree_on c) (agree_below_25 c) d Hd).
Qed.

(** A 20-minute learning session: both return 23. *)
Lemma calculateEnergy_agrees_below_25_witness :
  DecimalJs.toNumber (Standards.calculateEnergy (example_session (Some learning) 0 None) 20)
  = calculateEnergyEarned (example_session (Some learning) 0 None) (Js.of_Z 20).
Proof.
  apply (calculateEnergy_agrees_below_25 (example_session (Some learning) 0 None) 20);
    [lia | reflexivity].
Defined.

End Reference.

(** ** The ledger *)

Section Ledger.

Import DatabaseService CurrencyService.

(** The fields of the row the SET clause computes. *)
Lemma credit_row_inv now OLD p1 p2 NEW :
  credit_row now OLD p1 p2 = Some NEW ->
  Pg.plus 2 (energy_balance OLD) p1 = Some (energy_balance NEW)
  /\ Pg.plus 4 (dopamine_balance OLD) p2 = Some (dopamine_balance NEW)
  /\ Pg.plus 2 (total_energy_earned OLD) p1 = Some (total_energy_earned NEW)
  /\ Pg.plus 4 (total_dopamine_earned OLD) p2 = Some (total_dopamine_earned NEW)
  /\ last_updated NEW = now.
Proof.
  unfold credit_row.
  destruct (Pg.plus 2 (energy_balance OLD) p1) as [e|]; [|discriminate].
  destruct (Pg.plus 4 (dopamine_balance OLD) p2) as [dp|]; [|discriminate].
  destruct (Pg.plus 2 (total_energy_earned OLD) p1) as [te|]; [|discriminate].
  destruct (Pg.plus 4 (total_dopamine_earned OLD) p2) as [td|]; [|discriminate].
  intros H. injection H as <-. repeat split.
Qed.

Lemma balance_row_ok_nonneg r :
  balance_row_ok r = true ->
  Pg.nonneg (energy_balance r) = true /\ Pg.nonneg (dopamine_balance r) = true
  /\ Pg.nonneg (total_energy_earned r) = true
  /\ Pg.nonneg (total_dopamine_earned r) = true.
Proof.
  unfold balance_row_ok. intros H.
  repeat (apply andb_true_iff in H as [H ?]). repeat split; assumption.
Qed.

(** On a row that satisfies the table's constraints, an energy amount
    that is not below zero is added, as the columns store it, to the
    energy balance and to the lifetime energy total. *)
Lemma credit_row_energy now OLD p1 p2 NEW stored :
  credit_row now OLD p1 p2 = Some NEW ->
  balance_row_ok OLD = true ->
  (p1 <? Js.of_Z 0)%js = false ->
  Pg.of_number 2 p1 = Some stored ->
  energy_balance NEW = Pg.add (energy_balance OLD) stored
  /\ total_energy_earned NEW = Pg.add (total_energy_earned OLD) stored.
Proof.
  intros Hnew Hok Hneg Hp.
  apply credit_row_inv in Hnew as (He & _ & Hte & _).
  apply balance_row_ok_nonneg in Hok as (Hb & _ & Ht & _).
  rewrite (plus_added _ _ _ _ Hb Hneg Hp) in He.
  rewrite (plus_added _ _ _ _ Ht Hneg Hp) in Hte.
  split; congruence.
Qed.

(** The same for a dopamine amount that is not below zero. *)
Lemma credit_row_dopamine now OLD p1 p2 NEW stored :
  credit_row now OLD p1 p2 = Some NEW ->
  balance_row_ok OLD = true ->
  (p2 <? Js.of_Z 0)%js = false ->
  Pg.of_number 4 p2 = Some stored ->
  dopamine_balance NEW = Pg.add (dopamine_balance OLD) stored
  /\ total_dopamine_earned NEW = Pg.add (total_dopamine_earned OLD) stored.
Proof.
  intros Hnew Hok Hneg Hp.
  apply credit_row_inv in Hnew as (_ & Hd & _ & Htd & _).
  apply balance_row_ok_nonneg in Hok as (_ & Hb & _ & Ht).
  rewrite (plus_added _ _ _ _ Hb Hneg Hp) in Hd.
  rewrite (plus_added _ _ _ _ Ht Hneg Hp) in Htd.
  split; congruence.
Qed.

(** What a successful credit did: the row existed, the amounts passed the
    checks, and the commit holds the credited row and the trigger's rows. *)
Lemma processSessionRewards_ok_inv now userId energyAmount dopamineAmount sessionId d d' :
  processSessionRewards now userId energyAmount dopamineAmount sessionId d = (Ok tt, d') ->
  exists OLD NEW,
    user_currency_balances d !! userId = Some OLD
    /\ credit_row now OLD energyAmount dopamineAmount = Some NEW
    /\ (energyAmount <? Js.of_Z 0)%js = false
    /\ (Pg.to_number 2 (energy_balance OLD) + energyAmount
          >? CURRENCY_CONSTANTS.ENERGY_MAX_BALANCE)%js = false
    /\ balance_row_ok NEW = true
    /\ d' = set_balances (<[userId := NEW]> (user_currency_balances d))
              (currency_transactions d ++ log_currency_transaction now userId OLD NEW) d.
Proof.
  unfold processSessionRewards, transaction, rewards_transaction,
    getBalancesWithLock, update_balances.
  destruct (user_currency_balances d !! userId) as [OLD|] eqn:Hrow;
    [|intros H; discriminate].
  cbn [energy dopamine].
  destruct (energyAmount <? Js.of_Z 0)%js eqn:Hneg; [intros H; discriminate|].
  destruct (_ >? CURRENCY_CONSTANTS.ENERGY_MAX_BALANCE)%js eqn:Hmax;
    [intros H; discriminate|].
  destruct (credit_row now OLD energyAmount dopamineAmount) as [NEW|] eqn:Hnew;
    [|intros H; discriminate].
  destruct (balance_row_ok NEW) eqn:Hok; [|intros H; discriminate].
  intros H. injection H as <-. exists OLD, NEW. repeat split; assumption || reflexivity.
Qed.

(** A failed credit leaves the database as it was: the transaction is
    rolled back. *)
Lemma processSessionRewards_throw_inv now userId energyAmount dopamineAmount sessionId d e d' :
  processSessionRewards now userId energyAmount dopamineAmount sessionId d = (Throw e, d') ->
  d' = d.
Proof.
  unfold processSessionRewards, transaction.
  destruct (rewards_transaction now userId energyAmount dopamineAmount d) as [[[] d1]|err].
  - intros H. discriminate.
  - destruct err; intros H; now injection H.
Qed.

(** Every row the trigger logs carries the balances of the new row. *)
Lemma log_currency_transaction_snapshot now userId OLD NEW :
  Forall (fun t =>
            user_id t = userId
            /\ transaction_type t = "balance_update"
            /\ balance_after_energy t = energy_balance NEW
            /\ balance_after_dopamine t = dopamine_balance NEW
            /\ reference_id t = None)
    (log_currency_transaction now userId OLD NEW).
Proof.
  unfold log_currency_transaction.
  destruct (Pg.is_distinct (energy_balance NEW) (energy_balance OLD)),
    (Pg.is_distinct (dopamine_balance NEW) (dopamine_balance OLD));
    repeat constructor.
Qed.

(** C1, as stated, fails: two invocations with the same arguments credit
    the 5 energy twice (10.00, then 15.00, then 20.00), and no row of type
    [focus_session_reward] is ever written; the four rows logged are the
    trigger's. *)
Lemma processSessionRewards_twice_credits_twice :
  let d0 := example_ledger 1000 0 in
  let d1 := snd (processSessionRewards 1 "u1" (Js.of_Z 5) (Js.dec 15 1) "s1" d0) in
  let d2 := snd (processSessionRewards 2 "u1" (Js.of_Z 5) (Js.dec 15 1) "s1" d1) in
  fst (processSessionRewards 1 "u1" (Js.of_Z 5) (Js.dec 15 1) "s1" d0) = Ok tt
  /\ fst (processSessionRewards 2 "u1" (Js.of_Z 5) (Js.dec 15 1) "s1" d1) = Ok tt
  /\ energy_balance <$> (user_currency_balances d1 !! "u1") = Some (Pg.Val 1500)
  /\ energy_balance <$> (user_currency_balances d2 !! "u1") = Some (Pg.Val 2000)
  /\ user_currency_balances d2 <> user_currency_balances d1
  /\ map transaction_type (currency_transactions d2)
     = ["balance_update"; "balance_update"; "balance_update"; "balance_update"].
Proof.
  repeat split; try (vm_compute; reflexivity).
  intros H.
  assert (Hrow : energy_balance <$>
                   (user_currency_balances
                      (snd (processSessionRewards 2 "u1" (Js.of_Z 5) (Js.dec 15 1) "s1"
                              (snd (processSessionRewards 1 "u1" (Js.of_Z 5) (Js.dec 15 1)
                                      "s1" (example_ledger 1000 0))))) !! "u1")
                 = Some (Pg.Val 2000)) by (vm_compute; reflexivity).
  rewrite H in Hrow. vm_compute in Hrow. discriminate.
Qed.

(** C1, amended.  [processSessionRewards] has no idempotency check and
    returns nothing: the session identifier does not influence it, and
    when it is invoked twice with the same arguments and both invocations
    succeed, the balance row is credited twice and the trigger's rows of
    both invocations are appended to the transaction log.  On a balance
    whose row satisfies the table's constraints each balance and each
    lifetime total grows by twice the amount, as its column stores the
    amount (for the dopamine, when the amount is not below zero). *)
Theorem processSessionRewards_repeated now1 now2 userId energyAmount dopamineAmount
    sessionId d0 d1 d2 :
  processSessionRewards now1 userId energyAmount dopamineAmount sessionId d0 = (Ok tt, d1) ->
  processSessionRewards now2 userId energyAmount dopamineAmount sessionId d1 = (Ok tt, d2) ->
  (forall sessionId' now d,
     processSessionRewards now userId energyAmount dopamineAmount sessionId' d
     = processSessionRewards now userId energyAmount dopamineAmount sessionId d)
  /\ exists OLD MID NEW,
       user_currency_balances d0 !! userId = Some OLD
       /\ credit_row now1 OLD energyAmount dopamineAmount = Some MID
       /\ credit_row now2 MID energyAmount dopamineAmount = Some NEW
       /\ user_currency_balances d1 !! userId = Some MID
       /\ user_currency_balances d2 !! userId = Some NEW
       /\ currency_transactions d2
          = currency_transactions d0
              ++ log_currency_transaction now1 userId OLD MID
              ++ log_currency_transaction now2 userId MID NEW
       /\ (forall p1,
             balance_row_ok OLD = true ->
             Pg.of_number 2 energyAmount = Some p1 ->
             energy_balance NEW = Pg.add (Pg.add (energy_balance OLD) p1) p1
             /\ total_energy_earned NEW
                = Pg.add (Pg.add (total_energy_earned OLD) p1) p1)
       /\ (forall p2,
             balance_row_ok OLD = true ->
             (dopamineAmount <? Js.of_Z 0)%js = false ->
             Pg.of_number 4 dopamineAmount = Some p2 ->
             dopamine_balance NEW = Pg.add (Pg.add (dopamine_balance OLD) p2) p2
             /\ total_dopamine_earned NEW
                = Pg.add (Pg.add (total_dopamine_earned OLD) p2) p2).
Proof.
  intros H1 H2. split; [reflexivity|].
  apply processSessionRewards_ok_inv in H1
    as (OLD & MID & Hrow & Hmid & Hneg & _ & Hmidok & ->).
  apply processSessionRewards_ok_inv in H2 as (MID' & NEW & Hrow' & Hnew & _ & _ & _ & ->).
  cbn [set_balances user_currency_balances currency_transactions] in *.
  rewrite lookup_insert_eq in Hrow'. injection Hrow' as <-.
  exists OLD, MID, NEW.
  split; [exact Hrow|]. split; [exact Hmid|]. split; [exact Hnew|].
  split; [apply lookup_insert_eq|]. split; [apply lookup_insert_eq|].
  split; [now rewrite <- app_assoc|].
  split.
  - intros p1 Hok Hp1.
    destruct (credit_row_energy _ _ _ _ _ _ Hmid Hok Hneg Hp1) as [He1 Ht1].
    destruct (credit_row_energy _ _ _ _ _ _ Hnew Hmidok Hneg Hp1) as [He2 Ht2].
    now rewrite He2, Ht2, He1, Ht1.
  - intros p2 Hok Hdopa Hp2.
    destruct (credit_row_dopamine _ _ _ _ _ _ Hmid Hok Hdopa Hp2) as [Hd1 Ht1].
    destruct (credit_row_dopamine _ _ _ _ _ _ Hnew Hmidok Hdopa Hp2) as [Hd2 Ht2].
    now rewrite Hd2, Ht2, Hd1, Ht1.
Qed.

(** Two credits of 5 energy and 1.5 dopamine to a balance of 10.00: the
    row holds 20.00 and 3.0000 afterwards. *)
Lemma processSessionRewards_repeated_witness :
  exists d1 d2,
    processSessionRewards 1 "u1" (Js.of_Z 5) (Js.dec 15 1) "s1" (example_ledger 1000 0)
    = (Ok tt, d1)
    /\ processSessionRewards 2 "u1" (Js.of_Z 5) (Js.dec 15 1) "s1" d1 = (Ok tt, d2)
    /\ user_currency_balances d2 !! "u1"
       = Some {| energy_balance := Pg.Val 2000; dopamine_balance := Pg.Val 30000;
                 total_energy_earned := Pg.Val 2000;
                 total_dopamine_earned := Pg.Val 30000; last_updated := 2 |}.
Proof.
  eexists _, _.
  assert (H1 : processSessionRewards 1 "u1" (Js.of_Z 5) (Js.dec 15 1) "s1"
                 (example_ledger 1000 0)
               = (Ok tt, snd (processSessionRewards 1 "u1" (Js.of_Z 5) (Js.dec 15 1) "s1"
                                (example_ledger 1000 0))))
    by (vm_compute; reflexivity).
  assert (H2 : processSessionRewards 2 "u1" (Js.of_Z 5) (Js.dec 15 1) "s1"
                 (snd (processSessionRewards 1 "u1" (Js.of_Z 5) (Js.dec 15 1) "s1"
                         (example_ledger 1000 0)))
               = (Ok tt, snd (processSessionRewards 2 "u1" (Js.of_Z 5) (Js.dec 15 1) "s1"
                                (snd (processSessionRewards 1 "u1" (Js.of_Z 5) (Js.dec 15 1)
                                        "s1" (example_ledger 1000 0))))))
    by (vm_compute; reflexivity).
  split; [exact H1|]. split; [exact H2|].
  destruct (processSessionRewards_repeated _ _ _ _ _ _ _ _ _ H1 H2)
    as (_ & OLD & MID & NEW & H0 & Hmid & Hnew & _ & Hd2 & _).
  vm_compute in H0. injection H0 as <-.
  vm_compute in Hmid. injection Hmid as <-.
  vm_compute in Hnew. injection Hnew as <-.
  exact Hd2.
Defined.

(** C2, as stated, fails: a credit of zero energy and zero dopamine
    succeeds and commits the balance row, but no transaction row is
    inserted.  Such a credit is what [completeSession] issues for a
    session without module configuration completed within its first
    minute. *)
Lemma processSessionRewards_zero_logs_nothing :
  let d0 := example_ledger 1000 0 in
  fst (processSessionRewards 1 "u1" (Js.of_Z 0) (Js.of_Z 0) "s1" d0) = Ok tt
  /\ currency_transactions (snd (processSessionRewards 1 "u1" (Js.of_Z 0) (Js.of_Z 0) "s1" d0))
     = currency_transactions d0
  /\ last_updated <$>
       (user_currency_balances
          (snd (processSessionRewards 1 "u1" (Js.of_Z 0) (Js.of_Z 0) "s1" d0)) !! "u1")
     = Some 1
  /\ (let run := FocusSessionService.completeSession 30000 "s1" "u1" None
                   (example_world active None) in
      (FocusSessionService.energyEarned <$>
         match fst run with Ok r => Some r | Throw _ => None end) = Some (Js.of_Z 0)
      /\ (FocusSessionService.dopamineEarned <$>
            match fst run with Ok r => Some r | Throw _ => None end) = Some (Js.of_Z 0)
      /\ currency_transactions (db (snd run)) = []).
Proof. repeat split; vm_compute; reflexivity. Qed.

(** C2, amended.  A successful credit commits, in one database
    transaction, the updated balance row together with the rows the
    balance trigger logs.  The row committed is the old row with the
    energy amount added to the energy balance and to the lifetime energy
    total, the dopamine amount added to the dopamine balance and to the
    lifetime dopamine total, each sum as its column stores it, and with
    the time of the credit; on a row that satisfies the table's
    constraints that is the old value plus the amount as the column
    stores the amount (for the dopamine, when the amount is not below
    zero).  The trigger logs one [balance_update] row
    for each currency whose balance changed (none when neither changed),
    each carrying the balances just written.  A failed credit commits
    nothing. *)
Theorem processSessionRewards_commit now userId energyAmount dopamineAmount sessionId d :
  (forall d',
     processSessionRewards now userId energyAmount dopamineAmount sessionId d = (Ok tt, d') ->
     exists OLD NEW logged,
       user_currency_balances d !! userId = Some OLD
       /\ Pg.plus 2 (energy_balance OLD) energyAmount = Some (energy_balance NEW)
       /\ Pg.plus 4 (dopamine_balance OLD) dopamineAmount = Some (dopamine_balance NEW)
       /\ Pg.plus 2 (total_energy_earned OLD) energyAmount = Some (total_energy_earned NEW)
       /\ Pg.plus 4 (total_dopamine_earned OLD) dopamineAmount
          = Some (total_dopamine_earned NEW)
       /\ last_updated NEW = now
       /\ (forall p1,
             balance_row_ok OLD = true ->
             Pg.of_number 2 energyAmount = Some p1 ->
             energy_balance NEW = Pg.add (energy_balance OLD) p1
             /\ total_energy_earned NEW = Pg.add (total_energy_earned OLD) p1)
       /\ (forall p2,
             balance_row_ok OLD = true ->
             (dopamineAmount <? Js.of_Z 0)%js = false ->
             Pg.of_number 4 dopamineAmount = Some p2 ->
             dopamine_balance NEW = Pg.add (dopamine_balance OLD) p2
             /\ total_dopamine_earned NEW = Pg.add (total_dopamine_earned OLD) p2)
       /\ user_currency_balances d' !! userId = Some NEW
       /\ currency_transactions d' = currency_transactions d ++ logged
       /\ Forall (fun t =>
                    user_id t = userId
                    /\ transaction_type t = "balance_update"
                    /\ balance_after_energy t = energy_balance NEW
                    /\ balance_after_dopamine t = dopamine_balance NEW
                    /\ reference_id t = None) logged
       /\ length logged
          = ((if Pg.is_distinct (energy_balance NEW) (energy_balance OLD) then 1 else 0)
             + (if Pg.is_distinct (dopamine_balance NEW) (dopamine_balance OLD) then 1 else 0))%nat)
  /\ (forall e d',
        processSessionRewards now userId energyAmount dopamineAmount sessionId d = (Throw e, d') ->
        d' = d).
Proof.
  split.
  - intros d' H.
    apply processSessionRewards_ok_inv in H as (OLD & NEW & Hrow & Hnew & Hneg & _ & _ & ->).
    pose proof (credit_row_inv _ _ _ _ _ Hnew) as (He & Hd & Hte & Htd & Hnow).
    exists OLD, NEW, (log_currency_transaction now userId OLD NEW).
    cbn [set_balances user_currency_balances currency_transactions].
    split; [exact Hrow|]. split; [exact He|]. split; [exact Hd|].
    split; [exact Hte|]. split; [exact Htd|]. split; [exact Hnow|].
    split; [intros p1 Hok Hp1; exact (credit_row_energy _ _ _ _ _ _ Hnew Hok Hneg Hp1)|].
    split; [intros p2 Hok Hdopa Hp2;
            exact (credit_row_dopamine _ _ _ _ _ _ Hnew Hok Hdopa Hp2)|].
    split; [apply lookup_insert_eq|]. split; [reflexivity|].
    split.
    + apply log_currency_transaction_snapshot.
    + unfold log_currency_transaction.
      now destruct (Pg.is_distinct _ (energy_balance OLD)),
        (Pg.is_distinct _ (dopamine_balance OLD)).
  - intros e d' H. exact (processSessionRewards_throw_inv _ _ _ _ _ _ _ _ H).
Qed.

(** A credit of 33 energy and 1.5 dopamine to an empty balance: the row
    committed holds 33.00 and 1.5000, and so do the two rows logged. *)
Lemma processSessionRewards_commit_witness :
  exists d',
    processSessionRewards 1 "u1" (Js.of_Z 33) (Js.dec 15 1) "s1" (example_ledger 0 0)
    = (Ok tt, d')
    /\ exists NEW logged,
         user_currency_balances d' !! "u1" = Some NEW
         /\ energy_balance NEW = Pg.Val 3300
         /\ dopamine_balance NEW = Pg.Val 15000
         /\ total_energy_earned NEW = Pg.Val 3300
         /\ total_dopamine_earned NEW = Pg.Val 15000
         /\ last_updated NEW = 1
         /\ currency_transactions d' = currency_transactions (example_ledger 0 0) ++ logged
         /\ length logged = 2%nat
         /\ Forall (fun t => balance_after_energy t = Pg.Val 3300
                             /\ balance_after_dopamine t = Pg.Val 15000) logged.
Proof.
  assert (Hrun : exists d',
             processSessionRewards 1 "u1" (Js.of_Z 33) (Js.dec 15 1) "s1"
               (example_ledger 0 0) = (Ok tt, d')).
  { eexists. vm_compute. reflexivity. }
  destruct Hrun as (d' & Hrun). exists d'. split; [exact Hrun|].
  destruct (proj1 (processSessionRewards_commit 1 "u1" (Js.of_Z 33) (Js.dec 15 1) "s1"
                     (example_ledger 0 0)) d' Hrun)
    as (OLD & NEW & logged & Hold & He & Hd & Hte & Htd & Hnow & _ & _ & Hnew & Hlog
        & Hall & Hlen).
  vm_compute in Hold. injection Hold as <-.
  assert (He' : Some (Pg.Val 3300) = Some (energy_balance NEW))
    by (rewrite <- He; vm_compute; reflexivity).
  assert (Hd' : Some (Pg.Val 15000) = Some (dopamine_balance NEW))
    by (rewrite <- Hd; vm_compute; reflexivity).
  assert (Hte' : Some (Pg.Val 3300) = Some (total_energy_earned NEW))
    by (rewrite <- Hte; vm_compute; reflexivity).
  assert (Htd' : Some (Pg.Val 15000) = Some (total_dopamine_earned NEW))
    by (rewrite <- Htd; vm_compute; reflexivity).
  injection He' as He'. injection Hd' as Hd'.
  injection Hte' as Hte'. injection Htd' as Htd'.
  exists NEW, logged.
  rewrite <- He', <- Hd' in Hall, Hlen.
  split; [exact Hnew|]. split; [now symmetry|]. split; [now symmetry|].
  split; [now symmetry|]. split; [now symmetry|]. split; [exact Hnow|].
  split; [exact Hlog|]. split; [exact Hlen|].
  eapply Forall_impl; [exact Hall|]. cbn. tauto.
Defined.

(** C3, as stated, fails: a credit of 20 energy to a balance of 9990.00 is
    rejected, not clamped to the ceiling; nothing is written. *)
Lemma processSessionRewards_rejects_overflow :
  processSessionRewards 1 "u1" (Js.of_Z 20) (Js.of_Z 0) "s1" (example_ledger 999000 0)
  = (Throw (ValidationError "Energy balance would exceed maximum limit"),
     example_ledger 999000 0).
Proof. vm_compute. reflexivity. Qed.

(** C3, amended.  When the energy credit would take the balance past
    [ENERGY.MAX_BALANCE] the operation is rejected with a
    [ValidationError] and nothing is written; a credit that succeeds
    always applies the requested deltas in full, never a clamped one:
    the row committed is the old row with both amounts added, and on a
    row that satisfies the table's constraints each balance and each
    lifetime total grows by the whole amount, as its column stores the
    amount (for the dopamine, when the amount is not below zero). *)
Theorem processSessionRewards_overflow now userId energyAmount dopamineAmount sessionId d :
  (forall currentBalances,
     getBalancesWithLock d userId = Ok currentBalances ->
     (energyAmount <? Js.of_Z 0)%js = false ->
     (energy currentBalances + energyAmount >? CURRENCY_CONSTANTS.ENERGY_MAX_BALANCE)%js = true ->
     processSessionRewards now userId energyAmount dopamineAmount sessionId d
     = (Throw (ValidationError "Energy balance would exceed maximum limit"), d))
  /\ (forall d',
        processSessionRewards now userId energyAmount dopamineAmount sessionId d = (Ok tt, d') ->
        exists OLD NEW,
          user_currency_balances d !! userId = Some OLD
          /\ credit_row now OLD energyAmount dopamineAmount = Some NEW
          /\ user_currency_balances d' !! userId = Some NEW
          /\ (forall p1,
                balance_row_ok OLD = true ->
                Pg.of_number 2 energyAmount = Some p1 ->
                energy_balance NEW = Pg.add (energy_balance OLD) p1
                /\ total_energy_earned NEW = Pg.add (total_energy_earned OLD) p1)
          /\ (forall p2,
                balance_row_ok OLD = true ->
                (dopamineAmount <? Js.of_Z 0)%js = false ->
                Pg.of_number 4 dopamineAmount = Some p2 ->
                dopamine_balance NEW = Pg.add (dopamine_balance OLD) p2
                /\ total_dopamine_earned NEW = Pg.add (total_dopamine_earned OLD) p2)).
Proof.
  split.
  - intros cur Hcur Hneg Hmax.
    unfold processSessionRewards, transaction, rewards_transaction.
    now rewrite Hcur, Hneg, Hmax.
  - intros d' H.
    apply processSessionRewards_ok_inv in H as (OLD & NEW & Hrow & Hnew & Hneg & _ & _ & ->).
    exists OLD, NEW. split; [exact Hrow|]. split; [exact Hnew|].
    split; [cbn [set_balances user_currency_balances]; apply lookup_insert_eq|].
    split.
    + intros p1 Hok Hp1. exact (credit_row_energy _ _ _ _ _ _ Hnew Hok Hneg Hp1).
    + intros p2 Hok Hdopa Hp2. exact (credit_row_dopamine _ _ _ _ _ _ Hnew Hok Hdopa Hp2).
Qed.

(** A credit of 20 energy to a balance of 9990.00. *)
Lemma processSessionRewards_overflow_witness :
  getBalancesWithLock (example_ledger 999000 0) "u1"
  = Ok {| energy := Js.of_Z 9990; dopamine := Js.of_Z 0 |}
  /\ processSessionRewards 1 "u1" (Js.of_Z 20) (Js.of_Z 0) "s1" (example_ledger 999000 0)
     = (Throw (ValidationError "Energy balance would exceed maximum limit"),
        example_ledger 999000 0).
Proof.
  assert (Hcur : getBalancesWithLock (example_ledger 999000 0) "u1"
                 = Ok {| energy := Js.of_Z 9990; dopamine := Js.of_Z 0 |})
    by (vm_compute; reflexivity).
  split; [exact Hcur|].
  apply (proj1 (processSessionRewards_overflow 1 "u1" (Js.of_Z 20) (Js.of_Z 0) "s1"
                  (example_ledger 999000 0))
           _ Hcur); vm_compute; reflexivity.
Defined.

(** A credit never lowers the lifetime energy total (in PostgreSQL's
    order on numeric values). *)
Lemma total_energy_earned_monotone now userId energyAmount dopamineAmount sessionId d d' OLD :
  processSessionRewards now userId energyAmount dopamineAmount sessionId d = (Ok tt, d') ->
  user_currency_balances d !! userId = Some OLD ->
  exists NEW,
    user_currency_balances d' !! userId = Some NEW
    /\ Pg.le (total_energy_earned OLD) (total_energy_earned NEW).
Proof.
  intros H Hrow.
  apply processSessionRewards_ok_inv in H as (OLD' & NEW & Hrow' & Hnew & Hneg & _ & _ & ->).
  rewrite Hrow in Hrow'. injection Hrow' as <-.
  exists NEW. split.
  - cbn [set_balances user_currency_balances]. apply lookup_insert_eq.
  - apply credit_row_inv in Hnew as (_ & _ & Hte & _).
    exact (plus_le _ _ _ _ Hte Hneg).
Qed.

(** The ledger itself does not validate the dopamine amount: called
    directly with 0 energy and -1 dopamine, which [completeSession] never
    passes (the session row with its CHECK on [dopamine_generated] is
    written first), it lowers a lifetime total of 5.0000 to 4.0000. *)
Lemma processSessionRewards_negative_dopamine :
  let d0 := example_ledger 0 50000 in
  fst (processSessionRewards 1 "u1" (Js.of_Z 0) (Js.of_Z (-1)) "s1" d0) = Ok tt
  /\ total_dopamine_earned <$> (user_currency_balances d0 !! "u1") = Some (Pg.Val 50000)
  /\ total_dopamine_earned <$>
       (user_currency_balances
          (snd (processSessionRewards 1 "u1" (Js.of_Z 0) (Js.of_Z (-1)) "s1" d0)) !! "u1")
     = Some (Pg.Val 40000).
Proof. repeat split; vm_compute; reflexivity. Qed.

Lemma processSessionRewards_other_user now userId energyAmount dopamineAmount sessionId d r d' other :
  processSessionRewards now userId energyAmount dopamineAmount sessionId d = (r, d') ->
  other <> userId ->
  user_currency_balances d' !! other = user_currency_balances d !! other.
Proof.
  intros H Hne. destruct r as [[]|e].
  - apply processSessionRewards_ok_inv in H as (OLD & NEW & _ & _ & _ & _ & _ & ->).
    cbn [set_balances user_currency_balances]. now apply lookup_insert_ne.
  - now rewrite (processSessionRewards_throw_inv _ _ _ _ _ _ _ _ H).
Qed.

Lemma Pg_le_refl a : Pg.le a a.
Proof. destruct a; cbn; [exact I|lia]. Qed.

Lemma Pg_le_trans a b c : Pg.le a b -> Pg.le b c -> Pg.le a c.
Proof. destruct a, b, c; cbn; try tauto; lia. Qed.

(** Across any sequence of credits, no user's lifetime energy total ever
    decreases. *)
Lemma run_credits_energy_monotone cs : forall d user OLD,
  user_currency_balances d !! user = Some OLD ->
  exists NEW,
    user_currency_balances (run_credits cs d) !! user = Some NEW
    /\ Pg.le (total_energy_earned OLD) (total_energy_earned NEW).
Proof.
  induction cs as [|c cs IH]; intros d user OLD Hrow; cbn [run_credits].
  - exists OLD. split; [exact Hrow|apply Pg_le_refl].
  - destruct (processSessionRewards (credit_now c) (credit_userId c)
                (credit_energyAmount c) (credit_dopamineAmount c) (credit_sessionId c) d)
      as [r d1] eqn:Hstep.
    cbn [snd].
    assert (Hmid : exists MID,
               user_currency_balances d1 !! user = Some MID
               /\ Pg.le (total_energy_earned OLD) (total_energy_earned MID)).
    { destruct (decide (user = credit_userId c)) as [->|Hne].
      - destruct r as [[]|e].
        + exact (total_energy_earned_monotone _ _ _ _ _ _ _ _ Hstep Hrow).
        + rewrite (processSessionRewards_throw_inv _ _ _ _ _ _ _ _ Hstep).
          exists OLD. split; [exact Hrow|apply Pg_le_refl].
      - exists OLD. split; [|apply Pg_le_refl].
        now rewrite (processSessionRewards_other_user _ _ _ _ _ _ _ _ _ Hstep Hne). }
    destruct Hmid as (MID & Hmid & Hle).
    destruct (IH d1 user MID Hmid) as (NEW & Hnew & Hle').
    exists NEW. split; [exact Hnew|exact (Pg_le_trans _ _ _ Hle Hle')].
Qed.

End Ledger.

(** ** The session service *)

Section Sessions.

Import DatabaseService CurrencyService FocusSessionService.

Lemma validateSessionAccess_inv d sessionId userId session :
  validateSessionAccess d sessionId userId = Ok session ->
  exists row,
    focus_sessions d !! sessionId = Some row
    /\ session = FocusSessionModel.join d row
    /\ String.eqb (Types.userId row) userId = true.
Proof.
  unfold validateSessionAccess, FocusSessionModel.findById.
  destruct (focus_sessions d !! sessionId) as [row|]; cbn; [|discriminate].
  destruct (String.eqb (Types.userId row) userId) eqn:Hu; cbn; [|discriminate].
  intros H. injection H as <-. now exists row.
Qed.

(** The ledger does not touch the session table, and fails only with a
    [ValidationError] or a [DatabaseError]. *)
Lemma processSessionRewards_sessions now userId energyAmount dopamineAmount sessionId d r d' :
  processSessionRewards now userId energyAmount dopamineAmount sessionId d = (r, d') ->
  focus_sessions d' = focus_sessions d
  /\ (r = Ok tt \/ exists m, r = Throw (ValidationError m) \/ r = Throw (DatabaseError m)).
Proof.
  intros H. destruct r as [[]|e].
  - apply processSessionRewards_ok_inv in H as (OLD & NEW & _ & _ & _ & _ & _ & ->).
    split; [reflexivity|now left].
  - pose proof (processSessionRewards_throw_inv _ _ _ _ _ _ _ _ H) as ->.
    split; [reflexivity|right].
    unfold processSessionRewards in H.
    destruct (transaction _ d) as [[[]|err] d1]; [discriminate|].
    destruct err; injection H as <-; eauto.
Qed.

(** The ledger writes to the balances and to the log only. *)
Lemma processSessionRewards_tasks now userId energyAmount dopamineAmount sessionId d r d' :
  processSessionRewards now userId energyAmount dopamineAmount sessionId d = (r, d') ->
  tasks d' = tasks d.
Proof.
  intros H. destruct r as [[]|e].
  - now apply processSessionRewards_ok_inv in H
      as (OLD & NEW & _ & _ & _ & _ & _ & ->).
  - now rewrite (processSessionRewards_throw_inv _ _ _ _ _ _ _ _ H).
Qed.

(** The row trigger of [tasks] refuses every completion, so
    [updateTaskCompletion] either has nothing to do or fails; it never
    changes the database. *)
Lemma updateTaskCompletion_cases now taskId d :
  updateTaskCompletion now taskId d = (Ok false, d)
  \/ ((exists t, tasks d !! taskId = Some t /\ task_status t <> task_completed)
      /\ updateTaskCompletion now taskId d
         = (Throw (PgError "function jsonb_set(jsonb, text[], integer) does not exist"),
            d)).
Proof.
  unfold updateTaskCompletion, TaskModel.update.
  destruct (tasks d !! taskId) as [t|] eqn:Ht; [|now left].
  destruct (bool_decide (task_status t = task_completed)) eqn:Hst; cbn [negb];
    [now left|].
  apply bool_decide_eq_false in Hst. right. split; [eauto|].
  unfold TaskModel.update_user_statistics. cbn [task_status].
  rewrite (bool_decide_eq_false_2 (task_completed = task_status t)) by congruence.
  rewrite (bool_decide_eq_true_2 (task_completed = task_completed)) by reflexivity.
  rewrite (bool_decide_eq_false_2 (task_status t = task_completed)) by exact Hst.
  reflexivity.
Qed.

Lemma updateTaskCompletion_sessions now taskId d :
  focus_sessions (snd (updateTaskCompletion now taskId d)) = focus_sessions d.
Proof.
  destruct (updateTaskCompletion_cases now taskId d) as [-> | [_ ->]]; reflexivity.
Qed.

(** The task step of [completeSession]: nothing to do, or the failing
    completion of a task that exists and is not yet completed. *)
Lemma complete_task_cases now (task_id : option string) d :
  let step :=
    match task_id with
    | Some t => if truthy_str (Some t) then updateTaskCompletion now t d else (Ok false, d)
    | None => (Ok false, d)
    end in
  step = (Ok false, d)
  \/ ((exists t task, task_id = Some t /\ tasks d !! t = Some task
                      /\ task_status task <> task_completed)
      /\ step = (Throw (PgError "function jsonb_set(jsonb, text[], integer) does not exist"),
                 d)).
Proof.
  cbv zeta. destruct task_id as [t|]; [|now left].
  destruct (truthy_str (Some t)); [|now left].
  destruct (updateTaskCompletion_cases now t d) as [H|[(task & Ht & Hst) H]];
    [now left|right].
  split; [exists t, task; auto|exact H].
Qed.

(** C6, as stated, fails: a paused session cannot be completed. *)
Lemma completeSession_rejects_paused :
  completeSession 600000 "s1" "u1" (Some (Js.of_Z 10)) (example_world paused None)
  = (Throw (PlainError "Only active sessions can be completed"), example_world paused None).
Proof. vm_compute. reflexivity. Qed.

(** C6, amended.  For a session the caller owns, [completeSession] fails
    with 'Only active sessions can be completed', leaving everything
    unchanged, from every status other than [active], [paused] included.
    From [active], when the table refuses the completed row (a column
    type or a constraint), the call fails with the database error and
    the session stays as it was; when the table accepts it, the session
    is stored as [completed], and the call then returns the completed
    session, or fails with the ledger's error, or, after the credit,
    with the database error of the task update when the session has a
    task that is not yet completed. *)
Theorem completeSession_status_guard now sessionId userId actualDuration w session :
  validateSessionAccess (db w) sessionId userId = Ok session ->
  (status session <> active ->
   completeSession now sessionId userId actualDuration w
   = (Throw (PlainError "Only active sessions can be completed"), w))
  /\ (status session = active ->
      let duration := session_duration actualDuration now (startTime session) in
      let fin := finished now duration (calculateEnergyEarned session duration)
                   (calculateDopamineEarned now (redis w) session duration) session in
      (FocusSessionModel.row_ok fin = false ->
       exists m, completeSession now sessionId userId actualDuration w
                 = (Throw (PgError m), w))
      /\ (FocusSessionModel.row_ok fin = true ->
          exists r w',
            completeSession now sessionId userId actualDuration w = (r, w')
            /\ status <$> (focus_sessions (db w') !! sessionId) = Some completed
            /\ ((exists res,
                   r = Ok res /\ status (FocusSessionService.session res) = completed)
                \/ (exists m, r = Throw (ValidationError m) \/ r = Throw (DatabaseError m))
                \/ (r = Throw (PgError
                                 "function jsonb_set(jsonb, text[], integer) does not exist")
                    /\ exists t task,
                         Types.taskId session = Some t
                         /\ tasks (db w) !! t = Some task
                         /\ task_status task <> task_completed)))).
Proof.
  intros Hacc. split.
  - intros Hst. unfold completeSession. rewrite Hacc.
    rewrite bool_decide_eq_false_2 by exact Hst. reflexivity.
  - intros Hst. cbv zeta. unfold completeSession. rewrite Hacc.
    rewrite bool_decide_eq_true_2 by exact Hst. cbn [negb].
    apply validateSessionAccess_inv in Hacc as (row & Hrow & -> & _).
    cbv zeta.
    set (duration := session_duration actualDuration now _) in *.
    set (energy := calculateEnergyEarned _ duration) in *.
    set (dopa := calculateDopamineEarned now (redis w) _ duration) in *.
    unfold FocusSessionModel.update. rewrite Hrow.
    change (FocusSessionModel.row_ok (finished now duration energy dopa row))
      with (FocusSessionModel.row_ok
              (finished now duration energy dopa (FocusSessionModel.join (db w) row))).
    change (FocusSessionModel.row_error (finished now duration energy dopa row))
      with (FocusSessionModel.row_error
              (finished now duration energy dopa (FocusSessionModel.join (db w) row))).
    split; intros Hok; rewrite Hok.
    { unfold FocusSessionModel.row_error. destruct (FocusSessionModel.types_ok _); eauto. }
    set (d1 := set_focus_sessions _ (db w)).
    destruct (processSessionRewards now userId energy dopa sessionId d1)
      as [r d2] eqn:Hcredit.
    pose proof (processSessionRewards_tasks _ _ _ _ _ _ _ _ Hcredit) as Htasks.
    apply processSessionRewards_sessions in Hcredit as [Hsess Hr].
    assert (Hd1 : status <$> (focus_sessions d1 !! sessionId) = Some completed).
    { unfold d1. cbn [set_focus_sessions focus_sessions].
      now rewrite lookup_insert_eq. }
    destruct Hr as [->|(m & Hm)].
    + pose proof (complete_task_cases now
                    (Types.taskId (FocusSessionModel.join (db w) row)) d2) as Htask.
      cbv zeta in Htask.
      destruct Htask as [-> | [(t & task & Ht & Htask & Hpending) ->]].
      * eexists _, _. split; [reflexivity|]. cbn [db]. split; [now rewrite Hsess|].
        left. eexists. split; reflexivity.
      * eexists _, _. split; [reflexivity|]. cbn [db]. split; [now rewrite Hsess|].
        right. right. split; [reflexivity|]. exists t, task.
        rewrite Htasks in Htask. repeat split; assumption.
    + destruct Hm as [-> | ->]; eexists _, _; (split; [reflexivity|]);
        cbn [db]; rewrite Hsess; (split; [exact Hd1|]); right; left; exists m;
        [now left|now right].
Qed.

(** An active session completed 30 minutes after its start, and one
    completed with a duration that no [INTEGER] column holds. *)
Lemma completeSession_status_guard_witness :
  validateSessionAccess (db example_started) "s1" "u1"
  = Ok (example_session None 0 (Some "p1"))
  /\ (exists r w',
        completeSession 1800000 "s1" "u1" None example_started = (r, w')
        /\ status <$> (focus_sessions (db w') !! "s1") = Some completed)
  /\ exists m,
       completeSession 1800000 "s1" "u1" (Some (Js.of_Z 3000000000)) example_started
       = (Throw (PgError m), example_started).
Proof.
  assert (Hacc : validateSessionAccess (db example_started) "s1" "u1"
                 = Ok (example_session None 0 (Some "p1")))
    by (vm_compute; reflexivity).
  split; [exact Hacc|]. split.
  - destruct (proj2 (proj2 (completeSession_status_guard 1800000 "s1" "u1" None
                              example_started _ Hacc) eq_refl))
      as (r & w' & Hrun & Hstored & _).
    + vm_compute. reflexivity.
    + exists r, w'. split; assumption.
  - apply (proj1 (proj2 (completeSession_status_guard 1800000 "s1" "u1"
                           (Some (Js.of_Z 3000000000)) example_started _ Hacc) eq_refl)).
    vm_compute. reflexivity.
Defined.

(** A session with a pending task, completed after 29 minutes: the
    session is stored as completed and the 36.68 energy is credited, then
    the task update fails; the call throws, the task stays pending and
    the cache entry is not deleted. *)
Lemma completeSession_pending_task :
  let run := completeSession 1740000 "s1" "u1" None example_world_task in
  fst run = Throw (PgError "function jsonb_set(jsonb, text[], integer) does not exist")
  /\ status <$> (focus_sessions (db (snd run)) !! "s1") = Some completed
  /\ energy_balance <$> (user_currency_balances (db (snd run)) !! "u1")
     = Some (Pg.Val 3668)
  /\ task_status <$> (tasks (db (snd run)) !! "t1") = Some task_pending.
Proof. repeat split; vm_compute; reflexivity. Qed.

(** What [createSession] leaves in the cache: the session and its preset's
    rate, expiring [plannedDuration * 60] seconds after the creation. *)
Lemma createSession_cache now newId data w session w' :
  createSession now newId data w = (Ok session, w') ->
  exists rate,
    redis w' !! session_key (id session)
    = Some {| expiresAt := now + data_plannedDuration data * 60 * 1000;
              payload := {| cached_session := session;
                            cached_dopamineGenerationRate := Some rate |} |}.
Proof.
  unfold createSession.
  destruct (if truthy_str (data_taskId data) then _ else false); [discriminate|].
  match goal with
  | |- context [match ?r with Ok _ => _ | Throw _ => _ end = _] =>
      destruct r as [rate|e] eqn:Hrate; [|discriminate]
  end.
  destruct (FocusSessionModel.create newId _ (db w)) as [[s|e] d]; [|discriminate].
  intros H. injection H as <- <-. exists rate. cbn [redis].
  unfold RedisService.setex. apply lookup_insert_eq.
Qed.

(** C9.  The cache entry written at creation expires
    [plannedDuration * 60] seconds later, and when the entry is absent as
    [completeSession] runs, the dopamine reward it computes, stores and
    returns is 0 although a module configuration is attached. *)
Theorem completeSession_cache_miss :
  (forall now newId data w session w' later,
     createSession now newId data w = (Ok session, w') ->
     now + data_plannedDuration data * 60 * 1000 <= later ->
     RedisService.get later (session_key (id session)) (redis w') = None)
  /\ (forall now sessionId userId actualDuration w session,
        validateSessionAccess (db w) sessionId userId = Ok session ->
        id session = sessionId ->
        status session = active ->
        truthy_str (moduleConfigurationId session) = true ->
        RedisService.get now (session_key sessionId) (redis w) = None ->
        calculateDopamineEarned now (redis w) session
          (session_duration actualDuration now (startTime session)) = Js.of_Z 0
        /\ forall r w',
             completeSession now sessionId userId actualDuration w = (Ok r, w') ->
             dopamineEarned r = Js.of_Z 0
             /\ dopamineGenerated (FocusSessionService.session r) = Some (Js.of_Z 0)).
Proof.
  split.
  - intros now newId data w session w' later Hcreate Hlater.
    destruct (createSession_cache _ _ _ _ _ _ Hcreate) as (rate & Hentry).
    unfold RedisService.get. rewrite Hentry. cbn [expiresAt].
    destruct (later <? now + data_plannedDuration data * 60 * 1000) eqn:Hlt;
      [apply Z.ltb_lt in Hlt; lia|reflexivity].
  - intros now sessionId userId actualDuration w session Hacc Hid Hst Hcfg Hget.
    assert (Hzero : calculateDopamineEarned now (redis w) session
                      (session_duration actualDuration now (startTime session))
                    = Js.of_Z 0).
    { apply calculateDopamineEarned_cache_miss. now rewrite Hid. }
    split; [exact Hzero|].
    intros r w'. unfold completeSession. rewrite Hacc.
    rewrite bool_decide_eq_true_2 by exact Hst. cbn [negb]. rewrite Hzero.
    unfold FocusSessionModel.update.
    destruct (focus_sessions (db w) !! sessionId) as [old|]; [|discriminate].
    destruct (FocusSessionModel.row_ok _); [|discriminate].
    destruct (processSessionRewards _ _ _ _ _ _) as [[[]|e] d2]; [|discriminate].
    destruct (match Types.taskId session with Some _ => _ | None => _ end)
      as [[done|e] d3]; [|discriminate].
    intros H. injection H as <- <-. split; reflexivity.
Qed.

(** The session created at time 0 for 25 minutes with preset ["p1"]
    (0.05 dopamine per minute), started, and completed after 30 minutes:
    the entry has expired and the reward is 33 energy and no dopamine. *)
Lemma completeSession_cache_miss_witness :
  RedisService.get 1800000 (session_key (id example_planned_session))
    (redis example_created) = None
  /\ (dopamineGenerationRate <$> (module_presets (db example_started) !! "p1"))
     = Some (Js.dec 5 2)
  /\ exists r w',
       completeSession 1800000 "s1" "u1" None example_started = (Ok r, w')
       /\ dopamineEarned r = Js.of_Z 0.
Proof.
  assert (Hcreate : createSession 0 "s1"
                      {| data_userId := "u1"; data_taskId := None;
                         data_plannedDuration := 25;
                         data_moduleConfigurationId := Some "p1" |}
                      example_world_empty
                    = (Ok example_planned_session, example_created))
    by (vm_compute; reflexivity).
  assert (Hacc : validateSessionAccess (db example_started) "s1" "u1"
                 = Ok (example_session None 0 (Some "p1")))
    by (vm_compute; reflexivity).
  assert (Hget : RedisService.get 1800000 (session_key "s1") (redis example_started)
                 = None)
    by (vm_compute; reflexivity).
  assert (Hrun : exists r w',
             completeSession 1800000 "s1" "u1" None example_started = (Ok r, w')).
  { eexists _, _. vm_compute. reflexivity. }
  destruct completeSession_cache_miss as [Hexpiry Hmiss].
  split.
  - apply (Hexpiry _ _ _ _ _ _ 1800000 Hcreate). vm_compute. discriminate.
  - split; [vm_compute; reflexivity|].
    destruct Hrun as (r & w' & Hrun). exists r, w'. split; [exact Hrun|].
    destruct (Hmiss 1800000 "s1" "u1" None example_started _ Hacc eq_refl eq_refl
                eq_refl Hget) as [_ Hresult].
    exact (proj1 (Hresult r w' Hrun)).
Defined.

(** Before the expiry the entry is the one [startSession] wrote, which
    carries no rate: completing the same session after 10 minutes yields
    NaN dopamine. *)
Lemma completeSession_without_cached_rate :
  (cached_dopamineGenerationRate <$>
     RedisService.get 600000 (session_key "s1") (redis example_started)) = Some None
  /\ (dopamineEarned <$>
        match fst (completeSession 600000 "s1" "u1" None example_started) with
        | Ok r => Some r
        | Throw _ => None
        end) = Some Js.NaN.
Proof. split; vm_compute; reflexivity. Qed.

End Sessions.

(** ** The route in front of [createSession] *)

Section Routes.

Import FocusSessionService Router.

Variable isUUID : string -> bool.

(** [plannedDuration] is among the rejected fields exactly when it lies
    outside [1, 120]. *)
Lemma create_errors_plannedDuration (b : CreateBody) :
  In "plannedDuration" (create_errors isUUID b)
  <-> body_plannedDuration b < 1 \/ 120 < body_plannedDuration b.
Proof.
  unfold create_errors, isInt.
  destruct (optional isUUID (body_taskId b)),
    (optional isUUID (body_moduleConfigurationId b)),
    (1 <=? body_plannedDuration b) eqn:Hmin,
    (body_plannedDuration b <=? 120) eqn:Hmax; cbn;
    try apply Z.leb_le in Hmin; try apply Z.leb_le in Hmax;
    try apply Z.leb_gt in Hmin; try apply Z.leb_gt in Hmax;
    split; intros H; try lia; try (now left); try (now right; left);
    repeat (destruct H as [H|H]; try discriminate H); try contradiction.
Qed.

(** The service itself never reports a rejected request. *)
Lemma createSession_not_rejected now newId data w fields w' :
  createSession now newId data w <> (Throw (RequestRejected fields), w').
Proof.
  unfold createSession.
  destruct (if truthy_str (data_taskId data) then _ else false); [discriminate|].
  match goal with
  | |- context [match ?r with Ok _ => _ | Throw _ => _ end] =>
      destruct r as [rate|e] eqn:Hrate
  end.
  - unfold FocusSessionModel.create.
    destruct (focus_sessions (db w) !! newId); [discriminate|].
    destruct (FocusSessionModel.row_ok _); [discriminate|].
    unfold FocusSessionModel.row_error.
    destruct (FocusSessionModel.types_ok _); discriminate.
  - intros H. injection H as -> _.
    destruct (data_moduleConfigurationId data) as [c|]; [|discriminate].
    destruct (truthy_str (Some c)); [|discriminate].
    unfold validateModuleConfiguration in Hrate.
    destruct (module_presets (db w) !! c) as [preset|]; [|discriminate].
    destruct (negb (String.eqb (preset_userId preset) (data_userId data)));
      [discriminate|].
    destruct (negb (isActive preset)); [discriminate|].
    destruct (find _ (configuration preset)); discriminate.
Qed.

(** A row without completion fields and without interruptions is
    accepted exactly on its planned duration. *)
Lemma row_ok_planned r :
  1 <= plannedDuration r <= 2147483647 ->
  actualDuration r = None ->
  energyGenerated r = None ->
  dopamineGenerated r = None ->
  interruptionCount r = Js.of_Z 0 ->
  FocusSessionModel.row_ok r = true.
Proof.
  intros Hd Ha He Hdo Hi.
  unfold FocusSessionModel.row_ok, FocusSessionModel.types_ok, FocusSessionModel.checks_ok,
    Pg.int4.
  rewrite Ha, He, Hdo, Hi.
  cbn [FocusSessionModel.integer_column FocusSessionModel.decimal_column
       FocusSessionModel.not_negative].
  replace (- 2 ^ 31 <=? plannedDuration r) with true by (symmetry; apply Z.leb_le; lia).
  replace (plannedDuration r <? 2 ^ 31) with true by (symmetry; apply Z.ltb_lt; lia).
  replace (1 <=? plannedDuration r) with true by (symmetry; apply Z.leb_le; lia).
  reflexivity.
Qed.

(** The service enforces no maximum of its own: any planned duration
    from one minute up to the largest value of the [INTEGER] column is
    stored. *)
Lemma createSession_no_maximum now newId user d w :
  1 <= d <= 2147483647 ->
  focus_sessions (db w) !! newId = None ->
  exists session w',
    createSession now newId
      {| data_userId := user; data_taskId := None; data_plannedDuration := d;
         data_moduleConfigurationId := None |} w
    = (Ok session, w')
    /\ plannedDuration session = d.
Proof.
  intros Hd Hfresh.
  unfold createSession, FocusSessionModel.create.
  cbn [data_taskId data_moduleConfigurationId data_userId data_plannedDuration
       truthy_str].
  rewrite Hfresh.
  rewrite row_ok_planned by (try reflexivity; exact Hd).
  eexists _, _. split; reflexivity.
Qed.

(** C7, as stated, fails: a planned duration of 200 minutes, below the
    configured maximum of 480, is rejected by the route. *)
Lemma post_create_rejects_200 :
  post_create (fun _ => true) 0 "s1" "u1"
    {| body_taskId := None; body_plannedDuration := 200;
       body_moduleConfigurationId := None |} example_world_empty
  = (Throw (RequestRejected ["plannedDuration"]), example_world_empty)
  /\ CURRENCY_CONSTANTS.MIN_SESSION_DURATION <= 200 <= CURRENCY_CONSTANTS.MAX_SESSION_DURATION.
Proof. split; [vm_compute; reflexivity|]. vm_compute. split; discriminate. Qed.

(** C7, amended.  A create request is rejected on its [plannedDuration]
    exactly when the value is below 1 or above 120, the bounds of the
    route's validator; every value from 1 to 120 passes it, and a request
    with such a value and neither task nor module configuration creates
    the session in status [planned]. *)
Theorem post_create_duration now newId user (b : CreateBody) w :
  ((exists fields,
      post_create isUUID now newId user b w = (Throw (RequestRejected fields), w)
      /\ In "plannedDuration" fields)
   <-> body_plannedDuration b < 1 \/ 120 < body_plannedDuration b)
  /\ (1 <= body_plannedDuration b <= 120 ->
      body_taskId b = None ->
      body_moduleConfigurationId b = None ->
      focus_sessions (db w) !! newId = None ->
      exists session w',
        post_create isUUID now newId user b w = (Ok session, w')
        /\ status session = planned
        /\ plannedDuration session = body_plannedDuration b
        /\ Types.userId session = user).
Proof.
  split.
  - split.
    + intros (fields & Hrun & Hin). unfold post_create in Hrun.
      destruct (create_errors isUUID b) as [|f fs] eqn:Herr.
      * now apply createSession_not_rejected in Hrun.
      * injection Hrun as <-. rewrite <- Herr in Hin.
        now apply create_errors_plannedDuration.
    + intros Hd. apply create_errors_plannedDuration in Hd.
      unfold post_create.
      destruct (create_errors isUUID b) as [|f fs] eqn:Herr; [contradiction|].
      exists (f :: fs). split; [reflexivity|exact Hd].
  - intros Hd Htask Hcfg Hfresh.
    unfold post_create, create_errors, isInt. rewrite Htask, Hcfg. cbn [optional].
    replace (1 <=? body_plannedDuration b) with true
      by (symmetry; apply Z.leb_le; lia).
    replace (body_plannedDuration b <=? 120) with true
      by (symmetry; apply Z.leb_le; lia).
    cbn [andb app].
    unfold createSession, FocusSessionModel.create.
    cbn [data_taskId data_moduleConfigurationId data_userId data_plannedDuration
         truthy_str].
    rewrite Hfresh.
    rewrite row_ok_planned by (try reflexivity; cbn [plannedDuration]; lia).
    eexists _, _. split; [reflexivity|]. repeat split.
Qed.

End Routes.

(** A request for 25 minutes. *)
Lemma post_create_duration_witness :
  1 <= 25 <= 120
  /\
  exists session w',
    Router.post_create (fun _ => true) 0 "s1" "u1"
      {| Router.body_taskId := None; Router.body_plannedDuration := 25;
         Router.body_moduleConfigurationId := None |} example_world_empty
    = (Ok session, w')
    /\ status session = planned
    /\ plannedDuration session = 25.
Proof.
  destruct (proj2 (post_create_duration (fun _ => true) 0 "s1" "u1"
                     {| Router.body_taskId := None; Router.body_plannedDuration := 25;
                        Router.body_moduleConfigurationId := None |} example_world_empty))
    as (session & w' & Hrun & Hst & Hd & _).
  - cbn. lia.
  - reflexivity.
  - reflexivity.
  - vm_compute. reflexivity.
  - split; [lia|]. exists session, w'. repeat split; assumption.
Defined.


(** ** Signs of floating-point results *)

Section Signs.

Lemma shr_1_nonneg mrs : 0 <= shr_m mrs -> 0 <= shr_m (shr_1 mrs).
Proof.
  destruct mrs as [m r s]. cbn. destruct m as [|[p|p|]|[p|p|]]; cbn; lia.
Qed.

Lemma iter_pos_invariant {A} (P : A -> Prop) (f : A -> A) :
  (forall x, P x -> P (f x)) -> forall n x, P x -> P (@SpecFloat.iter_pos A f n x).
Proof.
  intros Hf. induction n as [n IH|n IH|]; intros x Hx; cbn; auto.
Qed.

Lemma shr_fexp_nonneg m e l :
  0 <= m -> 0 <= shr_m (fst (shr_fexp Js.prec Js.emax m e l)).
Proof.
  intros Hm. unfold shr_fexp, shr.
  assert (H0 : 0 <= shr_m (shr_record_of_loc m l)) by (destruct l as [|[]]; exact Hm).
  destruct (fexp Js.prec Js.emax (Zdigits2 m + e) - e); cbn [fst]; try exact H0.
  apply (iter_pos_invariant (fun r => 0 <= shr_m r)); [apply shr_1_nonneg|exact H0].
Qed.

Lemma round_nearest_even_nonneg m l : 0 <= m -> 0 <= round_nearest_even m l.
Proof.
  intros Hm. unfold round_nearest_even. destruct l as [|[]]; try lia.
  destruct (Z.even m); lia.
Qed.

Lemma binary_round_aux_signed sx mx ex lx :
  0 <= mx -> signed sx (binary_round_aux Js.prec Js.emax sx mx ex lx).
Proof.
  intros Hm. unfold binary_round_aux.
  pose proof (shr_fexp_nonneg mx ex lx Hm) as H1.
  destruct (shr_fexp Js.prec Js.emax mx ex lx) as [mrs' e'] eqn:E1. cbn [fst] in H1.
  pose proof (shr_fexp_nonneg (round_nearest_even (shr_m mrs') (loc_of_shr_record mrs')) e' loc_Exact
                (round_nearest_even_nonneg _ _ H1)) as H2.
  destruct (shr_fexp Js.prec Js.emax _ e' loc_Exact) as [mrs'' e''] eqn:E2. cbn [fst] in H2.
  destruct (shr_m mrs'') as [|p|p]; try lia.
  - constructor.
  - destruct (e'' <=? Js.emax - Js.prec); constructor.
Qed.

Lemma digits2_pos_size p : digits2_pos p = Pos.size p.
Proof. induction p; cbn; congruence. Qed.

Lemma digits2_pos_le p : 2 ^ (Zpos (digits2_pos p) - 1) <= Zpos p.
Proof.
  rewrite digits2_pos_size.
  pose proof (Pos.size_le p) as H.
  assert (H' : 2 ^ Zpos (Pos.size p) <= 2 * Zpos p).
  { change 2 with (Zpos 2) at 1. rewrite <- Pos2Z.inj_pow. change (2 * Zpos p) with (Zpos (p~0)).
    apply Pos2Z.pos_le_pos. exact H. }
  replace (Zpos (Pos.size p)) with (Zpos (Pos.size p) - 1 + 1) in H' by lia.
  rewrite Z.pow_add_r in H' by lia. lia.
Qed.

Lemma shr_1_div mrs : 0 <= shr_m mrs -> shr_m (shr_1 mrs) = shr_m mrs / 2.
Proof.
  destruct mrs as [m r s]. cbn. intros Hm.
  destruct m as [|[p|p|]|q]; try lia; cbn [shr_m]; try reflexivity.
  - rewrite Pos2Z.inj_xI. apply Z.div_unique with 1; lia.
  - rewrite Pos2Z.inj_xO. apply Z.div_unique with 0; lia.
Qed.

Lemma iter_pos_shr_div n : forall mrs,
  0 <= shr_m mrs -> shr_m (@SpecFloat.iter_pos _ shr_1 n mrs) = shr_m mrs / 2 ^ Zpos n.
Proof.
  induction n as [n IH|n IH|]; intros mrs Hm; cbn [SpecFloat.iter_pos].
  - assert (H1 := shr_1_nonneg mrs Hm).
    assert (H2 : 0 <= shr_m (@SpecFloat.iter_pos _ shr_1 n (shr_1 mrs)))
      by (apply (iter_pos_invariant (fun r => 0 <= shr_m r)); [apply shr_1_nonneg|exact H1]).
    rewrite IH by exact H2. rewrite IH by exact H1. rewrite shr_1_div by exact Hm.
    assert (Hp : 0 < 2 ^ Zpos n) by (apply Z.pow_pos_nonneg; lia).
    rewrite !Z.div_div by lia.
    assert (E : 2 ^ Zpos n~1 = 2 * 2 ^ Zpos n * 2 ^ Zpos n).
    { rewrite <- Z.mul_assoc, <- Z.pow_add_r, <- Z.pow_succ_r by lia. f_equal. lia. }
    rewrite E. f_equal. ring.
  - assert (H2 : 0 <= shr_m (@SpecFloat.iter_pos _ shr_1 n mrs))
      by (apply (iter_pos_invariant (fun r => 0 <= shr_m r)); [apply shr_1_nonneg|exact Hm]).
    rewrite IH by exact H2. rewrite IH by exact Hm.
    assert (Hp : 0 < 2 ^ Zpos n) by (apply Z.pow_pos_nonneg; lia).
    rewrite !Z.div_div by lia.
    assert (E : 2 ^ Zpos n~0 = 2 ^ Zpos n * 2 ^ Zpos n).
    { rewrite <- Z.pow_add_r by lia. f_equal. lia. }
    now rewrite E.
  - rewrite shr_1_div by exact Hm. reflexivity.
Qed.

Lemma shr_fexp_pos m e l :
  0 < m -> -1074 <= e ->
  0 < shr_m (fst (shr_fexp Js.prec Js.emax m e l)) /\ -1074 <= snd (shr_fexp Js.prec Js.emax m e l).
Proof.
  intros Hm He. unfold shr_fexp, shr.
  assert (H0 : shr_m (shr_record_of_loc m l) = m) by (destruct l as [|[]]; reflexivity).
  destruct (fexp Js.prec Js.emax (Zdigits2 m + e) - e) as [|n|n] eqn:En; cbn [fst snd].
  - rewrite H0. split; lia.
  - rewrite iter_pos_shr_div by lia. rewrite H0.
    destruct m as [|p|p]; try lia. cbn [Zdigits2] in En.
    unfold fexp, SpecFloat.emin, Js.prec, Js.emax in En.
    pose proof (digits2_pos_le p) as Hd.
    assert (Hn : Zpos n = Zpos (digits2_pos p) - 53) by lia.
    split; [|lia].
    apply Z.div_str_pos. split; [apply Z.pow_pos_nonneg; lia|].
    etransitivity; [|exact Hd]. apply Z.pow_le_mono_r; lia.
  - rewrite H0. split; lia.
Qed.

Lemma binary_round_aux_pos sx mx ex lx :
  0 < mx -> -1074 <= ex ->
  Js.truthy (binary_round_aux Js.prec Js.emax sx mx ex lx) = true
  /\ signed sx (binary_round_aux Js.prec Js.emax sx mx ex lx).
Proof.
  intros Hm He. split; [|apply binary_round_aux_signed; lia].
  unfold binary_round_aux.
  destruct (shr_fexp_pos mx ex lx Hm He) as [H1 He1].
  destruct (shr_fexp Js.prec Js.emax mx ex lx) as [mrs' e'] eqn:E1. cbn [fst snd] in H1, He1.
  assert (Hr : 0 < round_nearest_even (shr_m mrs') (loc_of_shr_record mrs')).
  { unfold round_nearest_even. destruct (loc_of_shr_record mrs') as [|[]]; try lia.
    destruct (Z.even (shr_m mrs')); lia. }
  destruct (shr_fexp_pos _ e' loc_Exact Hr He1) as [H2 _].
  destruct (shr_fexp Js.prec Js.emax _ e' loc_Exact) as [mrs'' e''] eqn:E2. cbn [fst] in H2.
  destruct (shr_m mrs'') as [|p|p]; try lia.
  now destruct (e'' <=? Js.emax - Js.prec).
Qed.

(** A positive integer converts to a positive number: truthy, and not
    NaN. *)
Lemma of_Z_pos a : 0 < a -> Js.truthy (Js.of_Z a) = true /\ signed false (Js.of_Z a).
Proof.
  intros Ha. destruct a as [|p|p]; try lia.
  unfold Js.of_Z, binary_normalize, binary_round.
  destruct (shl_align p 0 (fexp Js.prec Js.emax (Z.pos (digits2_pos p) + 0)))
    as [mz ez] eqn:Ealign.
  apply binary_round_aux_pos; [lia|].
  unfold shl_align in Ealign.
  destruct (fexp Js.prec Js.emax (Z.pos (digits2_pos p) + 0) - 0) eqn:Ed;
    injection Ealign as <- <-; try lia.
  unfold fexp, SpecFloat.emin, Js.prec, Js.emax. lia.
Qed.

Lemma binary_normalize_not_negative m e :
  0 <= m -> number_not_negative (binary_normalize Js.prec Js.emax m e false) = true.
Proof.
  intros Hm. destruct m as [|p|p]; try lia; [reflexivity|].
  cbn [binary_normalize]. unfold binary_round.
  destruct (shl_align p e _) as [mz ez].
  now destruct (binary_round_aux_signed false (Z.pos mz) ez loc_Exact ltac:(lia)).
Qed.

Lemma number_not_negative_ltb x :
  number_not_negative x = negb (x <? Js.of_Z 0)%js.
Proof. now destruct x as [[]|[]| |[] m e]. Qed.

Lemma signed_not_negative x : signed false x -> number_not_negative x = true.
Proof. now intros []. Qed.

(** Products, quotients and sums of numbers that are not negative are
    not negative. *)
Lemma mul_not_negative x y :
  number_not_negative x = true -> number_not_negative y = true ->
  number_not_negative (x * y)%js = true.
Proof.
  destruct x as [sx|[]| |[] mx ex], y as [sy|[]| |[] my ey]; cbn; try discriminate;
    try reflexivity; intros _ _.
  apply signed_not_negative, binary_round_aux_signed. lia.
Qed.

Lemma div_not_negative x y :
  number_not_negative x = true -> signed false y -> Js.truthy y = true ->
  number_not_negative (x / y)%js = true.
Proof.
  intros Hx Hy Ht. destruct Hy as [|my ey|]; [discriminate| |].
  - destruct x as [sx|[]| |[] mx ex]; cbn -[SFdiv_core_binary] in *;
      try discriminate; try reflexivity.
    destruct (SFdiv_core_binary Js.prec Js.emax (Z.pos mx) ex (Z.pos my) ey)
      as [[mz ez] lz] eqn:Ediv.
    apply signed_not_negative, binary_round_aux_signed.
    unfold SFdiv_core_binary in Ediv.
    match type of Ediv with
    | (let '(q, r) := Z.div_eucl ?a ?b in _) = _ =>
        pose proof (Z.div_eucl_eq a b ltac:(lia)) as Heq;
        pose proof (Z.mod_pos_bound a b ltac:(lia)) as Hmod;
        assert (Ha : 0 <= a);
        [|unfold Z.modulo in Hmod; destruct (Z.div_eucl a b) as [q r];
          injection Ediv as <- _ _; nia]
    end.
    destruct (ex - ey - _) eqn:Es; try lia. rewrite Z.shiftl_mul_pow2 by lia.
    apply Z.mul_nonneg_nonneg; [lia|]. apply Z.pow_nonneg. lia.
  - destruct x as [sx|[]| |[] mx ex]; cbn in *; try discriminate; reflexivity.
Qed.

Lemma add_not_negative x y :
  number_not_negative x = true -> number_not_negative y = true ->
  number_not_negative (x + y)%js = true.
Proof.
  destruct x as [[]|[]| |[] mx ex], y as [[]|[]| |[] my ey]; cbn -[shl_align];
    try discriminate; try reflexivity; intros _ _.
  apply binary_normalize_not_negative. lia.
Qed.

(** [Math.round] of a number that is not negative is not negative. *)
Lemma Math_round_not_negative x :
  number_not_negative x = true -> number_not_negative (Js.Math_round x) = true.
Proof.
  destruct x as [sx|[]| |[] m e]; try discriminate; try reflexivity; intros _.
  unfold Js.Math_round.
  destruct (0 <=? e) eqn:He; [reflexivity|]. apply Z.leb_gt in He.
  cbv zeta.
  match goal with |- context [if ?n =? 0 then _ else _] => destruct (n =? 0) eqn:Hn end;
    [reflexivity|].
  apply binary_normalize_not_negative.
  assert (0 < 2 ^ (- e)) by (apply Z.pow_pos_nonneg; lia).
  apply Z.div_pos; [cbn [cond_Zopp]; lia|apply Z.pow_pos_nonneg; lia].
Qed.

(** [Math.max] with a positive first argument is never negative. *)
Lemma Math_max_not_negative a x :
  signed false a -> number_not_negative (Js.Math_max a x) = true.
Proof.
  intros Ha. unfold Js.Math_max.
  destruct Ha as [|m e|], x as [sx|sx| |sx n f]; cbn; try reflexivity;
    try (now destruct sx).
  destruct sx; [reflexivity|].
  destruct (e ?= f); try reflexivity.
  now destruct (Pos.compare_cont Eq m n).
Qed.

End Signs.

(** ** Rewards are never negative *)

Section RewardSigns.

Import FocusSessionService.

Lemma categoryBonuses_not_negative c :
  number_not_negative (or_default (categoryBonuses c) (Js.of_Z 1)) = true.
Proof. destruct c; vm_compute; reflexivity. Qed.

Lemma calculateEnergyEarned_sign session duration :
  number_not_negative duration = true ->
  number_not_negative (calculateEnergyEarned session duration) = true.
Proof.
  intros Hpos.
  unfold calculateEnergyEarned.
  apply div_not_negative; [|apply of_Z_pos; lia|apply of_Z_pos; lia].
  apply Math_round_not_negative.
  apply mul_not_negative; [|apply signed_not_negative, of_Z_pos; lia].
  assert (H1 : number_not_negative
                 match task session with
                 | Some t => (duration * or_default (categoryBonuses (category t)) (Js.of_Z 1))%js
                 | None => duration
                 end = true).
  { destruct (task session) as [t|]; [|exact Hpos].
    apply mul_not_negative; [exact Hpos|apply categoryBonuses_not_negative]. }
  set (b1 := match task session with Some _ => _ | None => _ end) in *.
  assert (H2 : number_not_negative
                 (if (duration >=? Js.of_Z 25)%js then (b1 * Js.dec 11 1)%js else b1) = true).
  { destruct (duration >=? Js.of_Z 25)%js; [|exact H1].
    apply mul_not_negative; [exact H1|vm_compute; reflexivity]. }
  set (b2 := if (duration >=? Js.of_Z 25)%js then _ else _) in *.
  assert (H3 : number_not_negative
                 (if (duration >=? Js.of_Z 50)%js then (b2 * Js.dec 12 1)%js else b2) = true).
  { destruct (duration >=? Js.of_Z 50)%js; [|exact H2].
    apply mul_not_negative; [exact H2|vm_compute; reflexivity]. }
  set (b3 := if (duration >=? Js.of_Z 50)%js then _ else _) in *.
  destruct (interruptionCount session >? Js.of_Z 0)%js; [|exact H3].
  apply mul_not_negative; [exact H3|].
  apply Math_max_not_negative. vm_compute. constructor.
Qed.

Lemma not_negative_of_ltb x : (x <? Js.of_Z 0)%js = false -> number_not_negative x = true.
Proof. intros H. rewrite number_not_negative_ltb, H. reflexivity. Qed.

Lemma ltb_of_not_negative x : number_not_negative x = true -> (x <? Js.of_Z 0)%js = false.
Proof. intros H. apply negb_true_iff. now rewrite <- number_not_negative_ltb. Qed.

(** The energy reward of a duration that is not negative is not negative,
    whatever the session's task and interruption count are: the ledger's
    'Energy reward cannot be negative' check cannot reject it. *)
Theorem calculateEnergyEarned_not_negative session duration :
  (duration <? Js.of_Z 0)%js = false ->
  (calculateEnergyEarned session duration <? Js.of_Z 0)%js = false.
Proof.
  intros Hd. apply ltb_of_not_negative, calculateEnergyEarned_sign, not_negative_of_ltb, Hd.
Qed.

(** A 30-minute analytical session with two interruptions. *)
Lemma calculateEnergyEarned_not_negative_witness :
  (Js.of_Z 30 <? Js.of_Z 0)%js = false
  /\ (calculateEnergyEarned (example_session (Some analytical) 2 None) (Js.of_Z 30)
        <? Js.of_Z 0)%js = false.
Proof.
  split; [reflexivity|].
  apply (calculateEnergyEarned_not_negative
           (example_session (Some analytical) 2 None) (Js.of_Z 30)).
  reflexivity.
Defined.

Lemma calculateDopamineEarned_sign now redis session duration :
  (duration <? Js.of_Z 0)%js = false ->
  (forall cached rate,
     RedisService.get now (session_key (id session)) redis = Some cached ->
     cached_dopamineGenerationRate cached = Some rate ->
     (rate <? Js.of_Z 0)%js = false) ->
  number_not_negative (calculateDopamineEarned now redis session duration) = true.
Proof.
  intros Hd Hrate.
  unfold calculateDopamineEarned.
  destruct (negb (truthy_str (moduleConfigurationId session))); [reflexivity|].
  destruct (RedisService.get now (session_key (id session)) redis) as [cached|] eqn:Hget;
    [|reflexivity].
  apply div_not_negative; [|apply of_Z_pos; lia|apply of_Z_pos; lia].
  apply Math_round_not_negative.
  apply mul_not_negative; [|apply signed_not_negative, of_Z_pos; lia].
  apply mul_not_negative; [|rewrite number_not_negative_ltb, Hd; reflexivity].
  destruct (cached_dopamineGenerationRate cached) as [rate|] eqn:Hr; [|reflexivity].
  cbn [to_number]. rewrite number_not_negative_ltb, (Hrate cached rate eq_refl Hr).
  reflexivity.
Qed.

(** The dopamine reward is never negative when the duration is not and
    the rate in the live cache entry, if there is one, is not; and it is
    exactly 0 when the session has no module configuration or no live
    cache entry. *)
Theorem calculateDopamineEarned_not_negative now redis session duration :
  (truthy_str (moduleConfigurationId session) = false
   \/ RedisService.get now (session_key (id session)) redis = None ->
   calculateDopamineEarned now redis session duration = Js.of_Z 0)
  /\ ((duration <? Js.of_Z 0)%js = false ->
      (forall cached rate,
         RedisService.get now (session_key (id session)) redis = Some cached ->
         cached_dopamineGenerationRate cached = Some rate ->
         (rate <? Js.of_Z 0)%js = false) ->
      (calculateDopamineEarned now redis session duration <? Js.of_Z 0)%js = false).
Proof.
  split.
  - intros [Hcfg|Hget];
      [now apply calculateDopamineEarned_no_configuration
      |now apply calculateDopamineEarned_cache_miss].
  - intros Hd Hrate. now apply ltb_of_not_negative, calculateDopamineEarned_sign.
Qed.

(** Ten minutes into a session whose cache entry holds the rate 0.05,
    and the same session once the entry has expired. *)
Lemma calculateDopamineEarned_not_negative_witness :
  (calculateDopamineEarned 600000 example_cache (example_session None 0 (Some "p1"))
     (Js.of_Z 10) <? Js.of_Z 0)%js = false
  /\ calculateDopamineEarned 1800000 example_cache (example_session None 0 (Some "p1"))
       (Js.of_Z 30) = Js.of_Z 0.
Proof.
  split.
  - apply (proj2 (calculateDopamineEarned_not_negative 600000 example_cache
                    (example_session None 0 (Some "p1")) (Js.of_Z 10))).
    + reflexivity.
    + intros cached rate Hget Hrate. vm_compute in Hget. injection Hget as <-.
      cbn in Hrate. injection Hrate as <-. reflexivity.
  - apply (proj1 (calculateDopamineEarned_not_negative 1800000 example_cache
                    (example_session None 0 (Some "p1")) (Js.of_Z 30))).
    right. vm_compute. reflexivity.
Defined.

End RewardSigns.

(** ** The ledger: errors, frame and invariants *)

Section LedgerInvariants.

Import DatabaseService CurrencyService.

(** A user without a balance row cannot be credited: the failure surfaces
    as a [DatabaseError] and nothing is written; a negative energy amount
    is refused as a [ValidationError] before anything is written. *)
Theorem processSessionRewards_errors now userId energyAmount dopamineAmount sessionId d :
  (user_currency_balances d !! userId = None ->
   processSessionRewards now userId energyAmount dopamineAmount sessionId d
   = (Throw (DatabaseError "Failed to process session rewards"), d))
  /\ (is_Some (user_currency_balances d !! userId) ->
      (energyAmount <? Js.of_Z 0)%js = true ->
      processSessionRewards now userId energyAmount dopamineAmount sessionId d
      = (Throw (ValidationError "Energy reward cannot be negative"), d)).
Proof.
  unfold processSessionRewards, transaction, rewards_transaction, getBalancesWithLock.
  split.
  - intros ->. reflexivity.
  - intros [row ->] ->. reflexivity.
Qed.

Lemma processSessionRewards_errors_witness :
  processSessionRewards 1 "u2" (Js.of_Z 5) (Js.of_Z 0) "s1" (example_ledger 0 0)
  = (Throw (DatabaseError "Failed to process session rewards"), example_ledger 0 0)
  /\ processSessionRewards 1 "u1" (Js.of_Z (-5)) (Js.of_Z 0) "s1" (example_ledger 0 0)
     = (Throw (ValidationError "Energy reward cannot be negative"), example_ledger 0 0).
Proof.
  destruct (processSessionRewards_errors 1 "u2" (Js.of_Z 5) (Js.of_Z 0) "s1"
              (example_ledger 0 0)) as [Hmissing _].
  destruct (processSessionRewards_errors 1 "u1" (Js.of_Z (-5)) (Js.of_Z 0) "s1"
              (example_ledger 0 0)) as [_ Hneg].
  split.
  - apply Hmissing. vm_compute. reflexivity.
  - apply Hneg; [eexists; vm_compute; reflexivity|vm_compute; reflexivity].
Defined.

(** A credit, successful or not, touches nothing but the credited user's
    balance row and the end of the transaction log. *)
Theorem processSessionRewards_frame now userId energyAmount dopamineAmount sessionId d r d' :
  processSessionRewards now userId energyAmount dopamineAmount sessionId d = (r, d') ->
  tasks d' = tasks d
  /\ focus_sessions d' = focus_sessions d
  /\ module_presets d' = module_presets d
  /\ user_modules d' = user_modules d
  /\ (forall other, other <> userId ->
        user_currency_balances d' !! other = user_currency_balances d !! other)
  /\ exists logged, currency_transactions d' = currency_transactions d ++ logged.
Proof.
  intros H. destruct r as [[]|e].
  - apply processSessionRewards_ok_inv in H as (OLD & NEW & _ & _ & _ & _ & _ & ->).
    cbn [set_balances tasks focus_sessions module_presets user_modules
         user_currency_balances currency_transactions].
    repeat split; try reflexivity.
    + intros other Hne. now apply lookup_insert_ne.
    + eexists. reflexivity.
  - rewrite (processSessionRewards_throw_inv _ _ _ _ _ _ _ _ H).
    repeat split; try reflexivity. exists []. now rewrite app_nil_r.
Qed.

Lemma processSessionRewards_frame_witness :
  exists r d',
    processSessionRewards 1 "u1" (Js.of_Z 5) (Js.of_Z 0) "s1" (example_ledger 0 0) = (r, d')
    /\ focus_sessions d' = focus_sessions (example_ledger 0 0)
    /\ user_currency_balances d' !! "u2" = user_currency_balances (example_ledger 0 0) !! "u2".
Proof.
  destruct (processSessionRewards 1 "u1" (Js.of_Z 5) (Js.of_Z 0) "s1" (example_ledger 0 0))
    as [r d'] eqn:Hrun.
  exists r, d'. split; [reflexivity|].
  destruct (processSessionRewards_frame _ _ _ _ _ _ _ _ Hrun) as (_ & Hs & _ & _ & Hother & _).
  split; [exact Hs|]. apply Hother. discriminate.
Defined.

(** The transaction log is append-only: whatever sequence of credits
    runs, the rows that were there stay, in place, at the front. *)
Theorem run_credits_log_append_only cs : forall d,
  exists logged,
    currency_transactions (run_credits cs d) = currency_transactions d ++ logged.
Proof.
  induction cs as [|c cs IH]; intros d; cbn [run_credits].
  - exists []. now rewrite app_nil_r.
  - destruct (processSessionRewards (credit_now c) (credit_userId c)
                (credit_energyAmount c) (credit_dopamineAmount c) (credit_sessionId c) d)
      as [r d1] eqn:Hstep.
    cbn [snd].
    assert (Hlog : exists l1, currency_transactions d1 = currency_transactions d ++ l1).
    { destruct r as [[]|e].
      - apply processSessionRewards_ok_inv in Hstep
          as (OLD & NEW & _ & _ & _ & _ & _ & ->).
        cbn [set_balances currency_transactions]. eauto.
      - rewrite (processSessionRewards_throw_inv _ _ _ _ _ _ _ _ Hstep).
        exists []. now rewrite app_nil_r. }
    destruct Hlog as (l1 & H1).
    destruct (IH d1) as (l2 & H2).
    exists (l1 ++ l2). now rewrite H2, H1, app_assoc.
Qed.

(** With dopamine amounts that are not negative, no sequence of credits
    lowers a user's lifetime dopamine total (in PostgreSQL's order). *)
Theorem run_credits_dopamine_monotone cs : forall d user OLD,
  Forall (fun c => (credit_dopamineAmount c <? Js.of_Z 0)%js = false) cs ->
  user_currency_balances d !! user = Some OLD ->
  exists NEW,
    user_currency_balances (run_credits cs d) !! user = Some NEW
    /\ Pg.le (total_dopamine_earned OLD) (total_dopamine_earned NEW).
Proof.
  induction cs as [|c cs IH]; intros d user OLD Hall Hrow; cbn [run_credits].
  - exists OLD. split; [exact Hrow|apply Pg_le_refl].
  - apply Forall_cons in Hall as [Hc Hall].
    destruct (processSessionRewards (credit_now c) (credit_userId c)
                (credit_energyAmount c) (credit_dopamineAmount c) (credit_sessionId c) d)
      as [r d1] eqn:Hstep.
    cbn [snd].
    assert (Hmid : exists MID,
               user_currency_balances d1 !! user = Some MID
               /\ Pg.le (total_dopamine_earned OLD) (total_dopamine_earned MID)).
    { destruct (decide (user = credit_userId c)) as [->|Hne].
      - destruct r as [[]|e].
        + apply processSessionRewards_ok_inv in Hstep
            as (OLD' & MID & Hrow' & Hmid & _ & _ & _ & ->).
          rewrite Hrow in Hrow'. injection Hrow' as <-.
          exists MID. split.
          * cbn [set_balances user_currency_balances]. apply lookup_insert_eq.
          * apply credit_row_inv in Hmid as (_ & _ & _ & Htd & _).
            exact (plus_le _ _ _ _ Htd Hc).
        + rewrite (processSessionRewards_throw_inv _ _ _ _ _ _ _ _ Hstep).
          exists OLD. split; [exact Hrow|apply Pg_le_refl].
      - exists OLD. split; [|apply Pg_le_refl].
        now rewrite (processSessionRewards_other_user _ _ _ _ _ _ _ _ _ Hstep Hne). }
    destruct Hmid as (MID & Hmid & Hle).
    destruct (IH d1 user MID Hall Hmid) as (NEW & Hnew & Hle').
    exists NEW. split; [exact Hnew|exact (Pg_le_trans _ _ _ Hle Hle')].
Qed.

Lemma run_credits_dopamine_monotone_witness :
  exists NEW,
    user_currency_balances
      (run_credits [ {| credit_now := 1; credit_userId := "u1";
                        credit_energyAmount := Js.of_Z 33;
                        credit_dopamineAmount := Js.dec 15 1;
                        credit_sessionId := "s1" |} ]
         (example_ledger 0 50000)) !! "u1" = Some NEW
    /\ Pg.le (Pg.Val 50000) (total_dopamine_earned NEW).
Proof.
  apply (run_credits_dopamine_monotone
           [ {| credit_now := 1; credit_userId := "u1";
                credit_energyAmount := Js.of_Z 33;
                credit_dopamineAmount := Js.dec 15 1;
                credit_sessionId := "s1" |} ]
           (example_ledger 0 50000) "u1"
           {| energy_balance := Pg.Val 0; dopamine_balance := Pg.Val 50000;
              total_energy_earned := Pg.Val 0; total_dopamine_earned := Pg.Val 50000;
              last_updated := 0 |}).
  - repeat constructor.
  - vm_compute. reflexivity.
Defined.

(** The constraints of [user_currency_balances] are an invariant of the
    ledger: no sequence of credits produces a negative or overlong
    balance. *)
Theorem run_credits_balances_ok cs : forall d,
  balances_ok d -> balances_ok (run_credits cs d).
Proof.
  induction cs as [|c cs IH]; intros d Hok; cbn [run_credits]; [exact Hok|].
  apply IH.
  destruct (processSessionRewards (credit_now c) (credit_userId c)
              (credit_energyAmount c) (credit_dopamineAmount c) (credit_sessionId c) d)
    as [r d1] eqn:Hstep.
  cbn [snd]. destruct r as [[]|e].
  - apply processSessionRewards_ok_inv in Hstep
      as (OLD & NEW & _ & _ & _ & _ & Hnew & ->).
    intros user row. cbn [set_balances user_currency_balances].
    destruct (decide (credit_userId c = user)) as [<-|Hne].
    + rewrite lookup_insert_eq. intros H. now injection H as <-.
    + rewrite lookup_insert_ne by exact Hne. apply Hok.
  - now rewrite (processSessionRewards_throw_inv _ _ _ _ _ _ _ _ Hstep).
Qed.

Lemma run_credits_balances_ok_witness :
  balances_ok
    (run_credits [ {| credit_now := 1; credit_userId := "u1";
                      credit_energyAmount := Js.of_Z 33;
                      credit_dopamineAmount := Js.of_Z (-7);
                      credit_sessionId := "s1" |} ]
       (example_ledger 0 50000)).
Proof.
  apply (run_credits_balances_ok _ (example_ledger 0 50000)).
  intros user row. unfold example_ledger. cbn [user_currency_balances].
  intros H. apply lookup_singleton_Some in H as [_ <-]. reflexivity.
Defined.

Lemma is_distinct_false a b : Pg.is_distinct a b = false -> a = b.
Proof.
  destruct a as [|x], b as [|y]; cbn; try discriminate; try reflexivity.
  intros H. apply negb_false_iff, Z.eqb_eq in H. now subst.
Qed.

Lemma last_logged_other user userId log new :
  user <> userId ->
  Forall (fun t => user_id t = userId) new ->
  last_logged user (log ++ new) = last_logged user log.
Proof.
  intros Hne Hall. unfold last_logged. rewrite rev_app_distr.
  induction new as [|t new IH] using rev_ind; [reflexivity|].
  apply Forall_app in Hall as [Hall Ht]. apply Forall_cons in Ht as [Ht _].
  rewrite rev_app_distr. cbn [rev app find]. rewrite Ht.
  destruct (String.eqb_spec userId user) as [E|_]; [now subst|exact (IH Hall)].
Qed.

Lemma processSessionRewards_reconciled now userId energyAmount dopamineAmount sessionId d r d' :
  log_reconciled d ->
  processSessionRewards now userId energyAmount dopamineAmount sessionId d = (r, d') ->
  log_reconciled d'.
Proof.
  intros Hrec Hstep. destruct r as [[]|e].
  2:{ now rewrite (processSessionRewards_throw_inv _ _ _ _ _ _ _ _ Hstep). }
  apply processSessionRewards_ok_inv in Hstep
    as (OLD & NEW & Hrow & _ & _ & _ & _ & ->).
  intros user row t. cbn [set_balances user_currency_balances currency_transactions].
  destruct (decide (user = userId)) as [->|Hne].
  - rewrite lookup_insert_eq. intros H. injection H as <-.
    unfold log_currency_transaction.
    destruct (Pg.is_distinct (energy_balance NEW) (energy_balance OLD)) eqn:He;
    destruct (Pg.is_distinct (dopamine_balance NEW) (dopamine_balance OLD)) eqn:Hd;
      unfold last_logged; rewrite rev_app_distr; cbn [rev app find user_id];
      rewrite ?String.eqb_refl.
    + intros H. injection H as <-. split; reflexivity.
    + intros H. injection H as <-. split; reflexivity.
    + intros H. injection H as <-. split; reflexivity.
    + intros H. apply is_distinct_false in He, Hd. rewrite He, Hd.
      exact (Hrec userId OLD t Hrow H).
  - rewrite lookup_insert_ne by congruence.
    rewrite (last_logged_other user userId) ; [apply Hrec|exact Hne|].
    eapply Forall_impl; [apply log_currency_transaction_snapshot|].
    intros x Hx. apply Hx.
Qed.

(** The log and the balances stay reconciled: after any sequence of
    credits, accepted or refused, the most recent row logged for a user
    carries that user's current energy and dopamine balances. *)
Theorem run_credits_reconciled cs : forall d,
  log_reconciled d -> log_reconciled (run_credits cs d).
Proof.
  induction cs as [|c cs IH]; intros d Hrec; cbn [run_credits]; [exact Hrec|].
  apply IH.
  destruct (processSessionRewards (credit_now c) (credit_userId c)
              (credit_energyAmount c) (credit_dopamineAmount c) (credit_sessionId c) d)
    as [r d1] eqn:Hstep.
  exact (processSessionRewards_reconciled _ _ _ _ _ _ _ _ Hrec Hstep).
Qed.

Lemma run_credits_reconciled_witness :
  log_reconciled
    (run_credits [ {| credit_now := 1; credit_userId := "u1";
                      credit_energyAmount := Js.of_Z 33;
                      credit_dopamineAmount := Js.dec 15 1;
                      credit_sessionId := "s1" |} ]
       (example_ledger 0 50000)).
Proof.
  apply (run_credits_reconciled _ (example_ledger 0 50000)).
  intros user row t _. unfold example_ledger, last_logged.
  cbn [currency_transactions rev find]. intros H. discriminate H.
Defined.

End LedgerInvariants.

(** ** The client's currency store *)

Section Store.

Import CurrencyStore.

Lemma dispatch_not_negative a state :
  adds_negative a = false ->
  number_not_negative (energy state) = true ->
  number_not_negative (energy (dispatch a state)) = true.
Proof.
  destruct a as [now amount|amount]; cbn [adds_negative dispatch addEnergy spendEnergy energy].
  - intros Ha Hs. apply add_not_negative; [exact Hs|].
    rewrite number_not_negative_ltb, Ha. reflexivity.
  - intros _ _. apply Math_max_not_negative. vm_compute. constructor.
Qed.

(** The displayed energy never goes below zero: [spendEnergy] clamps at
    zero whatever amount is spent, so after any sequence of calls in which
    no negative amount is added the energy is not negative; and no call
    touches the dopamine. *)
Theorem store_energy_not_negative actions : forall state,
  (energy state <? Js.of_Z 0)%js = false ->
  forallb (fun a => negb (adds_negative a)) actions = true ->
  (energy (run_actions actions state) <? Js.of_Z 0)%js = false
  /\ dopamine (run_actions actions state) = dopamine state.
Proof.
  induction actions as [|a actions IH]; intros state Hs Hall.
  - split; [exact Hs|reflexivity].
  - cbn [forallb] in Hall. apply andb_true_iff in Hall as [Ha Hall].
    apply negb_true_iff in Ha.
    unfold run_actions. cbn [fold_left].
    destruct (IH (dispatch a state)) as [He Hd].
    + apply negb_true_iff. rewrite <- number_not_negative_ltb.
      apply dispatch_not_negative; [exact Ha|].
      rewrite number_not_negative_ltb, Hs. reflexivity.
    + exact Hall.
    + split; [exact He|]. unfold run_actions in Hd. rewrite Hd. now destruct a.
Qed.

(** Earn 30, spend 50, earn 5. *)
Lemma store_energy_not_negative_witness :
  (energy (run_actions [AddEnergy 1 (Js.of_Z 30); SpendEnergy (Js.of_Z 50);
                        AddEnergy 2 (Js.of_Z 5)] initial) <? Js.of_Z 0)%js = false
  /\ dopamine (run_actions [AddEnergy 1 (Js.of_Z 30); SpendEnergy (Js.of_Z 50);
                            AddEnergy 2 (Js.of_Z 5)] initial) = dopamine initial.
Proof.
  apply (store_energy_not_negative
           [AddEnergy 1 (Js.of_Z 30); SpendEnergy (Js.of_Z 50); AddEnergy 2 (Js.of_Z 5)]
           initial); reflexivity.
Defined.

End Store.

(** ** The session lifecycle *)

Section SessionLifecycle.

Import DatabaseService CurrencyService FocusSessionService.

Lemma validateSessionAccess_owner d sessionId userId row :
  focus_sessions d !! sessionId = Some row ->
  Types.userId row = userId ->
  validateSessionAccess d sessionId userId = Ok (FocusSessionModel.join d row).
Proof.
  intros Hrow <-. unfold validateSessionAccess, FocusSessionModel.findById.
  rewrite Hrow. cbn [fmap option_fmap option_map FocusSessionModel.join Types.userId].
  now rewrite String.eqb_refl.
Qed.

Lemma validateSessionAccess_missing d sessionId userId :
  focus_sessions d !! sessionId = None ->
  validateSessionAccess d sessionId userId = Throw (PlainError "Focus session not found").
Proof.
  intros Hrow. unfold validateSessionAccess, FocusSessionModel.findById.
  now rewrite Hrow.
Qed.

Lemma validateSessionAccess_denied d sessionId userId row :
  focus_sessions d !! sessionId = Some row ->
  Types.userId row <> userId ->
  validateSessionAccess d sessionId userId
  = Throw (PlainError "Access denied to focus session").
Proof.
  intros Hrow Hne. unfold validateSessionAccess, FocusSessionModel.findById.
  rewrite Hrow. cbn [fmap option_fmap option_map FocusSessionModel.join Types.userId].
  now destruct (String.eqb_spec (Types.userId row) userId).
Qed.

Lemma validateSessionAccess_throws d sessionId userId e :
  validateSessionAccess d sessionId userId = Throw e -> exists m, e = PlainError m.
Proof.
  unfold validateSessionAccess.
  destruct (FocusSessionModel.findById d sessionId) as [session|].
  - destruct (negb _); intros H; [injection H as <-; eauto|discriminate].
  - intros H. injection H as <-. eauto.
Qed.

(** Starting or completing a session that does not exist, or that belongs
    to another user, is refused and changes nothing. *)
Theorem session_access_refused now sessionId userId actualDuration w :
  (focus_sessions (db w) !! sessionId = None ->
   startSession now sessionId userId w
   = (Throw (PlainError "Focus session not found"), w)
   /\ completeSession now sessionId userId actualDuration w
      = (Throw (PlainError "Focus session not found"), w))
  /\ (forall row,
        focus_sessions (db w) !! sessionId = Some row ->
        Types.userId row <> userId ->
        startSession now sessionId userId w
        = (Throw (PlainError "Access denied to focus session"), w)
        /\ completeSession now sessionId userId actualDuration w
           = (Throw (PlainError "Access denied to focus session"), w)).
Proof.
  unfold startSession, completeSession. split.
  - intros Hrow. rewrite (validateSessionAccess_missing _ _ _ Hrow). now split.
  - intros row Hrow Hne. rewrite (validateSessionAccess_denied _ _ _ _ Hrow Hne).
    now split.
Qed.

(** User ["u2"] on the session of ["u1"], and anyone on a session that
    does not exist. *)
Lemma session_access_refused_witness :
  completeSession 600000 "s2" "u1" None (example_world active None)
  = (Throw (PlainError "Focus session not found"), example_world active None)
  /\ startSession 0 "s1" "u2" (example_world planned None)
     = (Throw (PlainError "Access denied to focus session"), example_world planned None).
Proof.
  split.
  - apply (session_access_refused 600000 "s2" "u1" None (example_world active None)).
    reflexivity.
  - apply (proj2 (session_access_refused 0 "s1" "u2" None (example_world planned None))
             (example_row planned None)).
    + reflexivity.
    + discriminate.
Defined.

Lemma startSession_ok_inv now sessionId userId w s' w' :
  startSession now sessionId userId w = (Ok s', w') ->
  exists row,
    focus_sessions (db w) !! sessionId = Some row
    /\ Types.userId row = userId
    /\ status row = planned
    /\ s' = FocusSessionModel.join (db w) (started now row)
    /\ w' = {| db := set_focus_sessions
                       (<[sessionId := started now row]> (focus_sessions (db w))) (db w);
               redis := RedisService.setex now (session_key sessionId)
                          (plannedDuration row * 60)
                          {| cached_session := s';
                             cached_dopamineGenerationRate := None |} (redis w) |}.
Proof.
  unfold startSession.
  destruct (validateSessionAccess (db w) sessionId userId) as [session|e] eqn:Hacc;
    [|discriminate].
  apply validateSessionAccess_inv in Hacc as (row & Hrow & -> & Hu).
  apply String.eqb_eq in Hu.
  destruct (bool_decide (status (FocusSessionModel.join (db w) row) = planned)) eqn:Hst;
    [|discriminate].
  apply bool_decide_eq_true in Hst. cbn [negb].
  unfold FocusSessionModel.update. rewrite Hrow.
  destruct (FocusSessionModel.row_ok (started now row)); [|discriminate].
  intros H. injection H as <- <-. exists row. repeat split; assumption.
Qed.

(** [startSession] starts planned sessions only.  From any other status
    the call is refused and changes nothing; from [planned] the stored
    row becomes [active] with the clock reading as its start time, and
    no other session, balance or log row is touched. *)
Theorem startSession_status_guard now sessionId userId w row :
  focus_sessions (db w) !! sessionId = Some row ->
  Types.userId row = userId ->
  (status row <> planned ->
   startSession now sessionId userId w
   = (Throw (PlainError "Session can only be started from planned status"), w))
  /\ (status row = planned ->
      FocusSessionModel.row_ok row = true ->
      exists s' w',
        startSession now sessionId userId w = (Ok s', w')
        /\ status s' = active /\ startTime s' = now
        /\ focus_sessions (db w') !! sessionId = Some (started now row)
        /\ (forall other, other <> sessionId ->
              focus_sessions (db w') !! other = focus_sessions (db w) !! other)
        /\ user_currency_balances (db w') = user_currency_balances (db w)
        /\ currency_transactions (db w') = currency_transactions (db w)).
Proof.
  intros Hrow Hu. unfold startSession.
  rewrite (validateSessionAccess_owner _ _ _ _ Hrow Hu).
  change (status (FocusSessionModel.join (db w) row)) with (status row).
  split.
  - intros Hst. now rewrite bool_decide_eq_false_2 by exact Hst.
  - intros Hst Hok. rewrite bool_decide_eq_true_2 by exact Hst. cbn [negb].
    unfold FocusSessionModel.update. rewrite Hrow.
    change (FocusSessionModel.row_ok (started now row)) with (FocusSessionModel.row_ok row).
    rewrite Hok. eexists _, _. split; [reflexivity|].
    cbn [db set_focus_sessions focus_sessions user_currency_balances
         currency_transactions].
    repeat split.
    + apply lookup_insert_eq.
    + intros other Hne. apply lookup_insert_ne. congruence.
Qed.

Lemma startSession_status_guard_witness :
  exists s' w',
    startSession 5000 "s1" "u1" (example_world planned None) = (Ok s', w')
    /\ status s' = active /\ startTime s' = 5000.
Proof.
  destruct (proj2 (startSession_status_guard 5000 "s1" "u1" (example_world planned None)
                     (example_row planned None) eq_refl eq_refl))
    as (s' & w' & Hrun & Hst & Htime & _).
  - reflexivity.
  - reflexivity.
  - exists s', w'. repeat split; assumption.
Defined.

(** [startSession] rewrites the cache entry from the updated row, which
    carries no [dopamineGenerationRate].  For the session it returns, the
    dopamine computed from the resulting cache is therefore, for every
    duration: NaN while the entry lives, that is before
    [plannedDuration * 60] seconds have passed since the start, when the
    session has a module configuration; and 0 once the entry has expired
    or when the session has no module configuration.  It is never the
    preset's rate times the duration. *)
Theorem startSession_drops_rate now sessionId userId w s' w' later duration :
  startSession now sessionId userId w = (Ok s', w') ->
  id s' = sessionId ->
  calculateDopamineEarned later (redis w') s' duration
  = if truthy_str (moduleConfigurationId s')
       && (later <? now + plannedDuration s' * 60 * 1000)
    then Js.NaN else Js.of_Z 0.
Proof.
  intros Hstart Hid.
  apply startSession_ok_inv in Hstart as (row & _ & _ & _ & Hs & ->).
  assert (Hplanned : plannedDuration s' = plannedDuration row) by (rewrite Hs; reflexivity).
  rewrite Hplanned.
  unfold calculateDopamineEarned.
  destruct (truthy_str (moduleConfigurationId s')); cbn [negb andb]; [|reflexivity].
  rewrite Hid. cbn [redis]. unfold RedisService.get, RedisService.setex.
  rewrite lookup_insert_eq. cbn [expiresAt payload].
  destruct (later <? now + plannedDuration row * 60 * 1000); reflexivity.
Qed.

(** The session of the worked example, ten minutes after its start. *)
Lemma startSession_drops_rate_witness :
  calculateDopamineEarned 600000 (redis example_started)
    (example_session None 0 (Some "p1")) (Js.of_Z 10) = Js.NaN.
Proof.
  apply (startSession_drops_rate 0 "s1" "u1" example_created
           (example_session None 0 (Some "p1")) example_started 600000 (Js.of_Z 10)).
  - vm_compute. reflexivity.
  - reflexivity.
Defined.

(** How a call of [completeSession] can end.  Either it fails before
    anything is written, with a plain or a database error; or the row is
    stored as completed, and then the call returns its result and the
    cache entry is deleted, or the ledger refuses the credit and the
    balances, the log, the tasks and the cache stay as they were, or the
    credit is committed and the task update fails. *)
Lemma completeSession_cases now sessionId userId actualDuration w r w' :
  completeSession now sessionId userId actualDuration w = (r, w') ->
  (w' = w /\ exists m, r = Throw (PlainError m) \/ r = Throw (PgError m))
  \/ exists row fin,
       focus_sessions (db w) !! sessionId = Some row
       /\ Types.userId row = userId
       /\ status row = active
       /\ status fin = completed
       /\ Types.userId fin = userId
       /\ focus_sessions (db w') = <[sessionId := fin]> (focus_sessions (db w))
       /\ ((exists res, r = Ok res
              /\ redis w' = RedisService.del (session_key sessionId) (redis w))
           \/ ((exists m, r = Throw (ValidationError m) \/ r = Throw (DatabaseError m))
               /\ redis w' = redis w
               /\ tasks (db w') = tasks (db w)
               /\ user_currency_balances (db w') = user_currency_balances (db w)
               /\ currency_transactions (db w') = currency_transactions (db w))
           \/ (r = Throw (PgError
                            "function jsonb_set(jsonb, text[], integer) does not exist")
               /\ redis w' = redis w)).
Proof.
  unfold completeSession.
  destruct (validateSessionAccess (db w) sessionId userId) as [session|e] eqn:Hacc.
  2:{ intros H. injection H as <- <-. left. split; [reflexivity|].
      apply validateSessionAccess_throws in Hacc as [m ->]. eauto. }
  apply validateSessionAccess_inv in Hacc as (row & Hrow & -> & Hu).
  apply String.eqb_eq in Hu.
  change (status (FocusSessionModel.join (db w) row)) with (status row).
  destruct (bool_decide (status row = active)) eqn:Hst; cbn [negb].
  2:{ intros H. injection H as <- <-. left. eauto. }
  apply bool_decide_eq_true in Hst.
  cbv zeta.
  set (duration := session_duration actualDuration now _).
  set (energy := calculateEnergyEarned _ duration).
  set (dopa := calculateDopamineEarned now (redis w) _ duration).
  unfold FocusSessionModel.update. rewrite Hrow.
  destruct (FocusSessionModel.row_ok (finished now duration energy dopa row)).
  2:{ intros H. injection H as <- <-. left. split; [reflexivity|].
      unfold FocusSessionModel.row_error. destruct (FocusSessionModel.types_ok _); eauto. }
  set (d1 := set_focus_sessions _ (db w)).
  destruct (processSessionRewards now userId energy dopa sessionId d1)
    as [r2 d2] eqn:Hcredit.
  pose proof (processSessionRewards_sessions _ _ _ _ _ _ _ _ Hcredit) as [Hsess Hr].
  intros H. right. exists row, (finished now duration energy dopa row).
  split; [reflexivity|]. split; [exact Hu|]. split; [exact Hst|].
  split; [reflexivity|]. split; [exact Hu|].
  destruct r2 as [[]|e].
  - pose proof (complete_task_cases now
                  (Types.taskId (FocusSessionModel.join (db w) row)) d2) as Htask.
    cbv zeta in Htask.
    destruct Htask as [Htask | [_ Htask]]; rewrite Htask in H;
      injection H as <- <-; cbn [db redis]; (split; [now rewrite Hsess|]).
    + left. eauto.
    + right. right. split; reflexivity.
  - injection H as <- <-. cbn [db redis].
    rewrite (processSessionRewards_throw_inv _ _ _ _ _ _ _ _ Hcredit).
    split; [reflexivity|]. right. left.
    destruct Hr as [Hr|(m & Hr)]; [discriminate|].
    split; [exists m; destruct Hr as [Hr|Hr]; injection Hr as ->; eauto|].
    repeat split.
Qed.

Lemma completeSession_refused_when_completed now sessionId userId actualDuration w fin :
  focus_sessions (db w) !! sessionId = Some fin ->
  Types.userId fin = userId ->
  status fin = completed ->
  completeSession now sessionId userId actualDuration w
  = (Throw (PlainError "Only active sessions can be completed"), w).
Proof.
  intros Hrow Hu Hst. unfold completeSession.
  rewrite (validateSessionAccess_owner _ _ _ _ Hrow Hu).
  change (status (FocusSessionModel.join (db w) fin)) with (status fin).
  rewrite Hst. reflexivity.
Qed.

(** A session is rewarded at most once: after [completeSession] has
    returned its result, every further call for the session, at any time
    and with any duration, is refused and changes nothing. *)
Theorem completeSession_only_once now sessionId userId actualDuration w res w' :
  completeSession now sessionId userId actualDuration w = (Ok res, w') ->
  forall now2 actualDuration2,
    completeSession now2 sessionId userId actualDuration2 w'
    = (Throw (PlainError "Only active sessions can be completed"), w').
Proof.
  intros Hrun now2 actualDuration2.
  apply completeSession_cases in Hrun
    as [[_ (m & [Hm|Hm])]|(row & fin & _ & _ & _ & Hst & Hu & Hfs & _)];
    try discriminate.
  apply (completeSession_refused_when_completed _ _ _ _ _ fin); try assumption.
  rewrite Hfs. apply lookup_insert_eq.
Qed.

(** The session of the worked example, completed after 30 minutes and
    again a minute later. *)
Lemma completeSession_only_once_witness :
  completeSession 1860000 "s1" "u1" (Some (Js.of_Z 30))
    (snd (completeSession 1800000 "s1" "u1" None example_started))
  = (Throw (PlainError "Only active sessions can be completed"),
     snd (completeSession 1800000 "s1" "u1" None example_started)).
Proof.
  destruct (completeSession 1800000 "s1" "u1" None example_started) as [r w'] eqn:Hrun.
  assert (Hok : exists res, r = Ok res).
  { assert (H : match fst (completeSession 1800000 "s1" "u1" None example_started) with
                | Ok _ => true
                | Throw _ => false
                end = true) by (vm_compute; reflexivity).
    rewrite Hrun in H. destruct r as [res|e]; [eauto|discriminate]. }
  destruct Hok as [res ->]. cbn [snd].
  exact (completeSession_only_once _ _ _ _ _ _ _ Hrun 1860000 (Some (Js.of_Z 30))).
Defined.

(** The completion and the credit are separate writes.  When the ledger
    refuses the credit, the session is stored as completed all the same,
    while the balances, the log and the cache are as before; and since a
    completed session cannot be completed again, the reward cannot be
    claimed by a retry. *)
Theorem completeSession_failed_credit now sessionId userId actualDuration w m w' :
  completeSession now sessionId userId actualDuration w = (Throw (ValidationError m), w')
  \/ completeSession now sessionId userId actualDuration w = (Throw (DatabaseError m), w') ->
  status <$> (focus_sessions (db w') !! sessionId) = Some completed
  /\ user_currency_balances (db w') = user_currency_balances (db w)
  /\ currency_transactions (db w') = currency_transactions (db w)
  /\ redis w' = redis w
  /\ forall now2 actualDuration2,
       completeSession now2 sessionId userId actualDuration2 w'
       = (Throw (PlainError "Only active sessions can be completed"), w').
Proof.
  intros Hrun.
  assert (Hcases : exists r, completeSession now sessionId userId actualDuration w = (r, w')
                             /\ (r = Throw (ValidationError m)
                                 \/ r = Throw (DatabaseError m)))
    by (destruct Hrun as [H|H]; eauto).
  destruct Hcases as (r & Hr & Hkind).
  apply completeSession_cases in Hr
    as [[_ (m' & [Hm|Hm])]|(row & fin & _ & _ & _ & Hst & Hu & Hfs & Hend)];
    try (subst r; destruct Hkind; discriminate).
  destruct Hend as [(res & -> & _)|[(_ & Hredis & _ & Hbal & Hlog)|(-> & _)]];
    [destruct Hkind; discriminate| |destruct Hkind; discriminate].
  assert (Hfin : focus_sessions (db w') !! sessionId = Some fin)
    by (rewrite Hfs; apply lookup_insert_eq).
  split; [now rewrite Hfin, <- Hst|].
  repeat (split; [assumption|]).
  intros now2 actualDuration2.
  now apply (completeSession_refused_when_completed _ _ _ _ _ fin).
Qed.

(** With 9990.00 energy, 30 minutes more would pass the maximum of 10000:
    the credit is refused, and the session is completed unrewarded. *)
Lemma completeSession_failed_credit_witness :
  fst (completeSession 1800000 "s1" "u1" None example_world_full)
  = Throw (ValidationError "Energy balance would exceed maximum limit")
  /\ status <$> (focus_sessions
                   (db (snd (completeSession 1800000 "s1" "u1" None example_world_full)))
                   !! "s1") = Some completed
  /\ user_currency_balances
       (db (snd (completeSession 1800000 "s1" "u1" None example_world_full)))
     = user_currency_balances (db example_world_full).
Proof.
  destruct (completeSession 1800000 "s1" "u1" None example_world_full) as [r w'] eqn:Hrun.
  assert (Hr : r = Throw (ValidationError "Energy balance would exceed maximum limit")).
  { assert (H : fst (completeSession 1800000 "s1" "u1" None example_world_full)
                = Throw (ValidationError "Energy balance would exceed maximum limit"))
      by (vm_compute; reflexivity).
    now rewrite Hrun in H. }
  subst r. cbn [fst snd]. split; [reflexivity|].
  destruct (completeSession_failed_credit _ _ _ _ _ _ _ (or_introl Hrun))
    as (Hst & Hbal & _).
  split; assumption.
Defined.

Lemma processSessionRewards_accepts_not_negative
    now userId energyAmount dopamineAmount sessionId d d' :
  (energyAmount <? Js.of_Z 0)%js = false ->
  processSessionRewards now userId energyAmount dopamineAmount sessionId d
  <> (Throw (ValidationError "Energy reward cannot be negative"), d').
Proof.
  intros Hneg. unfold processSessionRewards, transaction, rewards_transaction,
    getBalancesWithLock.
  destruct (user_currency_balances d !! userId) as [OLD|]; [|discriminate].
  rewrite Hneg.
  destruct (_ >? CURRENCY_CONSTANTS.ENERGY_MAX_BALANCE)%js; [discriminate|].
  destruct (update_balances now energyAmount dopamineAmount userId d) as [[[] d1]|e] eqn:Hupd;
    [discriminate|].
  unfold update_balances in Hupd.
  destruct (user_currency_balances d !! userId); [|discriminate].
  destruct (credit_row _ _ _ _) as [NEW|]; [|injection Hupd as <-; discriminate].
  destruct (balance_row_ok NEW); [discriminate|].
  injection Hupd as <-. discriminate.
Qed.

Lemma not_negative_of_sign s x :
  (x <? Js.of_Z 0)%js = false -> FocusSessionModel.not_negative s (Some x) = true.
Proof.
  intros Hx. unfold FocusSessionModel.not_negative.
  destruct (Pg.of_number s x) as [[|p]|] eqn:Hp; try reflexivity.
  apply Z.leb_le. exact (proj1 (of_number_sign _ _ _ Hp) Hx).
Qed.

(** The rewards of a well-formed session always pass the checks on
    negative amounts.  For an active session of the caller whose stored
    row satisfies the table's constraints, a duration that is not negative
    and a cached rate that is not negative (or no cached rate), the
    completed row satisfies every CHECK constraint of the table, so the
    update can be refused by a column type only (a duration that is not a
    whole number of 32 bits, a reward past the column's digits), and the
    ledger never answers 'Energy reward cannot be negative'. *)
Theorem completeSession_rewards_pass_checks now sessionId userId actualDuration w row :
  focus_sessions (db w) !! sessionId = Some row ->
  Types.userId row = userId ->
  id row = sessionId ->
  status row = active ->
  FocusSessionModel.row_ok row = true ->
  (session_duration actualDuration now (startTime row) <? Js.of_Z 0)%js = false ->
  (forall cached rate,
     RedisService.get now (session_key sessionId) (redis w) = Some cached ->
     cached_dopamineGenerationRate cached = Some rate ->
     (rate <? Js.of_Z 0)%js = false) ->
  let session := FocusSessionModel.join (db w) row in
  let duration := session_duration actualDuration now (startTime row) in
  FocusSessionModel.checks_ok
    (finished now duration (calculateEnergyEarned session duration)
       (calculateDopamineEarned now (redis w) session duration) row) = true
  /\ (forall w',
        completeSession now sessionId userId actualDuration w
        <> (Throw (PgError "new row violates check constraint"), w'))
  /\ (forall w',
        completeSession now sessionId userId actualDuration w
        <> (Throw (ValidationError "Energy reward cannot be negative"), w')).
Proof.
  intros Hrow Hu Hid Hst Hok Hdur Hrate. cbv zeta.
  set (duration := session_duration actualDuration now (startTime row)) in *.
  set (energy := calculateEnergyEarned (FocusSessionModel.join (db w) row) duration).
  set (dopa := calculateDopamineEarned now (redis w) (FocusSessionModel.join (db w) row)
                 duration).
  assert (Henergy : (energy <? Js.of_Z 0)%js = false)
    by (apply ltb_of_not_negative, calculateEnergyEarned_sign, not_negative_of_ltb, Hdur).
  assert (Hdopa : (dopa <? Js.of_Z 0)%js = false).
  { apply ltb_of_not_negative, calculateDopamineEarned_sign; [exact Hdur|].
    cbn [FocusSessionModel.join id]. rewrite Hid. exact Hrate. }
  assert (Hchecks : FocusSessionModel.checks_ok (finished now duration energy dopa row)
                    = true).
  { unfold FocusSessionModel.row_ok in Hok. apply andb_true_iff in Hok as [_ Hok].
    unfold FocusSessionModel.checks_ok in *.
    cbn [finished plannedDuration energyGenerated dopamineGenerated interruptionCount].
    apply andb_true_iff in Hok as [Hok Hcount].
    apply andb_true_iff in Hok as [Hok _].
    apply andb_true_iff in Hok as [Hplanned _].
    rewrite Hplanned, Hcount, !not_negative_of_sign by assumption. reflexivity. }
  split; [exact Hchecks|].
  assert (Hstep : completeSession now sessionId userId actualDuration w
                  = match FocusSessionModel.update sessionId
                            (finished now duration energy dopa) (db w) with
                    | (Throw e, _) => (Throw e, w)
                    | (Ok updatedSession, d1) =>
                        match processSessionRewards now userId energy dopa sessionId d1 with
                        | (Throw e, d2) => (Throw e, {| db := d2; redis := redis w |})
                        | (Ok _, d2) =>
                            match
                              match Types.taskId (FocusSessionModel.join (db w) row) with
                              | Some t =>
                                  if truthy_str (Some t) then updateTaskCompletion now t d2
                                  else (Ok false, d2)
                              | None => (Ok false, d2)
                              end
                            with
                            | (Throw e, d3) => (Throw e, {| db := d3; redis := redis w |})
                            | (Ok taskCompleted, d3) =>
                                (Ok {| session := updatedSession; energyEarned := energy;
                                       dopamineEarned := dopa;
                                       taskCompleted := taskCompleted |},
                                 {| db := d3;
                                    redis := RedisService.del (session_key sessionId)
                                               (redis w) |})
                            end
                        end
                    end).
  { unfold completeSession.
    rewrite (validateSessionAccess_owner _ _ _ _ Hrow Hu).
    change (status (FocusSessionModel.join (db w) row)) with (status row).
    rewrite Hst. rewrite bool_decide_eq_true_2 by reflexivity. reflexivity. }
  rewrite Hstep. unfold FocusSessionModel.update. rewrite Hrow.
  destruct (FocusSessionModel.row_ok (finished now duration energy dopa row)) eqn:Hfin.
  - destruct (processSessionRewards now userId energy dopa sessionId _)
      as [[[]|e] d2] eqn:Hcredit.
    + pose proof (complete_task_cases now
                    (Types.taskId (FocusSessionModel.join (db w) row)) d2) as Htask.
      cbv zeta in Htask.
      destruct Htask as [-> | [_ ->]]; split; intros w' H; discriminate H.
    + split; intros w' H; injection H as -> _.
      * apply processSessionRewards_sessions in Hcredit as [_ [Hr|(m & [Hr|Hr])]];
          discriminate.
      * revert Hcredit. apply processSessionRewards_accepts_not_negative. exact Henergy.
  - unfold FocusSessionModel.row_error.
    unfold FocusSessionModel.row_ok in Hfin. rewrite Hchecks, andb_true_r in Hfin.
    rewrite Hfin. split; intros w' H; discriminate H.
Qed.

(** Ten minutes into the session, with the rate 0.05 in the cache. *)
Lemma completeSession_rewards_pass_checks_witness :
  FocusSessionModel.row_ok (example_row active (Some "p1")) = true
  /\ (forall w',
        completeSession 600000 "s1" "u1" None example_world_cached
        <> (Throw (PgError "new row violates check constraint"), w'))
  /\ (forall w',
        completeSession 600000 "s1" "u1" None example_world_cached
        <> (Throw (ValidationError "Energy reward cannot be negative"), w')).
Proof.
  split; [reflexivity|].
  refine (proj2 (completeSession_rewards_pass_checks 600000 "s1" "u1" None
                   example_world_cached (example_row active (Some "p1"))
                   _ _ _ _ _ _ _)).
  - reflexivity.
  - reflexivity.
  - reflexivity.
  - reflexivity.
  - reflexivity.
  - vm_compute. reflexivity.
  - intros cached rate Hget Hrate. vm_compute in Hget. injection Hget as <-.
    cbn in Hrate. injection Hrate as <-. reflexivity.
Defined.

(** What a successful [completeSession] returns: the rewards computed
    from the stored row, its joined task and the duration, and the row as
    it was stored. *)
Lemma completeSession_ok_inv now sessionId userId actualDuration w res w' :
  completeSession now sessionId userId actualDuration w = (Ok res, w') ->
  exists row,
    focus_sessions (db w) !! sessionId = Some row
    /\ energyEarned res
       = calculateEnergyEarned (FocusSessionModel.join (db w) row)
           (session_duration actualDuration now (startTime row))
    /\ dopamineEarned res
       = calculateDopamineEarned now (redis w) (FocusSessionModel.join (db w) row)
           (session_duration actualDuration now (startTime row))
    /\ FocusSessionService.session res
       = FocusSessionModel.join (db w)
           (finished now (session_duration actualDuration now (startTime row))
              (energyEarned res) (dopamineEarned res) row).
Proof.
  unfold completeSession.
  destruct (validateSessionAccess (db w) sessionId userId) as [session|e] eqn:Hacc;
    [|discriminate].
  apply validateSessionAccess_inv in Hacc as (row & Hrow & -> & _).
  destruct (negb _); [discriminate|]. cbv zeta.
  change (startTime (FocusSessionModel.join (db w) row)) with (startTime row).
  unfold FocusSessionModel.update. rewrite Hrow.
  destruct (FocusSessionModel.row_ok (finished _ _ _ _ _)); [|discriminate].
  destruct (processSessionRewards _ _ _ _ _ _) as [[[]|e] d2]; [|discriminate].
  destruct (match Types.taskId _ with Some _ => _ | None => _ end)
    as [[done|e] d3]; [|discriminate].
  intros H. injection H as <- _. exists row. repeat split.
Qed.

(** [createSession] either fails and changes nothing, or adds exactly one
    row under the fresh identifier: a planned session of the caller, of
    at least one minute, for a task the caller owns if a task is given;
    no other session, no task, balance or log row is touched. *)
Theorem createSession_effect now newId data w r w' :
  createSession now newId data w = (r, w') ->
  match r with
  | Throw _ => w' = w
  | Ok session =>
      focus_sessions (db w) !! newId = None
      /\ 1 <= data_plannedDuration data
      /\ status session = planned
      /\ (exists row,
            focus_sessions (db w') !! newId = Some row
            /\ status row = planned
            /\ Types.userId row = data_userId data
            /\ plannedDuration row = data_plannedDuration data)
      /\ (forall t, data_taskId data = Some t -> t <> "" ->
            exists task, tasks (db w) !! t = Some task
                         /\ task_userId task = data_userId data)
      /\ (forall other, other <> newId ->
            focus_sessions (db w') !! other = focus_sessions (db w) !! other)
      /\ tasks (db w') = tasks (db w)
      /\ user_currency_balances (db w') = user_currency_balances (db w)
      /\ currency_transactions (db w') = currency_transactions (db w)
  end.
Proof.
  unfold createSession.
  destruct (if truthy_str (data_taskId data) then _ else false) eqn:Hdenied.
  { intros H. now injection H as <- <-. }
  match goal with
  | |- context [match ?x with Ok _ => _ | Throw _ => _ end = _] =>
      destruct x as [rate|e] eqn:Hrate
  end.
  2:{ intros H. now injection H as <- <-. }
  unfold FocusSessionModel.create.
  destruct (focus_sessions (db w) !! newId) eqn:Hfresh.
  { intros H. now injection H as <- <-. }
  destruct (FocusSessionModel.row_ok _) eqn:Hok.
  2:{ intros H. now injection H as <- <-. }
  intros H. injection H as <- <-.
  cbn [db set_focus_sessions focus_sessions tasks user_currency_balances
       currency_transactions].
  unfold FocusSessionModel.row_ok, FocusSessionModel.checks_ok in Hok.
  cbn [plannedDuration] in Hok.
  apply andb_true_iff in Hok as [_ Hok].
  apply andb_true_iff in Hok as [Hok _].
  apply andb_true_iff in Hok as [Hok _].
  apply andb_true_iff in Hok as [Hplanned _].
  apply Z.leb_le in Hplanned.
  split; [reflexivity|]. split; [exact Hplanned|]. split; [reflexivity|].
  split; [eexists; split; [apply lookup_insert_eq|repeat split]|].
  split.
  - intros t Ht Hne. rewrite Ht in Hdenied. cbn [truthy_str mbind option_bind] in Hdenied.
    destruct (String.eqb_spec t ""); [contradiction|]. cbn [negb] in Hdenied.
    destruct (tasks (db w) !! t) as [task|]; [|discriminate].
    exists task. split; [reflexivity|].
    apply negb_false_iff in Hdenied. now apply String.eqb_eq.
  - split; [|repeat split].
    intros other Hne. apply lookup_insert_ne. congruence.
Qed.

(** A 25-minute session for user ["u1"] with preset ["p1"]. *)
Lemma createSession_effect_witness :
  focus_sessions (db example_world_empty) !! "s1" = None
  /\ exists row,
       focus_sessions (db example_created) !! "s1" = Some row /\ status row = planned.
Proof.
  pose proof (createSession_effect 0 "s1"
                {| data_userId := "u1"; data_taskId := None;
                   data_plannedDuration := 25;
                   data_moduleConfigurationId := Some "p1" |}
                example_world_empty (Ok example_planned_session) example_created) as H.
  cbv beta iota in H.
  destruct H as (Hfresh & _ & _ & (row & Hrow & Hst & _) & _).
  - vm_compute. reflexivity.
  - split; [exact Hfresh|]. exists row. split; assumption.
Defined.

(** A module configuration is accepted exactly when it exists, belongs to
    the user, is active, and every module it requires is among the
    modules the user owns. *)
Theorem validateModuleConfiguration_accepts d configId userId preset :
  validateModuleConfiguration d configId userId = Ok preset
  <-> module_presets d !! configId = Some preset
      /\ preset_userId preset = userId
      /\ isActive preset = true
      /\ forall m, In m (configuration preset) ->
           exists um, In um (user_modules d)
                      /\ um_userId um = userId /\ moduleId um = m.
Proof.
  unfold validateModuleConfiguration.
  assert (Hincl : forall m,
             includes m (map moduleId
                           (filter (fun um => String.eqb (um_userId um) userId = true)
                              (user_modules d))) = true
             <-> exists um, In um (user_modules d)
                            /\ um_userId um = userId /\ moduleId um = m).
  { intros m. unfold includes. rewrite existsb_exists. split.
    - intros (x & Hin & Heq). apply String.eqb_eq in Heq. subst x.
      apply in_map_iff in Hin as (um & Hid & Hin).
      apply list_elem_of_In, list_elem_of_filter in Hin as [Hu Hin].
      exists um. split; [now apply list_elem_of_In|].
      split; [now apply String.eqb_eq|exact Hid].
    - intros (um & Hin & Hu & Hid). exists m. split; [|apply String.eqb_refl].
      apply in_map_iff. exists um. split; [exact Hid|].
      apply list_elem_of_In, list_elem_of_filter.
      split; [now apply String.eqb_eq|now apply list_elem_of_In]. }
  destruct (module_presets d !! configId) as [p|].
  2:{ split; [discriminate|]. intros [H _]. discriminate. }
  destruct (String.eqb_spec (preset_userId p) userId) as [Hu|Hu]; cbn [negb].
  2:{ split; [discriminate|]. intros (H & Hu' & _). injection H as ->. contradiction. }
  destruct (isActive p) eqn:Hact; cbn [negb].
  2:{ split; [discriminate|]. intros (H & _ & Hact' & _). injection H as ->. congruence. }
  destruct (find _ (configuration p)) as [m|] eqn:Hfind.
  - split; [discriminate|]. intros (H & _ & _ & Hall). injection H as ->.
    apply find_some in Hfind as [Hin Hmiss].
    apply negb_true_iff in Hmiss.
    apply Hall, Hincl in Hin. congruence.
  - split.
    + intros H. injection H as <-. repeat split; try assumption.
      intros m Hin. apply Hincl.
      pose proof (find_none _ _ Hfind m Hin) as Hm. now apply negb_false_iff in Hm.
    + intros (H & _). now injection H as ->.
Qed.

(** [updateTaskCompletion] never completes a task.  For a task that does
    not exist or is already completed it reports nothing done; for any
    other task the UPDATE fires the row trigger [update_user_statistics],
    whose [jsonb_set] call PostgreSQL refuses, so the call fails with
    the database error.  In every case the database is unchanged, and
    the answer is never [true]. *)
Theorem updateTaskCompletion_never_completes now taskId d :
  snd (updateTaskCompletion now taskId d) = d
  /\ fst (updateTaskCompletion now taskId d) <> Ok true
  /\ (fst (updateTaskCompletion now taskId d) = Ok false
      <-> tasks d !! taskId = None
          \/ exists t, tasks d !! taskId = Some t /\ task_status t = task_completed)
  /\ (forall t, tasks d !! taskId = Some t ->
                task_status t <> task_completed ->
                fst (updateTaskCompletion now taskId d)
                = Throw (PgError
                           "function jsonb_set(jsonb, text[], integer) does not exist")).
Proof.
  destruct (updateTaskCompletion_cases now taskId d) as [H|[(t & Ht & Hst) H]];
    rewrite H; cbn [fst snd].
  - split; [reflexivity|]. split; [discriminate|]. split.
    + split; [|reflexivity]. intros _.
      unfold updateTaskCompletion in H.
      destruct (tasks d !! taskId) as [t|]; [|now left].
      destruct (bool_decide (task_status t = task_completed)) eqn:Hst.
      * apply bool_decide_eq_true in Hst. right. eauto.
      * exfalso. cbn [negb] in H.
        destruct (TaskModel.update _ _ d) as [[u|e] d']; discriminate H.
    + intros t Ht Hst. exfalso.
      unfold updateTaskCompletion in H. rewrite Ht in H.
      rewrite bool_decide_eq_false_2 in H by exact Hst. cbn [negb] in H.
      destruct (TaskModel.update _ _ d) as [[u|e] d']; discriminate H.
  - split; [reflexivity|]. split; [discriminate|]. split.
    + split; [discriminate|].
      intros [Hnone|(t' & Ht' & Hst')]; rewrite Ht in *; [discriminate|].
      injection Ht' as <-. contradiction.
    + reflexivity.
Qed.

(** The pending task ["t1"] of user ["u1"]. *)
Lemma updateTaskCompletion_never_completes_witness :
  updateTaskCompletion 600000 "t1" (db example_world_task)
  = (Throw (PgError "function jsonb_set(jsonb, text[], integer) does not exist"),
     db example_world_task).
Proof.
  destruct (updateTaskCompletion_never_completes 600000 "t1" (db example_world_task))
    as (Hdb & _ & _ & Hfail).
  destruct (updateTaskCompletion 600000 "t1" (db example_world_task)) as [r d'].
  cbn [fst snd] in *. subst d'. f_equal.
  apply (Hfail example_task); [reflexivity|discriminate].
Defined.

End SessionLifecycle.

(** ** The routes in front of [startSession] and [completeSession] *)

Section SessionRouteProperties.

Import FocusSessionService SessionRoutes.

Variable isUUID : string -> bool.

Lemma session_duration_supplied a now startTime :
  1 <= a -> session_duration (Some (Js.of_Z a)) now startTime = Js.of_Z a.
Proof.
  intros Ha. unfold session_duration.
  destruct (of_Z_pos a) as [-> _]; [lia|reflexivity].
Qed.

(** An integer below zero converts to a number with the sign bit set. *)
Lemma of_Z_neg p : signed true (Js.of_Z (Zneg p)).
Proof.
  unfold Js.of_Z. cbn [binary_normalize]. unfold binary_round.
  destruct (shl_align p 0 _) as [mz ez].
  apply binary_round_aux_signed. lia.
Qed.

(** What [isInt({ min: 1 })] accepts: the whole numbers from 1 that are
    written without an exponent. *)
Lemma isInt_min_spec x :
  isInt_min 1 x = true <-> exists z, Js.to_integer x = Some z /\ 1 <= z < 10 ^ 21.
Proof.
  unfold isInt_min, ToString.plain_integer.
  destruct (Js.to_integer x) as [z|].
  - destruct (Z.abs z <? 10 ^ 21) eqn:Habs.
    + apply Z.ltb_lt in Habs. rewrite Z.leb_le. split.
      * intros Hz. exists z. split; [reflexivity|lia].
      * intros (z' & Hz' & Hrange). injection Hz' as <-. lia.
    + apply Z.ltb_ge in Habs. split; [discriminate|].
      intros (z' & Hz' & Hrange). injection Hz' as <-. lia.
  - split; [discriminate|]. intros (z & Hz & _). discriminate.
Qed.

Lemma isInt_min_of_Z a : isInt_min 1 (Js.of_Z a) = true -> 1 <= a.
Proof.
  intros H. apply isInt_min_spec in H as (z & Hz & Hrange & _).
  destruct a as [|p|p]; [|lia|].
  - cbn in Hz. injection Hz as <-. lia.
  - exfalso. destruct (of_Z_neg p) as [|m e|]; cbn [Js.to_integer] in Hz.
    + injection Hz as <-. lia.
    + destruct (0 <=? e) eqn:He.
      * injection Hz as <-. cbn [cond_Zopp] in Hrange.
        assert (0 <= 2 ^ e) by (apply Z.pow_nonneg; lia). nia.
      * apply Z.leb_gt in He.
        destruct (_ =? 0); [|discriminate]. injection Hz as <-.
        cbn [cond_Zopp] in Hrange.
        assert (Hp : 0 < 2 ^ (- e)) by (apply Z.pow_pos_nonneg; lia).
        assert (Hq : 0 <= Zpos m / 2 ^ (- e)) by (apply Z.div_pos; lia).
        lia.
    + discriminate.
Qed.

(** A duration supplied by the client replaces the clock.  When
    [POST /:sessionId/complete] succeeds on a body carrying
    [actualDuration], that number is at least 1 (the only bound the route
    puts on it), it is stored as the session's duration, and the energy
    credited is computed from it alone: neither the time of the call nor
    the session's start time enters the reward. *)
Theorem post_complete_supplied_duration now user sessionId a w res w' :
  post_complete isUUID now user sessionId (Some (Js.of_Z a)) w = (Ok res, w') ->
  1 <= a
  /\ exists row,
       focus_sessions (db w) !! sessionId = Some row
       /\ energyEarned res
          = calculateEnergyEarned (FocusSessionModel.join (db w) row) (Js.of_Z a)
       /\ actualDuration (FocusSessionService.session res) = Some (Js.of_Z a)
       /\ energyGenerated (FocusSessionService.session res) = Some (energyEarned res).
Proof.
  unfold post_complete, complete_errors.
  destruct (isUUID sessionId); [|discriminate].
  destruct (isInt_min 1 (Js.of_Z a)) eqn:Ha; [|discriminate].
  apply isInt_min_of_Z in Ha. cbn [app].
  intros Hrun. split; [exact Ha|].
  apply completeSession_ok_inv in Hrun as (row & Hrow & He & _ & Hs).
  rewrite (session_duration_supplied a now (startTime row) Ha) in He, Hs.
  exists row. split; [exact Hrow|]. split; [exact He|].
  rewrite Hs. split; reflexivity.
Qed.

(** A request that fails validation never reaches the service: whatever
    the route answers with a validation error, nothing was changed, and
    the service itself never answers so.  The error arises only from a
    [sessionId] that is not a UUID or from an [actualDuration] that
    [isInt({ min: 1 })] refuses, that is, any number other than a whole
    number from 1 written without an exponent (so 0, 2.5 and 1e21 are
    refused). *)
Theorem session_routes_rejected now user sessionId actualDuration w fields :
  (forall w', post_start isUUID now user sessionId w = (Throw (RequestRejected fields), w') ->
              w' = w /\ isUUID sessionId = false)
  /\ (forall w', post_complete isUUID now user sessionId actualDuration w
                 = (Throw (RequestRejected fields), w') ->
                 w' = w
                 /\ (isUUID sessionId = false
                     \/ exists a, actualDuration = Some a
                                  /\ ~ exists z, Js.to_integer a = Some z
                                                 /\ 1 <= z < 10 ^ 21)).
Proof.
  split; intros w'.
  - unfold post_start, start_errors. destruct (isUUID sessionId).
    + intros H. exfalso.
      destruct (startSession now sessionId user w) as [r w1] eqn:Hrun.
      injection H as -> _.
      unfold startSession in Hrun.
      destruct (validateSessionAccess (db w) sessionId user) as [s|e] eqn:Hacc.
      * destruct (negb _); [discriminate|].
        destruct (FocusSessionModel.update _ _ _) as [[u|e] d] eqn:Hupd; [discriminate|].
        unfold FocusSessionModel.update in Hupd.
        destruct (focus_sessions (db w) !! sessionId).
        -- destruct (FocusSessionModel.row_ok _); [discriminate|].
           unfold FocusSessionModel.row_error in Hupd.
           destruct (FocusSessionModel.types_ok _); injection Hupd as <- _; discriminate.
        -- injection Hupd as <- _. discriminate.
      * apply validateSessionAccess_throws in Hacc as [m ->]. discriminate.
    + intros H. injection H as _ <-. now split.
  - assert (Hservice : forall a,
               completeSession now sessionId user a w
               <> (Throw (RequestRejected fields), w')).
    { intros a H. apply completeSession_cases in H as [[_ (m & [H|H])]|H];
        try discriminate.
      destruct H as (row & fin & _ & _ & _ & _ & _ & _
                     & [(res & H & _)|[((m & [H|H]) & _)|(H & _)]]); discriminate. }
    unfold post_complete, complete_errors.
    destruct (isUUID sessionId).
    + destruct actualDuration as [a|]; [destruct (isInt_min 1 a) eqn:Ha|]; cbn [app].
      * intros H. now apply Hservice in H.
      * intros H. injection H as _ <-. split; [reflexivity|]. right.
        exists a. split; [reflexivity|]. intros Hz.
        apply isInt_min_spec in Hz. congruence.
      * intros H. now apply Hservice in H.
    + intros H. destruct actualDuration as [a|]; [destruct (isInt_min 1 a)|];
        injection H as _ <-; (split; [reflexivity|now left]).
Qed.

End SessionRouteProperties.

(** The client reports 480 minutes for a session started 10 minutes ago:
    the energy of 480 minutes is credited. *)
Lemma post_complete_supplied_duration_witness :
  exists res w',
    SessionRoutes.post_complete (fun _ => true) 600000 "u1" "s1" (Some (Js.of_Z 480))
      (example_world active None) = (Ok res, w')
    /\ FocusSessionService.energyEarned res
       = FocusSessionService.calculateEnergyEarned
           (example_session None 0 None) (Js.of_Z 480).
Proof.
  destruct (SessionRoutes.post_complete (fun _ => true) 600000 "u1" "s1"
              (Some (Js.of_Z 480)) (example_world active None)) as [r w'] eqn:Hrun.
  assert (Hok : exists res, r = Ok res).
  { assert (H : match fst (SessionRoutes.post_complete (fun _ => true) 600000 "u1" "s1"
                             (Some (Js.of_Z 480)) (example_world active None)) with
                | Ok _ => true
                | Throw _ => false
                end = true) by (vm_compute; reflexivity).
    rewrite Hrun in H. destruct r as [res|e]; [eauto|discriminate]. }
  destruct Hok as [res ->]. exists res, w'. split; [reflexivity|].
  destruct (post_complete_supplied_duration _ _ _ _ _ _ _ _ Hrun)
    as (_ & row & Hrow & He & _).
  vm_compute in Hrow. injection Hrow as <-. exact He.
Defined.

(** A duration of two and a half minutes is refused by the route. *)
Lemma session_routes_rejected_witness :
  SessionRoutes.post_complete (fun _ => true) 600000 "u1" "s1" (Some (Js.dec 25 1))
    (example_world active None)
  = (Throw (RequestRejected ["actualDuration"]), example_world active None)
  /\ ~ exists z, Js.to_integer (Js.dec 25 1) = Some z /\ 1 <= z < 10 ^ 21.
Proof.
  assert (Hrun : SessionRoutes.post_complete (fun _ => true) 600000 "u1" "s1"
                   (Some (Js.dec 25 1)) (example_world active None)
                 = (Throw (RequestRejected ["actualDuration"]), example_world active None))
    by (vm_compute; reflexivity).
  split; [exact Hrun|].
  destruct (proj2 (session_routes_rejected (fun _ => true) 600000 "u1" "s1"
                     (Some (Js.dec 25 1)) (example_world active None)
                     ["actualDuration"]) _ Hrun)
    as [_ [H|(a & Ha & Hno)]]; [discriminate|].
  injection Ha as <-. exact Hno.
Defined.

(** ** Purchases *)

Section PurchaseProperties.

Import DatabaseService Purchases.

Variable less : Pg.numeric -> Pg.numeric -> bool.
Variable modules : gmap string Pg.numeric.

Lemma purchaseModule_inv now userId module d r d' :
  purchaseModule less modules now userId module d = (r, d') ->
  match r with
  | Throw _ => d' = d
  | Ok um =>
      exists OLD cost,
        user_currency_balances d !! userId = Some OLD
        /\ modules !! module = Some cost
        /\ less (energy_balance OLD) cost = false
        /\ balance_row_ok (spend_row OLD cost) = true
        /\ owns userId module (user_modules d) = false
        /\ um = {| um_userId := userId; moduleId := module |}
        /\ d' = {| tasks := tasks d; focus_sessions := focus_sessions d;
                   module_presets := module_presets d;
                   user_modules := user_modules d ++ [um];
                   user_currency_balances :=
                     <[userId := spend_row OLD cost]> (user_currency_balances d);
                   currency_transactions :=
                     currency_transactions d ++
                       log_currency_transaction now userId OLD (spend_row OLD cost) |}
  end.
Proof.
  unfold purchaseModule, transaction, purchase_transaction.
  destruct (user_currency_balances d !! userId) as [OLD|];
    [|intros H; now injection H as <- <-].
  destruct (modules !! module) as [cost|]; [|intros H; now injection H as <- <-].
  destruct (less (energy_balance OLD) cost) eqn:Hless; [intros H; now injection H as <- <-|].
  destruct (balance_row_ok (spend_row OLD cost)) eqn:Hok; cbn [negb];
    [|intros H; now injection H as <- <-].
  destruct (owns userId module (user_modules d)) eqn:Hown;
    [intros H; now injection H as <- <-|].
  intros H. injection H as <- <-. exists OLD, cost. repeat split; assumption.
Qed.

Lemma owns_app userId module rows rows' :
  owns userId module (rows ++ rows') = owns userId module rows || owns userId module rows'.
Proof. apply existsb_app. Qed.

(** A purchase is all or nothing, and it cannot overdraw.  A failed
    [purchaseModule] leaves the database as it was.  A successful one
    takes exactly the module's cost from the buyer's energy, leaves a
    balance that is not negative whatever the comparison in the code
    decided, touches no other column and no other user's row, and adds
    one ownership row for a module the buyer did not own. *)
Theorem purchaseModule_effect now userId module d r d' :
  purchaseModule less modules now userId module d = (r, d') ->
  match r with
  | Throw _ => d' = d
  | Ok um =>
      exists OLD NEW cost,
        user_currency_balances d !! userId = Some OLD
        /\ modules !! module = Some cost
        /\ user_currency_balances d' !! userId = Some NEW
        /\ energy_balance NEW = Pg.sub (energy_balance OLD) cost
        /\ Pg.nonneg (energy_balance NEW) = true
        /\ dopamine_balance NEW = dopamine_balance OLD
        /\ total_energy_earned NEW = total_energy_earned OLD
        /\ total_dopamine_earned NEW = total_dopamine_earned OLD
        /\ (forall other, other <> userId ->
              user_currency_balances d' !! other = user_currency_balances d !! other)
        /\ owns userId module (user_modules d) = false
        /\ user_modules d' = user_modules d ++ [um]
        /\ um_userId um = userId /\ moduleId um = module
  end.
Proof.
  intros Hrun. apply purchaseModule_inv in Hrun. destruct r as [um|e]; [|exact Hrun].
  destruct Hrun as (OLD & cost & Hrow & Hcost & _ & Hok & Hown & -> & ->).
  exists OLD, (spend_row OLD cost), cost.
  cbn [user_currency_balances user_modules um_userId moduleId].
  split; [exact Hrow|]. split; [exact Hcost|].
  split; [apply lookup_insert_eq|]. split; [reflexivity|].
  split.
  { unfold balance_row_ok in Hok. repeat (apply andb_true_iff in Hok as [Hok ?]).
    assumption. }
  repeat (split; [reflexivity|]).
  split; [intros other Hne; apply lookup_insert_ne; congruence|].
  repeat split. exact Hown.
Qed.

(** A module is bought at most once: after a successful purchase, every
    further purchase of the same module by the same user fails, and
    nothing is charged for it. *)
Theorem purchaseModule_only_once now userId module d um d' :
  purchaseModule less modules now userId module d = (Ok um, d') ->
  forall now2, exists e,
    purchaseModule less modules now2 userId module d' = (Throw e, d').
Proof.
  intros Hrun now2. apply purchaseModule_inv in Hrun.
  destruct Hrun as (OLD & cost & _ & _ & _ & _ & _ & -> & ->).
  destruct (purchaseModule less modules now2 userId module _) as [r d2] eqn:Hagain.
  pose proof (purchaseModule_inv _ _ _ _ _ _ Hagain) as Hinv.
  destruct r as [um2|e]; [|subst d2; eauto].
  exfalso. destruct Hinv as (_ & _ & _ & _ & _ & _ & Hown & _).
  cbn [user_modules] in Hown. rewrite owns_app in Hown.
  apply orb_false_iff in Hown as [_ Hown].
  cbn [owns existsb um_userId moduleId] in Hown.
  rewrite !String.eqb_refl in Hown. discriminate.
Qed.

(** Purchases keep the ledger's invariants: the balance rows satisfy the
    table's constraints, and the log stays reconciled with the
    balances. *)
Theorem purchaseModule_invariants now userId module d r d' :
  purchaseModule less modules now userId module d = (r, d') ->
  balances_ok d -> log_reconciled d ->
  balances_ok d' /\ log_reconciled d'.
Proof.
  intros Hrun Hok Hrec. apply purchaseModule_inv in Hrun.
  destruct r as [um|e]; [|now subst d'].
  destruct Hrun as (OLD & cost & Hrow & _ & _ & Hnew & _ & _ & ->). split.
  - intros user row. cbn [user_currency_balances].
    destruct (decide (userId = user)) as [<-|Hne].
    + rewrite lookup_insert_eq. intros H. now injection H as <-.
    + rewrite lookup_insert_ne by exact Hne. apply Hok.
  - intros user row t. cbn [user_currency_balances currency_transactions].
    destruct (decide (user = userId)) as [->|Hne].
    + rewrite lookup_insert_eq. intros H. injection H as <-.
      unfold log_currency_transaction.
      change (dopamine_balance (spend_row OLD cost)) with (dopamine_balance OLD).
      destruct (Pg.is_distinct (energy_balance (spend_row OLD cost)) (energy_balance OLD))
        eqn:He;
      destruct (Pg.is_distinct (dopamine_balance OLD) (dopamine_balance OLD)) eqn:Hd;
        unfold last_logged; rewrite rev_app_distr; cbn [rev app find user_id];
        rewrite ?String.eqb_refl.
      * intros H. injection H as <-. split; reflexivity.
      * intros H. injection H as <-. split; reflexivity.
      * intros H. injection H as <-. split; reflexivity.
      * intros H. apply is_distinct_false in He. rewrite He.
        exact (Hrec userId OLD t Hrow H).
    + rewrite lookup_insert_ne by congruence.
      rewrite (last_logged_other user userId); [apply Hrec|exact Hne|].
      eapply Forall_impl; [apply log_currency_transaction_snapshot|].
      intros x Hx. apply Hx.
Qed.

End PurchaseProperties.

(** User ["u1"] buys module ["m1"] for 25.00 of their 50.00 energy. *)
Lemma purchaseModule_effect_witness :
  exists NEW,
    user_currency_balances
      (snd (Purchases.purchaseModule example_less example_modules 1 "u1" "m1"
              (example_ledger 5000 0))) !! "u1" = Some NEW
    /\ energy_balance NEW = Pg.Val 2500.
Proof.
  destruct (Purchases.purchaseModule example_less example_modules 1 "u1" "m1"
              (example_ledger 5000 0)) as [r d'] eqn:Hrun.
  assert (Hok : exists um, r = Ok um).
  { assert (H : match fst (Purchases.purchaseModule example_less example_modules 1 "u1" "m1"
                             (example_ledger 5000 0)) with
                | Ok _ => true
                | Throw _ => false
                end = true) by (vm_compute; reflexivity).
    rewrite Hrun in H. destruct r as [um|e]; [eauto|discriminate]. }
  destruct Hok as [um ->].
  pose proof (purchaseModule_effect _ _ _ _ _ _ _ _ Hrun) as H. cbv beta iota in H.
  destruct H as (OLD & NEW & cost & Hold & Hcost & Hnew & He & _).
  vm_compute in Hold. injection Hold as <-.
  vm_compute in Hcost. injection Hcost as <-.
  exists NEW. split; [exact Hnew|exact He].
Defined.

(** The same purchase again, a second later. *)
Lemma purchaseModule_only_once_witness :
  exists e,
    Purchases.purchaseModule example_less example_modules 2 "u1" "m1"
      (snd (Purchases.purchaseModule example_less example_modules 1 "u1" "m1"
              (example_ledger 5000 0)))
    = (Throw e,
       snd (Purchases.purchaseModule example_less example_modules 1 "u1" "m1"
              (example_ledger 5000 0))).
Proof.
  destruct (Purchases.purchaseModule example_less example_modules 1 "u1" "m1"
              (example_ledger 5000 0)) as [r d'] eqn:Hrun.
  assert (Hok : exists um, r = Ok um).
  { assert (H : match fst (Purchases.purchaseModule example_less example_modules 1 "u1" "m1"
                             (example_ledger 5000 0)) with
                | Ok _ => true
                | Throw _ => false
                end = true) by (vm_compute; reflexivity).
    rewrite Hrun in H. destruct r as [um|e]; [eauto|discriminate]. }
  destruct Hok as [um ->]. cbn [snd].
  exact (purchaseModule_only_once _ _ _ _ _ _ _ _ Hrun 2).
Defined.

Lemma purchaseModule_invariants_witness :
  balances_ok (snd (Purchases.purchaseModule example_less example_modules 1 "u1" "m1"
                      (example_ledger 5000 0)))
  /\ log_reconciled (snd (Purchases.purchaseModule example_less example_modules 1 "u1" "m1"
                            (example_ledger 5000 0))).
Proof.
  destruct (Purchases.purchaseModule example_less example_modules 1 "u1" "m1"
              (example_ledger 5000 0)) as [r d'] eqn:Hrun.
  cbn [snd].
  apply (purchaseModule_invariants _ _ _ _ _ _ _ _ Hrun).
  - intros user row. unfold example_ledger. cbn [user_currency_balances].
    intros H. apply lookup_singleton_Some in H as [_ <-]. reflexivity.
  - intros user row t _. unfold example_ledger, last_logged.
    cbn [currency_transactions rev find]. intros H. discriminate H.
Defined.

(** ** The reference calculation is exact *)

Section ReferenceExact.

Import DecimalJs Standards.






End ReferenceExact.

(** ** Worked examples for the ledger and the service *)

(** A credit of 33 energy to an empty balance. *)
Lemma run_credits_energy_monotone_witness :
  exists NEW,
    user_currency_balances
      (run_credits [ {| credit_now := 1; credit_userId := "u1";
                        credit_energyAmount := Js.of_Z 33;
                        credit_dopamineAmount := Js.of_Z (-1);
                        credit_sessionId := "s1" |} ]
         (example_ledger 0 50000)) !! "u1" = Some NEW
    /\ Pg.le (Pg.Val 0) (total_energy_earned NEW).
Proof.
  apply (run_credits_energy_monotone
           [ {| credit_now := 1; credit_userId := "u1";
                credit_energyAmount := Js.of_Z 33;
                credit_dopamineAmount := Js.of_Z (-1);
                credit_sessionId := "s1" |} ]
           (example_ledger 0 50000) "u1"
           {| energy_balance := Pg.Val 0; dopamine_balance := Pg.Val 50000;
              total_energy_earned := Pg.Val 0; total_dopamine_earned := Pg.Val 50000;
              last_updated := 0 |}).
  vm_compute. reflexivity.
Defined.

(** A session planned for 100000 minutes. *)
Lemma createSession_no_maximum_witness :
  exists session w',
    FocusSessionService.createSession 0 "s1"
      {| FocusSessionService.data_userId := "u1";
         FocusSessionService.data_taskId := None;
         FocusSessionService.data_plannedDuration := 100000;
         FocusSessionService.data_moduleConfigurationId := None |} example_world_empty
    = (Ok session, w')
    /\ plannedDuration session = 100000.
Proof.
  apply (createSession_no_maximum 0 "s1" "u1" 100000 example_world_empty).
  - lia.
  - reflexivity.
Defined.

(** ** A started session and the dopamine balance *)

Section Lifecycle.

Import DatabaseService CurrencyService FocusSessionService.

Lemma updateTaskCompletion_balances now taskId d :
  user_currency_balances (snd (updateTaskCompletion now taskId d))
  = user_currency_balances d.
Proof.
  destruct (updateTaskCompletion_cases now taskId d) as [-> | [_ ->]]; reflexivity.
Qed.

(** The balances after a successful [completeSession] are those the
    ledger committed for the rewards returned. *)
Lemma completeSession_ok_credit now sessionId userId actualDuration w res w' :
  completeSession now sessionId userId actualDuration w = (Ok res, w') ->
  exists d1 d2,
    user_currency_balances d1 = user_currency_balances (db w)
    /\ processSessionRewards now userId (energyEarned res) (dopamineEarned res)
         sessionId d1 = (Ok tt, d2)
    /\ user_currency_balances (db w') = user_currency_balances d2.
Proof.
  unfold completeSession.
  destruct (validateSessionAccess (db w) sessionId userId) as [session|e];
    [|discriminate].
  destruct (negb _); [discriminate|]. cbv zeta.
  destruct (FocusSessionModel.update _ _ (db w)) as [[upd|e] d1] eqn:Hupd; [|discriminate].
  destruct (processSessionRewards _ _ _ _ _ d1) as [[[]|e] d2] eqn:Hcredit; [|discriminate].
  destruct (match Types.taskId session with Some _ => _ | None => _ end)
    as [[done|e] d3] eqn:Htask; [|discriminate].
  intros H. injection H as <- <-. exists d1, d2. cbn [energyEarned dopamineEarned db].
  split; [|split; [exact Hcredit|]].
  - unfold FocusSessionModel.update in Hupd.
    destruct (focus_sessions (db w) !! sessionId); [|now injection Hupd as _ <-].
    destruct (FocusSessionModel.row_ok _); now injection Hupd as _ <-.
  - destruct (Types.taskId session) as [t|].
    + destruct (truthy_str (Some t)).
      * pose proof (updateTaskCompletion_balances now t d2) as Hb.
        now rewrite Htask in Hb.
      * now injection Htask as _ <-.
    + now injection Htask as _ <-.
Qed.

(** A session with a module configuration that is started and then
    completed before its cache entry expires earns NaN dopamine, and the
    ledger accepts it: the user's dopamine balance and lifetime dopamine
    total are NaN afterwards, whatever they were and whatever rate the
    configuration has. *)
Theorem started_session_spoils_dopamine
    now sessionId userId w s' w1 later actualDuration res w2 :
  startSession now sessionId userId w = (Ok s', w1) ->
  id s' = sessionId ->
  truthy_str (moduleConfigurationId s') = true ->
  later < now + plannedDuration s' * 60 * 1000 ->
  completeSession later sessionId userId actualDuration w1 = (Ok res, w2) ->
  dopamineEarned res = Js.NaN
  /\ dopamine_balance <$> (user_currency_balances (db w2) !! userId) = Some Pg.NaN
  /\ total_dopamine_earned <$> (user_currency_balances (db w2) !! userId) = Some Pg.NaN.
Proof.
  intros Hstart Hid Hcfg Hlater Hdone.
  apply startSession_ok_inv in Hstart as (row & Hrow & Hu & Hst & Hs & Hw1).
  assert (Hnan : dopamineEarned res = Js.NaN).
  { pose proof (completeSession_ok_inv _ _ _ _ _ _ _ Hdone) as (row1 & Hrow1 & _ & Hd & _).
    rewrite Hd. subst w1. cbn [db redis set_focus_sessions focus_sessions] in *.
    rewrite lookup_insert_eq in Hrow1. injection Hrow1 as <-.
    unfold calculateDopamineEarned.
    assert (Hcfg' : moduleConfigurationId
                      (FocusSessionModel.join
                         (set_focus_sessions
                            (<[sessionId := started now row]> (focus_sessions (db w)))
                            (db w)) (started now row))
                    = moduleConfigurationId s') by (rewrite Hs; reflexivity).
    rewrite Hcfg', Hcfg. cbn [negb].
    assert (Hid' : id (FocusSessionModel.join
                         (set_focus_sessions
                            (<[sessionId := started now row]> (focus_sessions (db w)))
                            (db w)) (started now row)) = sessionId)
      by (rewrite <- Hid, Hs; reflexivity).
    rewrite Hid'. unfold RedisService.get, RedisService.setex.
    rewrite lookup_insert_eq. cbn [expiresAt payload].
    assert (Hplanned : plannedDuration s' = plannedDuration row) by (rewrite Hs; reflexivity).
    rewrite Hplanned in Hlater.
    replace (later <? now + plannedDuration row * 60 * 1000) with true
      by (symmetry; apply Z.ltb_lt; exact Hlater).
    reflexivity. }
  split; [exact Hnan|].
  apply completeSession_ok_credit in Hdone as (d1 & d2 & _ & Hcredit & Hbal).
  rewrite Hnan in Hcredit.
  apply processSessionRewards_ok_inv in Hcredit
    as (OLD & NEW & _ & Hnew & _ & _ & _ & ->).
  apply credit_row_inv in Hnew as (_ & Hd & _ & Htd & _).
  rewrite plus_NaN in Hd, Htd. injection Hd as Hd. injection Htd as Htd.
  rewrite Hbal. cbn [set_balances user_currency_balances].
  rewrite lookup_insert_eq. cbn [fmap option_fmap option_map].
  now rewrite <- Hd, <- Htd.
Qed.

(** The session of the worked example, completed ten minutes after its
    start. *)
Lemma started_session_spoils_dopamine_witness :
  dopamine_balance <$>
    (user_currency_balances
       (db (snd (completeSession 600000 "s1" "u1" None example_started))) !! "u1")
  = Some Pg.NaN.
Proof.
  destruct (completeSession 600000 "s1" "u1" None example_started) as [r w2] eqn:Hrun.
  assert (Hok : exists res, r = Ok res).
  { assert (H : match fst (completeSession 600000 "s1" "u1" None example_started) with
                | Ok _ => true
                | Throw _ => false
                end = true) by (vm_compute; reflexivity).
    rewrite Hrun in H. destruct r as [res|e]; [eauto|discriminate]. }
  destruct Hok as [res ->]. cbn [snd].
  assert (Hstart : startSession 0 "s1" "u1" example_created
                   = (Ok (example_session None 0 (Some "p1")), example_started))
    by (vm_compute; reflexivity).
  apply (started_session_spoils_dopamine 0 "s1" "u1" example_created
           (example_session None 0 (Some "p1")) example_started 600000 None res w2 Hstart).
  - reflexivity.
  - reflexivity.
  - reflexivity.
  - exact Hrun.
Defined.

(** NaN is absorbing in the ledger: once a user's dopamine balance is
    NaN, no sequence of credits brings a number back. *)
Theorem run_credits_NaN_stays cs : forall d user row,
  user_currency_balances d !! user = Some row ->
  dopamine_balance row = Pg.NaN ->
  dopamine_balance <$> (user_currency_balances (run_credits cs d) !! user) = Some Pg.NaN.
Proof.
  induction cs as [|c cs IH]; intros d user row Hrow Hnan; cbn [run_credits].
  - now rewrite Hrow; cbn; rewrite Hnan.
  - destruct (processSessionRewards (credit_now c) (credit_userId c)
                (credit_energyAmount c) (credit_dopamineAmount c) (credit_sessionId c) d)
      as [r d1] eqn:Hstep.
    cbn [snd].
    assert (Hmid : exists row1, user_currency_balances d1 !! user = Some row1
                                /\ dopamine_balance row1 = Pg.NaN).
    { destruct (decide (user = credit_userId c)) as [->|Hne].
      - destruct r as [[]|e].
        + apply processSessionRewards_ok_inv in Hstep
            as (OLD & NEW & Hrow' & Hnew & _ & _ & _ & ->).
          rewrite Hrow in Hrow'. injection Hrow' as <-.
          exists NEW. split; [apply lookup_insert_eq|].
          apply credit_row_inv in Hnew as (_ & Hd & _).
          rewrite Hnan in Hd. cbn [Pg.plus] in Hd. now injection Hd.
        + rewrite (processSessionRewards_throw_inv _ _ _ _ _ _ _ _ Hstep). eauto.
      - exists row. split; [|exact Hnan].
        now rewrite (processSessionRewards_other_user _ _ _ _ _ _ _ _ _ Hstep Hne). }
    destruct Hmid as (row1 & Hrow1 & Hnan1). exact (IH d1 user row1 Hrow1 Hnan1).
Qed.

Lemma run_credits_NaN_stays_witness :
  dopamine_balance <$>
    (user_currency_balances
       (run_credits [ {| credit_now := 1; credit_userId := "u1";
                         credit_energyAmount := Js.of_Z 5;
                         credit_dopamineAmount := Js.of_Z 3;
                         credit_sessionId := "s2" |} ]
          (db (snd (completeSession 600000 "s1" "u1" None example_started)))) !! "u1")
  = Some Pg.NaN.
Proof.
  assert (Hrow : exists row,
             user_currency_balances
               (db (snd (completeSession 600000 "s1" "u1" None example_started))) !! "u1"
             = Some row /\ dopamine_balance row = Pg.NaN).
  { eexists. split; vm_compute; reflexivity. }
  destruct Hrow as (row & Hrow & Hnan).
  exact (run_credits_NaN_stays _ _ "u1" row Hrow Hnan).
Defined.






End Lifecycle.
